(** * Hollywood Mastery Destiny Protocol: the record store and the metrics engine

    A shallow embedding of [scripts.js].  The browser's [localStorage] is an
    ordered list of key/item pairs that is threaded through every function
    that reads or writes it; the wall clock is a time value [now] in
    milliseconds since the epoch, and the browser's time zone is a parameter
    of every function that reads the local calendar.  DOM reads and writes, alerts
    and timers are left out: a function that reads a number or a text from the
    page takes it as an argument.  Stored records are JavaScript values with
    integer numbers; the scores computed from them are exact rationals, with
    [NaN] where JavaScript divides zero by zero. *)

From Stdlib Require Import ZArith QArith Qround Qminmax Lqa Lia.
From Stdlib Require Import List String Ascii Bool DecimalString.
Import ListNotations.
Open Scope string_scope.
Open Scope Z_scope.

(** ** JavaScript values *)

(** Values that [JSON.parse] produces, and the objects the program builds from
    them.  An object is its list of own properties in insertion order.  An
    array carries its elements and the named properties set on it next to
    them.  Numbers in stored records are integers (the results of [parseInt],
    [Date.now()] and integer literals). *)
#[warnings="-register-all"]
Inductive value : Type :=
| VNull
| VBool (b : bool)
| VNum (n : Z)
| VStr (s : string)
| VArr (elems : list value) (props : list (string * value))
| VObj (fields : list (string * value)).

Definition Props := list (string * value).

(** [x ? .. : ..], [!x], [x || y] on a value that is there. *)
Definition truthy (v : value) : bool :=
  match v with
  | VNull => false
  | VBool b => b
  | VNum n => negb (n =? 0)
  | VStr s => negb (String.eqb s "")
  | VArr _ _ => true
  | VObj _ => true
  end.

(** The same on the result of a property read, [None] being [undefined]. *)
Definition truthy_opt (o : option value) : bool :=
  match o with
  | Some v => truthy v
  | None => false
  end.

Fixpoint lookup {A : Type} (k : string) (l : list (string * A)) : option A :=
  match l with
  | [] => None
  | (k', v) :: rest => if String.eqb k k' then Some v else lookup k rest
  end.

(** [obj[k] = v] on a property list: an existing property keeps its place. *)
Fixpoint assign {A : Type} (k : string) (v : A) (l : list (string * A))
  : list (string * A) :=
  match l with
  | [] => [(k, v)]
  | (k', v') :: rest =>
      if String.eqb k k' then (k, v) :: rest else (k', v') :: assign k v rest
  end.

(** [delete obj[k]] / [removeItem(k)]. *)
Fixpoint remove {A : Type} (k : string) (l : list (string * A))
  : list (string * A) :=
  match l with
  | [] => []
  | (k', v') :: rest =>
      if String.eqb k k' then remove k rest else (k', v') :: remove k rest
  end.

(** Whether the list has the property [k]. *)
Definition has_key {A : Type} (k : string) (l : list (string * A)) : bool :=
  existsb (String.eqb k) (map fst l).

(** [v.k] where [v] is neither [null] nor [undefined]: primitives have no own
    properties.  [None] is [undefined]. *)
Definition prop (k : string) (v : value) : option value :=
  match v with
  | VObj fields => lookup k fields
  | VArr _ props => lookup k props
  | _ => None
  end.

(** [v?.k] on the result of a previous read. *)
Definition prop_opt (k : string) (o : option value) : option value :=
  match o with
  | Some VNull => None
  | Some v => prop k v
  | None => None
  end.

(** [v.k = x] on an object or an array. *)
Definition setProp (k : string) (x : value) (v : value) : value :=
  match v with
  | VObj fields => VObj (assign k x fields)
  | VArr elems props => VArr elems (assign k x props)
  | _ => v
  end.

(** The number held by an XP field.  Every record the program writes has
    numbers there.  On a field that is missing or holds something else
    JavaScript adds [undefined] (giving [NaN]) or a string (concatenating),
    which is outside this model: there the field reads as 0, and the
    properties that depend on the sum assume a [typedRecord], on which this
    reading is exact. *)
Definition num (o : option value) : Z :=
  match o with
  | Some (VNum n) => n
  | _ => 0
  end.

(** [typeof v === 'object']: true of [null], arrays and objects. *)
Definition typeof_object (v : value) : bool :=
  match v with
  | VNull | VArr _ _ | VObj _ => true
  | _ => false
  end.

Definition is_boolean (o : option value) : bool :=
  match o with
  | Some (VBool _) => true
  | _ => false
  end.

(** ** localStorage *)

(** A stored string, up to what [JSON.parse] makes of it: either the JSON text
    of a value, or a string that [JSON.parse] rejects (the empty string is one
    of these).  [JSON.stringify v] is [Json v] for a value that a JSON text
    can carry ([jsonValue]): the named properties of an array are not
    written, which matters only for a daily record that is itself an
    array. *)
Inductive item : Type :=
| NotJson (s : string)
| Json (v : value).

(** The store in [localStorage.key(i)] order; keys are unique. *)
Definition Store := list (string * item).

Definition getItem (st : Store) (key : string) : option item := lookup key st.

Definition removeItem (st : Store) (key : string) : Store := remove key st.

(** [!item] on the result of [getItem]. *)
Definition item_falsy (o : option item) : bool :=
  match o with
  | None => true
  | Some (NotJson s) => String.eqb s ""
  | Some (Json _) => false
  end.

(** What a [try] block ends with. *)
Inductive outcome (A : Type) : Type :=
| Return (a : A)
| Throw (name : string).
Arguments Return {A} a.
Arguments Throw {A} name.

Definition JSON_parse (i : item) : outcome value :=
  match i with
  | NotJson _ => Throw "SyntaxError"
  | Json v => Return v
  end.

Definition JSON_stringify (v : value) : item := Json v.

(** Whether a value can carry properties. *)
Definition is_object (v : value) : bool :=
  match v with
  | VArr _ _ | VObj _ => true
  | _ => false
  end.

(** [if (!test(v.k)) v.k = d]. *)
Definition with_default (test : option value -> bool) (k : string) (d v : value)
  : value :=
  if test (prop k v) then v else setProp k d v.

(** Lines 9-13: the defaults written into a parsed object.  Reading a property
    of [null] throws. *)
Definition normalize (parsed : value) : outcome value :=
  match parsed with
  | VNull => Throw "TypeError"
  | _ =>
      Return (with_default is_boolean "alignment" (VBool false)
                (with_default truthy_opt "tasks" (VArr [] [])
                   (with_default truthy_opt "domains" (VObj []) parsed)))
  end.

(** What [normalize] leaves behind. *)
Definition normalized (v : value) : Prop :=
  is_object v = true
  /\ truthy_opt (prop "domains" v) = true
  /\ truthy_opt (prop "tasks" v) = true
  /\ is_boolean (prop "alignment" v) = true.

(** The body of the [try] block of [safeLocalStorageGet]. *)
Definition safeLocalStorageGet_try (st : Store) (key : string) (fallback : value)
  : outcome value :=
  let item := getItem st key in
  if item_falsy item then Return fallback
  else
    match item with
    | None => Return fallback
    | Some i =>
        match JSON_parse i with
        | Throw e => Throw e
        | Return parsed =>
            if String.prefix "mastery_" key && typeof_object parsed
            then normalize parsed
            else Return parsed
        end
    end.

Definition safeLocalStorageGet (st : Store) (key : string) (fallback : value)
  : value :=
  match safeLocalStorageGet_try st key fallback with
  | Return v => v
  | Throw _ => fallback
  end.

(** ** The calendar behind [Date] *)

Definition msPerDay : Z := 86400000.

(** Day number (days since 1970-01-01) to year, month (1-12) and day of the
    month, in the proleptic Gregorian calendar. *)
Definition civil_from_days (day : Z) : Z * Z * Z :=
  let z := day + 719468 in
  let era := z / 146097 in
  let doe := z - era * 146097 in
  let yoe := (doe - doe / 1460 + doe / 36524 - doe / 146096) / 365 in
  let doy := doe - (365 * yoe + yoe / 4 - yoe / 100) in
  let mp := (5 * doy + 2) / 153 in
  let d := doy - (153 * mp + 2) / 5 + 1 in
  let m := if mp <? 10 then mp + 3 else mp - 9 in
  let y := yoe + era * 400 in
  (if m <=? 2 then y + 1 else y, m, d).

(** [MakeDay]: year, month and day of the month to the day number. *)
Definition days_from_civil (y m d : Z) : Z :=
  let y' := if m <=? 2 then y - 1 else y in
  let era := y' / 400 in
  let yoe := y' - era * 400 in
  let doy := (153 * (if 2 <? m then m - 3 else m + 9) + 2) / 5 + d - 1 in
  let doe := yoe * 365 + yoe / 4 - yoe / 100 + doy in
  era * 146097 + doe - 719468.

Definition digit (n : Z) : ascii := ascii_of_nat (48 + Z.to_nat (n mod 10)).

Definition pad2 (n : Z) : string :=
  String (digit (n / 10)) (String (digit n) "").

Definition pad3 (n : Z) : string := String (digit (n / 100)) (pad2 n).

Definition pad4 (n : Z) : string := String (digit (n / 1000)) (pad3 n).

(** The date part [YYYY-MM-DD] of [toISOString], for the years 0000-9999. *)
Definition isoDate (day : Z) : string :=
  let '(y, m, d) := civil_from_days day in
  pad4 y ++ "-" ++ pad2 m ++ "-" ++ pad2 d.

Definition toISOString (t : Z) : string :=
  let ms := t mod msPerDay in
  isoDate (t / msPerDay) ++ "T" ++ pad2 (ms / 3600000) ++ ":"
    ++ pad2 (ms / 60000 mod 60) ++ ":" ++ pad2 (ms / 1000 mod 60) ++ "."
    ++ pad3 (ms mod 1000) ++ "Z".

(** [s.split('T')[0]]: what comes before the first [T]. *)
Fixpoint before_T (s : string) : string :=
  match s with
  | EmptyString => EmptyString
  | String c rest => if Ascii.eqb c "T" then EmptyString
                     else String c (before_T rest)
  end.

(** [d.toISOString().split('T')[0]]. *)
Definition dateString (t : Z) : string := before_T (toISOString t).

(** [getToday()]. *)
Definition getToday (now : Z) : string := dateString now.

(** The browser's time zone, as the language standard has it: [LocalTime]
    takes a time value to the local time, [UTC] takes a local time back to a
    time value.  [getDate], [getMonth], [getHours], [getDay], [setDate] and
    [setMonth] go through them; [Date.now()] and [toISOString] do not. *)
Record TimeZone : Type := {
  LocalTime : Z -> Z;
  UTC : Z -> Z
}.

(** [d.setDate(d.getDate() - i)] on the time value [t]: the local day moves
    by [i], the local time of day stays. *)
Definition daysBefore (zone : TimeZone) (t : Z) (i : Z) : Z :=
  UTC zone (LocalTime zone t - i * msPerDay).

(** [d.getHours()]. *)
Definition getHours (zone : TimeZone) (t : Z) : Z :=
  (LocalTime zone t mod msPerDay) / 3600000.

(** [d.setMonth(d.getMonth() - k)]: the same local day of the month and time
    of day, [k] months earlier; a day past the end of that month runs on into
    the next one. *)
Definition monthsBefore (zone : TimeZone) (t : Z) (k : Z) : Z :=
  let local := LocalTime zone t in
  let '(y, m, d) := civil_from_days (local / msPerDay) in
  let months := y * 12 + (m - 1) - k in
  UTC zone
    ((days_from_civil (months / 12) (months mod 12 + 1) 1 + (d - 1)) * msPerDay
     + local mod msPerDay).

Definition dayKey (t : Z) : string := "mastery_" ++ dateString t.

(** ** Static configuration *)

(** [Object.keys(DOMAINS)], in the order of the literal. *)
Definition DOMAIN_KEYS : list string :=
  ["creation"; "physical"; "meditation"; "recovery"].

(** [TASK_CATEGORIES[category].domain]. *)
Definition TASK_CATEGORIES : list (string * string) :=
  [("act", "creation"); ("study", "creation"); ("create", "creation");
   ("network", "creation"); ("reading", "creation"); ("writing", "creation");
   ("voice", "creation");
   ("marts", "physical"); ("cardio", "physical"); ("gym", "physical");
   ("yoga", "physical"); ("dance", "physical"); ("stretch", "physical");
   ("meditation", "meditation"); ("breathwork", "meditation");
   ("visualization", "meditation"); ("mindfulness", "meditation");
   ("sleep", "recovery"); ("nutrition", "recovery"); ("recovery", "recovery");
   ("planning", "recovery");
   ("scary", "special"); ("critical", "special")].

(** ** Reading a daily record *)

(** The elements a [forEach], [find] or [filter] runs over.  On a value that
    is truthy and not an array the call throws a [TypeError]; the properties
    that depend on it assume an array ([taskRecord], [typedRecord]). *)
Definition elements (o : option value) : list value :=
  match o with
  | Some (VArr elems _) => elems
  | _ => []
  end.

(** The properties [Object.keys(o).forEach] runs over. *)
Definition entries (o : option value) : Props :=
  match o with
  | Some (VObj fields) => fields
  | _ => []
  end.

Definition str (o : option value) : option string :=
  match o with
  | Some (VStr s) => Some s
  | _ => None
  end.

(** [if (data.domains) Object.keys(data.domains).forEach(domain =>
    totalXP += data.domains[domain].total)].  Exact where every entry is an
    object with a number as [total] ([typedRecord]); on a [null] entry the
    read of [total] throws. *)
Definition addDomainXP (totalXP : Z) (data : value) : Z :=
  if truthy_opt (prop "domains" data) then
    fold_left (fun acc (kv : string * value) => acc + num (prop "total" (snd kv)))
              (entries (prop "domains" data)) totalXP
  else totalXP.

(** [if (data.tasks) data.tasks.forEach(task =>
    { if (task.completed) totalXP += task.xp })]. *)
Definition addTaskXP (totalXP : Z) (data : value) : Z :=
  if truthy_opt (prop "tasks" data) then
    fold_left (fun acc task =>
                 if truthy_opt (prop "completed" task)
                 then acc + num (prop "xp" task) else acc)
              (elements (prop "tasks" data)) totalXP
  else totalXP.

(** The total that [saveAlignment], [loadWeekHeatmap] and the fallback
    branches of [loadStreak] and [updateStreakCalculator] compute. *)
Definition currentXP (data : value) : Z := addTaskXP (addDomainXP 0 data) data.

(** [let dayXP = data.totalXP || 0; if (!data.totalXP) { dayXP = 0; ... }]
    of [loadStreak] and [updateStreakCalculator]: the spec's [effectiveXP]. *)
Definition effectiveXP (data : value) : Z :=
  let dayXP := if truthy_opt (prop "totalXP" data)
               then num (prop "totalXP" data) else 0 in
  if negb (truthy_opt (prop "totalXP" data)) then currentXP data else dayXP.

(** ** Writing to localStorage *)

Section Browser.

Variable zone : TimeZone.

(** [new Date(s).getTime()] for a string that is not in the ISO format of the
    language standard; what comes out is up to the browser.  [None] is an
    invalid date. *)
Variable Date_parse : string -> option Z.

(** The exception [setItem] raises, by name, when the store would come to hold
    the given contents; [None] when they fit. *)
Variable storage_error : Store -> option string.

Definition setItem (st : Store) (key : string) (i : item) : outcome Store :=
  let st' := assign key i st in
  match storage_error st' with
  | Some name => Throw name
  | None => Return st'
  end.

(** [key.replace('mastery_', '')] on a key that starts with the prefix. *)
Definition strip_prefix (key : string) : string :=
  String.substring 8 (String.length key - 8) key.

(** One turn of the loop of [clearOldData] at index [i]. *)
Definition clearOldData_step (cutoff : Z) (st : Store) (key : string) : Store :=
  if String.prefix "mastery_" key && (String.length key =? 16)%nat then
    match Date_parse (strip_prefix key) with
    | Some date => if date <? cutoff then removeItem st key else st
    | None => st
    end
  else st.

(** [for (let i = 0; i < localStorage.length; i++)], the length being read
    again at every turn. *)
Fixpoint clearOldData_loop (fuel : nat) (cutoff : Z) (i : nat) (st : Store)
  : Store :=
  match fuel with
  | O => st
  | S fuel' =>
      match nth_error st i with
      | None => st
      | Some (key, _) =>
          clearOldData_loop fuel' cutoff (S i) (clearOldData_step cutoff st key)
      end
  end.

Definition clearOldData (now : Z) (st : Store) : Store :=
  clearOldData_loop (List.length st) (monthsBefore zone now 3) 0 st.

Definition safeLocalStorageSet (now : Z) (st : Store) (key : string) (v : value)
  : bool * Store :=
  match setItem st key (JSON_stringify v) with
  | Return st' => (true, st')
  | Throw name =>
      if String.eqb name "QuotaExceededError" then
        let st1 := clearOldData now st in
        match setItem st1 key (JSON_stringify v) with
        | Return st' => (true, st')
        | Throw _ => (false, st1)
        end
      else (false, st)
  end.


(** ** Task and domain operations *)

Definition has_id (taskId : Z) (t : value) : bool :=
  match prop "id" t with
  | Some (VNum n) => n =? taskId
  | _ => false
  end.

(** [const task = tasks.find(p); if (task) { f(task) }] on the elements of an
    array; [None] when no element satisfies [p]. *)
Fixpoint updateFound (p : value -> bool) (f : value -> value) (l : list value)
  : option (list value) :=
  match l with
  | [] => None
  | x :: rest =>
      if p x then Some (f x :: rest)
      else option_map (cons x) (updateFound p f rest)
  end.

(** The array with other elements, its own properties left as they are. *)
Definition withElements (elems : list value) (o : option value) : value :=
  match o with
  | Some (VArr _ props) => VArr elems props
  | _ => VArr elems []
  end.

(** [loadTodayTasks] only draws the page, but reads [categoryInfo.icon] for
    every task and so throws on a task whose category is not in
    [TASK_CATEGORIES]. *)
Definition loadTodayTasks_returns (now : Z) (st : Store) : bool :=
  let data := safeLocalStorageGet st (dayKey now) (VObj []) in
  forallb (fun task =>
             match str (prop "category" task) with
             | Some c => match lookup c TASK_CATEGORIES with
                         | Some _ => true
                         | None => false
                         end
             | None => false
             end)
          (elements (prop "tasks" data)).

(** [domainTotals[domain] = data.domains[domain].total;
    totalXP += data.domains[domain].total]. *)
Definition progress_domain (acc : Z * list (string * Z)) (kv : string * value)
  : Z * list (string * Z) :=
  let total := num (prop "total" (snd kv)) in
  (fst acc + total, assign (fst kv) total (snd acc)).

(** The body of the loop over the tasks in [updateDomainProgress]; [None]
    once [categoryInfo.domain] has thrown on a completed task of unknown
    category. *)
Definition progress_task (acc : option (Z * list (string * Z))) (task : value)
  : option (Z * list (string * Z)) :=
  match acc with
  | None => None
  | Some (totalXP, domainTotals) =>
      if truthy_opt (prop "completed" task) then
        match str (prop "category" task) with
        | None => None
        | Some c =>
            match lookup c TASK_CATEGORIES with
            | None => None
            | Some domain =>
                let xp := num (prop "xp" task) in
                let domainTotals' :=
                  if negb (String.eqb domain "special") then
                    assign domain
                      (match lookup domain domainTotals with
                       | Some t => t + xp
                       | None => xp
                       end) domainTotals
                  else domainTotals in
                Some (totalXP + xp, domainTotals')
            end
        end
      else acc
  end.

(** The totals that [updateDomainProgress] shows: the day's total and the
    total of each domain, with the XP of completed tasks counted in the domain
    of their category.  [None] when the function throws. *)
Definition progressTotals (data : value) : option (Z * list (string * Z)) :=
  let domainTotals0 := map (fun d => (d, 0)) DOMAIN_KEYS in
  let start :=
    if truthy_opt (prop "domains" data) then
      fold_left progress_domain (entries (prop "domains" data))
                (0, domainTotals0)
    else (0, domainTotals0) in
  if truthy_opt (prop "tasks" data) then
    fold_left progress_task (elements (prop "tasks" data)) (Some start)
  else Some start.

Definition updateDomainProgress (now : Z) (st : Store) : Store :=
  let key := dayKey now in
  let data := safeLocalStorageGet st key (VObj []) in
  match progressTotals data with
  | None => st
  | Some (totalXP, _) =>
      if truthy_opt (prop "alignment" data) then
        snd (safeLocalStorageSet now st key (setProp "totalXP" (VNum totalXP) data))
      else st
  end.

(** [loadTodayTasks(); updateDomainProgress();] after a write. *)
Definition refresh (now : Z) (st : Store) : Store :=
  if loadTodayTasks_returns now st then updateDomainProgress now st else st.

(** [addTask], with the trimmed text of the input box, the selected category
    and its XP. *)
Definition addTask (now : Z) (st : Store) (taskText currentCategory : string)
  (xpValue : Z) : Store :=
  if String.eqb taskText "" then st
  else
    let key := dayKey now in
    let data := safeLocalStorageGet st key (VObj []) in
    let data := with_default truthy_opt "tasks" (VArr [] []) data in
    let task := VObj [("id", VNum now); ("text", VStr taskText);
                      ("category", VStr currentCategory); ("xp", VNum xpValue);
                      ("completed", VBool false);
                      ("timestamp", VStr (toISOString now))] in
    let data := setProp "tasks"
                  (withElements (elements (prop "tasks" data) ++ [task])
                                (prop "tasks" data)) data in
    refresh now (snd (safeLocalStorageSet now st key data)).

Definition toggleTask (now : Z) (st : Store) (taskId : Z) : Store :=
  let key := dayKey now in
  let data := safeLocalStorageGet st key (VObj []) in
  if truthy_opt (prop "tasks" data) then
    match updateFound (has_id taskId)
            (fun task => setProp "completed"
                           (VBool (negb (truthy_opt (prop "completed" task)))) task)
            (elements (prop "tasks" data)) with
    | Some tasks =>
        let data := setProp "tasks" (withElements tasks (prop "tasks" data)) data in
        refresh now (snd (safeLocalStorageSet now st key data))
    | None => st
    end
  else st.

(** [deleteTask]; [confirmed] is the answer to the confirmation dialog. *)
Definition deleteTask (now : Z) (st : Store) (confirmed : bool) (taskId : Z)
  : Store :=
  if confirmed then
    let key := dayKey now in
    let data := safeLocalStorageGet st key (VObj []) in
    if truthy_opt (prop "tasks" data) then
      let data := setProp "tasks"
                    (VArr (filter (fun t => negb (has_id taskId t))
                                  (elements (prop "tasks" data))) []) data in
      refresh now (snd (safeLocalStorageSet now st key data))
    else st
  else st.

(** [saveTaskEdit], with the trimmed text, the XP and the category of the edit
    form and the global [currentEditingTaskId] ([None] for [null]). *)
Definition saveTaskEdit (now : Z) (st : Store) (taskText : string) (xpValue : Z)
  (category : string) (currentEditingTaskId : option Z) : Store :=
  if String.eqb taskText "" then st
  else if xpValue <=? 0 then st
  else
    let key := dayKey now in
    let data := safeLocalStorageGet st key (VObj []) in
    match currentEditingTaskId with
    | Some taskId =>
        if truthy_opt (prop "tasks" data) && negb (taskId =? 0) then
          match updateFound (has_id taskId)
                  (fun task =>
                     setProp "updated" (VStr (toISOString now))
                       (setProp "category" (VStr category)
                          (setProp "xp" (VNum xpValue)
                             (setProp "text" (VStr taskText) task))))
                  (elements (prop "tasks" data)) with
          | Some tasks =>
              let data := setProp "tasks" (withElements tasks (prop "tasks" data))
                            data in
              refresh now (snd (safeLocalStorageSet now st key data))
          | None => st
          end
        else st
    | None => st
    end.

(** The shared body of [addQuickDomainXP] and [addDomainActivity]; [activity]
    is the entry pushed onto the domain's log. *)
Definition addDomainEntry (now : Z) (st : Store) (domain : string) (xp : Z)
  (activity : value) : Store :=
  let key := dayKey now in
  let data := safeLocalStorageGet st key (VObj []) in
  let data := with_default truthy_opt "domains" (VObj []) data in
  let domains := match prop "domains" data with
                 | Some d => d
                 | None => VObj []
                 end in
  let domains :=
    with_default truthy_opt domain
      (VObj [("total", VNum 0); ("activities", VArr [] [])]) domains in
  let entry := match prop domain domains with
               | Some e => e
               | None => VObj []
               end in
  let entry := setProp "total" (VNum (num (prop "total" entry) + xp)) entry in
  let entry := setProp "activities"
                 (withElements (elements (prop "activities" entry) ++ [activity])
                               (prop "activities" entry)) entry in
  let data := setProp "domains" (setProp domain entry domains) data in
  updateDomainProgress now (snd (safeLocalStorageSet now st key data)).

Definition addQuickDomainXP (now : Z) (st : Store) (domain : string) (amount : Z)
  : Store :=
  addDomainEntry now st domain amount
    (VObj [("category", VStr domain); ("xp", VNum amount);
           ("timestamp", VStr (toISOString now)); ("quick", VBool true)]).

Definition addDomainActivity (now : Z) (st : Store) (domain category : string)
  (xp : Z) : Store :=
  addDomainEntry now st domain xp
    (VObj [("category", VStr category); ("xp", VNum xp);
           ("timestamp", VStr (toISOString now));
           ("description", VStr (category ++ " activity"))]).

(** [saveAlignment], with the trimmed text of the evidence box. *)
Definition saveAlignment (now : Z) (st : Store) (reason : string) : Store :=
  if (String.eqb reason "") || (String.length reason <? 30)%nat then st
  else
    let key := dayKey now in
    let data := safeLocalStorageGet st key (VObj []) in
    let totalXP := addTaskXP (addDomainXP 0 data) data in
    if totalXP <? 160 then st
    else
      let data := setProp "alignment" (VBool true) data in
      let data := setProp "alignmentReason" (VStr reason) data in
      let data := setProp "alignmentTime" (VStr (toISOString now)) data in
      let data := setProp "totalXP" (VNum totalXP) data in
      snd (safeLocalStorageSet now st key data).

(** ** Career metrics *)

(** [incrementMetric]; [detail] is the trimmed answer to the prompt.  The
    writes are bare [setItem] calls: an exception ends the function. *)
Definition incrementMetric (now : Z) (st : Store) (metricId detail : string)
  : Store :=
  if (String.length detail <? 5)%nat then st
  else
    let today := getToday now in
    let month := String.substring 0 7 (toISOString now) in
    let historyKey := metricId ++ "_history_" ++ month in
    let stored := getItem st historyKey in
    match (if item_falsy stored then Return (VArr [] [])
           else match stored with
                | Some i => JSON_parse i
                | None => Return (VArr [] [])
                end) with
    | Return (VArr elems props) =>
        let history :=
          VArr (elems ++ [VObj [("date", VStr today); ("project", VStr detail);
                                ("timestamp", VStr (toISOString now))]])
               props in
        match setItem st historyKey (JSON_stringify history) with
        | Return st1 =>
            let key := "mastery_" ++ metricId ++ "_" ++ month in
            match setItem st1 key
                    (Json (VNum (Z.of_nat (List.length (elements (Some history))))))
            with
            | Return st2 => st2
            | Throw _ => st1
            end
        | Throw _ => st
        end
    | _ => st
    end.

(** ** Backup *)

Record Metadata : Type := {
  version : string;
  backupDate : string;
  totalEntries : Z;
  system : string
}.

(** A property of the backup object: a stored string as [getItem] returned it
    ([None] for [null]), or the metadata record. *)
Inductive BackupValue : Type :=
| Stored (i : option item)
| Meta (m : Metadata).

Definition Backup := list (string * BackupValue).

(** The condition of lines 710-715. *)
Definition backed_up (key : string) : bool :=
  String.prefix "mastery_" key
  || String.prefix "industry_" key
  || String.eqb key "current_intensity"
  || String.eqb key "mastery_goal_path"
  || String.eqb key "mastery_runway_savings"
  || String.eqb key "mastery_runway_expenses".



(** The body of the loop of [backupEntireSystem] at the pair [kv] of the
    store: [if (..) backup[key] = localStorage.getItem(key)]. *)
Definition backup_step (st : Store) (backup : Backup) (kv : string * item)
  : Backup :=
  let key := fst kv in
  if backed_up key then assign key (Stored (getItem st key)) backup
  else backup.

(** The backup object that [backupEntireSystem] serializes into the download,
    and the store once [last_backup_time] is written.  [totalEntries] is
    computed before the [_metadata] property exists. *)
Definition backupEntireSystem (now : Z) (st : Store) : Backup * Store :=
  let backup := fold_left (backup_step st) st [] in
  let metadata := {| version := "2.0";
                     backupDate := toISOString now;
                     totalEntries := Z.of_nat (List.length (map fst backup)) - 1;
                     system := "Hollywood Mastery Destiny Protocol" |} in
  let backup := assign "_metadata" (Meta metadata) backup in
  match setItem st "last_backup_time" (NotJson (toISOString now)) with
  | Return st' => (backup, st')
  | Throw _ => (backup, st)
  end.

End Browser.

(** ** The last seven days *)

(** The record of the day [i] days before [now], as [loadStreak] and
    [getLast7DaysData] read it. *)
Definition dayRecord (zone : TimeZone) (now : Z) (st : Store) (i : Z) : value :=
  safeLocalStorageGet st (dayKey (daysBefore zone now i)) (VObj []).

(** Today's record, as the task and domain operations read it. *)
Definition todayRecord (now : Z) (st : Store) : value :=
  safeLocalStorageGet st (dayKey now) (VObj []).

Record DayEntry : Type := {
  date : string;
  totalXP : Z;
  domains : list (string * Z);
  alignment : bool
}.

(** [day.domains[domain] || 0]. *)
Definition domainXP (day : DayEntry) (domain : string) : Z :=
  match lookup domain (domains day) with
  | Some x => x
  | None => 0
  end.

(** The body of the loop of [getLast7DaysData] for the day [i] days back,
    pushing onto [days]. *)
Definition getLast7DaysData_step (zone : TimeZone) (now : Z) (st : Store)
  (days : list DayEntry) (i : nat) : list DayEntry :=
  let dateString := dateString (daysBefore zone now (Z.of_nat i)) in
  let data := safeLocalStorageGet st ("mastery_" ++ dateString) (VObj []) in
  let '(totalXP, domains) :=
    fold_left (fun (acc : Z * list (string * Z)) domain =>
                 let total := prop_opt "total"
                                (prop_opt domain (prop "domains" data)) in
                 let x := if truthy_opt total then num total else 0 in
                 (fst acc + x, assign domain x (snd acc)))
              DOMAIN_KEYS (0, []) in
  let totalXP := addTaskXP totalXP data in
  days ++ [{| date := dateString;
              totalXP := totalXP;
              domains := domains;
              alignment := truthy_opt (prop "alignment" data) |}].

Definition getLast7DaysData (zone : TimeZone) (now : Z) (st : Store)
  : list DayEntry :=
  fold_left (getLast7DaysData_step zone now st) (seq 0 7) [].

(** The same data, described directly. *)

(** A day's activity total in a domain: [data.domains?.[domain]?.total || 0]. *)
Definition activityTotal (data : value) (domain : string) : Z :=
  num (prop_opt "total" (prop_opt domain (prop "domains" data))).

(** The tasks of a day that are completed. *)
Definition completedTasks (data : value) : list value :=
  filter (fun task => truthy_opt (prop "completed" task))
         (elements (prop "tasks" data)).

Definition sumZ (l : list Z) : Z := fold_right Z.add 0 l.

(** The XP of a day's completed tasks. *)
Definition completedTaskXP (data : value) : Z :=
  sumZ (map (fun task => num (prop "xp" task)) (completedTasks data)).

(** The XP of a day's domain activity, over all the domains of the record. *)
Definition domainActivityXP (data : value) : Z :=
  sumZ (map (fun kv : string * value => num (prop "total" (snd kv)))
            (entries (prop "domains" data))).

(** The XP that [loadStreak] takes for a day: the stored [totalXP] when it is
    a number other than 0, and otherwise the domain activity and the completed
    tasks added up. *)
Definition storedOrCountedXP (data : value) : Z :=
  match prop "totalXP" data with
  | Some (VNum n) =>
      if n =? 0 then domainActivityXP data + completedTaskXP data else n
  | _ => domainActivityXP data + completedTaskXP data
  end.

(** A day that counts for the streak: [alignment === true] and 160 XP or
    more. *)
Definition qualifies (data : value) : bool :=
  match prop "alignment" data with
  | Some (VBool true) => 160 <=? storedOrCountedXP data
  | _ => false
  end.

(** The domain a task belongs to by the category table. *)
Definition taskDomain (task : value) : option string :=
  match str (prop "category" task) with
  | Some c => lookup c TASK_CATEGORIES
  | None => None
  end.

(** The per-domain value the spec describes: the activity total plus the XP
    of the completed tasks whose category maps to the domain. *)
Definition domainTotalWithTasks (data : value) (domain : string) : Z :=
  activityTotal data domain
  + sumZ (map (fun task => num (prop "xp" task))
              (filter (fun task =>
                         match taskDomain task with
                         | Some d => String.eqb d domain
                         | None => false
                         end)
                      (completedTasks data))).

(** The entry that [getLast7DaysData] holds for the day [i] days back. *)
Definition dayEntry (zone : TimeZone) (now : Z) (st : Store) (i : nat)
  : DayEntry :=
  let data := dayRecord zone now st (Z.of_nat i) in
  {| date := dateString (daysBefore zone now (Z.of_nat i));
     totalXP := sumZ (map (activityTotal data) DOMAIN_KEYS)
                + completedTaskXP data;
     domains := map (fun domain => (domain, activityTotal data domain))
                    DOMAIN_KEYS;
     alignment := truthy_opt (prop "alignment" data) |}.

(** ** Momentum *)

(** A JavaScript number as the metrics compute it: a rational, or [NaN].
    Arithmetic is exact. *)
Inductive number : Type :=
| NaN
| Num (q : Q).

Definition lift2 (f : Q -> Q -> Q) (a b : number) : number :=
  match a, b with
  | Num x, Num y => Num (f x y)
  | _, _ => NaN
  end.

Definition nadd : number -> number -> number := lift2 Qplus.
Definition nsub : number -> number -> number := lift2 Qminus.
Definition nmul : number -> number -> number := lift2 Qmult.

(** [a / b].  A zero divisor gives [NaN], which is what [0 / 0] is; every
    division of the program either has a non-zero divisor or divides the sum
    of an empty list by its length. *)
Definition ndiv (a b : number) : number :=
  match a, b with
  | Num x, Num y => if Qeq_bool y 0 then NaN else Num (x / y)
  | _, _ => NaN
  end.

Definition Math_min2 : number -> number -> number := lift2 Qmin.
Definition Math_max2 : number -> number -> number := lift2 Qmax.

(** [Math.min(...xs)] and [Math.max(...xs)] of at least one number. *)
Definition Math_min (xs : list number) : number :=
  match xs with
  | [] => NaN
  | x :: rest => fold_left Math_min2 rest x
  end.

Definition Math_max (xs : list number) : number :=
  match xs with
  | [] => NaN
  | x :: rest => fold_left Math_max2 rest x
  end.

(** [Math.round]: the nearest integer, halves going up. *)
Definition round (q : Q) : Z := Qfloor (q + (1 # 2))%Q.

Definition Math_round (a : number) : number :=
  match a with
  | Num x => Num (inject_Z (round x))
  | NaN => NaN
  end.

(** Comparisons: false as soon as one side is [NaN]. *)
Definition n_lt (a b : number) : bool :=
  match a, b with
  | Num x, Num y => negb (Qle_bool y x)
  | _, _ => false
  end.

Definition n_le (a b : number) : bool :=
  match a, b with
  | Num x, Num y => Qle_bool x y
  | _, _ => false
  end.

Definition n_eq (a b : number) : bool :=
  match a, b with
  | Num x, Num y => Qeq_bool x y
  | _, _ => false
  end.

Definition ofZ (z : Z) : number := Num (inject_Z z).

Definition ofNat (n : nat) : number := ofZ (Z.of_nat n).

(** [days.reduce((sum, day) => sum + day.totalXP, 0)]. *)
Definition sumXP (days : list DayEntry) : Z :=
  fold_left (fun sum day => sum + totalXP day) days 0.

Definition calculateConsistencyScore (days : list DayEntry) : number :=
  let completedDays :=
    List.length (filter (fun day => 160 <=? totalXP day) days) in
  nmul (ndiv (ofNat completedDays) (ofZ 7)) (ofZ 100).

Definition calculateGrowthScore (days : list DayEntry) : number :=
  if (List.length days <? 2)%nat then ofZ 50
  else
    let recent := firstn 3 days in
    let older := skipn 3 days in
    let recentAvg := ndiv (ofZ (sumXP recent)) (ofNat (List.length recent)) in
    let olderAvg := ndiv (ofZ (sumXP older)) (ofNat (List.length older)) in
    if n_eq olderAvg (ofZ 0) then
      (if n_lt (ofZ 0) recentAvg then ofZ 100 else ofZ 0)
    else
      let growth := nmul (ndiv (nsub recentAvg olderAvg) olderAvg) (ofZ 100) in
      Math_min2 (Math_max2 (nadd growth (ofZ 50)) (ofZ 0)) (ofZ 100).

Definition calculateBalanceScore (days : list DayEntry) : number :=
  let domainAverages :=
    map (fun domain =>
           let domainTotal :=
             fold_left (fun sum day => sum + domainXP day domain) days 0 in
           ndiv (ofZ domainTotal) (ofNat (List.length days)))
        DOMAIN_KEYS in
  let min := Math_min domainAverages in
  let max := Math_max domainAverages in
  if n_eq max (ofZ 0) then ofZ 0
  else nmul (ndiv min max) (ofZ 100).

Definition calculateIntensityScore (days : list DayEntry) : number :=
  let intensityDays :=
    List.length (filter (fun day => 200 <=? totalXP day) days) in
  nmul (ndiv (ofNat intensityDays) (ofZ 7)) (ofZ 100).

Definition calculateMomentumScoreForPeriod (periodDays : list DayEntry)
  : number :=
  if (List.length periodDays =? 0)%nat then ofZ 0
  else ndiv (ofZ (sumXP periodDays)) (ofNat (List.length periodDays)).

Definition getMomentumTrend (days : list DayEntry) (currentScore : number)
  : string :=
  if (List.length days <? 4)%nat then "starting"
  else
    let recentScore := calculateMomentumScoreForPeriod (firstn 3 days) in
    let previousScore :=
      calculateMomentumScoreForPeriod (firstn 3 (skipn 3 days)) in
    if n_lt (nadd recentScore (ofZ 10)) currentScore then "accelerating"
    else if n_lt (nadd recentScore (ofZ 5)) currentScore then "growing"
    else if n_le (nsub recentScore (ofZ 5)) currentScore then "steady"
    else "declining".

Record Factors : Type := {
  consistency : number;
  growth : number;
  balance : number;
  intensity : number
}.

Definition generateMomentumRecommendation (score : number) (trend : string)
  (factors : Factors) : string :=
  if n_le (ofZ 90) score then
    "Elite momentum! Maintain this intensity and focus on breakthrough opportunities."
  else if n_le (ofZ 75) score then
    "Strong momentum! Increase intensity slightly for breakthrough acceleration."
  else if n_le (ofZ 60) score then
    if n_lt (consistency factors) (ofZ 80) then
      "Good progress! Focus on daily consistency to build unstoppable momentum."
    else if n_lt (growth factors) (ofZ 60) then
      "Consistent but stagnant. Add 10% more intensity to each domain."
    else
      "Solid foundation! Now push one domain to mastery level each day."
  else if n_le (ofZ 40) score then
    "Building foundation. Focus on hitting daily minimums consistently."
  else
    "Initial phase. Start with one domain at a time and build consistency.".

Record Momentum : Type := {
  score : number;
  trend : string;
  recommendation : string;
  factors : option Factors
}.

(** The body of [calculateMomentumScore] once [last7Days] is read: the spec's
    [momentumScore(window)]. *)
Definition momentumScore (last7Days : list DayEntry) : Momentum :=
  if (List.length last7Days =? 0)%nat then
    {| score := ofZ 0;
       trend := "starting";
       recommendation := "Begin your journey with consistent daily effort.";
       factors := None |}
  else
    let factors := {| consistency := calculateConsistencyScore last7Days;
                      growth := calculateGrowthScore last7Days;
                      balance := calculateBalanceScore last7Days;
                      intensity := calculateIntensityScore last7Days |} in
    let score :=
      Math_round
        (nadd (nadd (nadd (nmul (consistency factors) (Num (4 # 10)))
                          (nmul (growth factors) (Num (3 # 10))))
                    (nmul (balance factors) (Num (2 # 10))))
              (nmul (intensity factors) (Num (1 # 10)))) in
    let trend := getMomentumTrend last7Days score in
    let recommendation := generateMomentumRecommendation score trend factors in
    {| score := score;
       trend := trend;
       recommendation := recommendation;
       factors := Some factors |}.

Definition calculateMomentumScore (zone : TimeZone) (now : Z) (st : Store)
  : Momentum :=
  momentumScore (getLast7DaysData zone now st).

(** The trend in the spec's words: the average XP of [days[0:3]] against the
    average XP of [days[3:6]]. *)
Definition trendOfBlocks (days : list DayEntry) : string :=
  if (List.length days <? 4)%nat then "starting"
  else
    let current := calculateMomentumScoreForPeriod (firstn 3 days) in
    let recent := calculateMomentumScoreForPeriod (firstn 3 (skipn 3 days)) in
    if n_lt (nadd recent (ofZ 10)) current then "accelerating"
    else if n_lt (nadd recent (ofZ 5)) current then "growing"
    else if n_le (nsub recent (ofZ 5)) current then "steady"
    else "declining".

(** A well-formed entry: no negative XP. *)
Definition wellFormedDay (day : DayEntry) : Prop :=
  0 <= totalXP day /\ forall domain, 0 <= domainXP day domain.

(** A factor between 0 and 100. *)
Definition in_range (x : number) : Prop :=
  exists q, x = Num q /\ (0 <= q <= 100)%Q.

(** ** Streak *)

Record Streak : Type := {
  currentStreak : Z;
  streakAtRisk : bool;
  todayComplete : bool
}.

(** [for (let i = 1; i <= 30; i++)] of [loadStreak], entered at [i] with
    [turns] turns left. *)
Fixpoint loadStreak_loop (zone : TimeZone) (turns : nat) (now : Z) (st : Store)
  (i : Z)
  (currentStreak : Z) : Z :=
  match turns with
  | O => currentStreak
  | S turns' =>
      let data :=
        safeLocalStorageGet st (dayKey (daysBefore zone now i)) (VObj []) in
      if truthy_opt (prop "alignment" data) then
        let dayXP := effectiveXP data in
        if 160 <=? dayXP
        then loadStreak_loop zone turns' now st (i + 1) (currentStreak + 1)
        else currentStreak
      else currentStreak
  end.

(** What [loadStreak] writes to the page. *)
Definition loadStreak (zone : TimeZone) (now : Z) (st : Store) : Streak :=
  let currentHour := getHours zone now in
  let todayData := safeLocalStorageGet st (dayKey now) (VObj []) in
  let todayXP := effectiveXP todayData in
  let todayComplete :=
    truthy_opt (prop "alignment" todayData) && (160 <=? todayXP) in
  let streakAtRisk := negb todayComplete && (20 <=? currentHour) in
  {| currentStreak := loadStreak_loop zone 30 now st 1 0;
     streakAtRisk := streakAtRisk;
     todayComplete := todayComplete |}.

(** The spec's condition on a day of the streak: [alignment === true] and
    [effectiveXP >= 160]. *)
Definition streakDay (data : value) : bool :=
  match prop "alignment" data with
  | Some (VBool true) => 160 <=? effectiveXP data
  | _ => false
  end.

(** ** Breakthrough probability *)

Module Breakdown.

Record t : Type := {
  consistency : Z;
  opportunities : Z;
  callbacks : Z;
  bookings : Z
}.

End Breakdown.

Record Probability : Type := {
  total : Z;
  breakdown : Breakdown.t
}.

(** [calculateHollywoodProbability], with the four counts that it reads from
    the page ([parseInt(..) || 0]). *)
Definition calculateHollywoodProbability (streak tier1Auditions callbacks roles : Z)
  : Probability :=
  let consistencyScore := Qmin (inject_Z streak * (8 # 10)) 20 in
  let opportunitiesScore := Qmin (inject_Z tier1Auditions * (6 # 10)) 30 in
  let callbacksScore := Qmin (inject_Z callbacks * 4) 30 in
  let bookingsScore := Qmin (inject_Z roles * 20) 20 in
  let totalProbability :=
    Qmin (consistencyScore + opportunitiesScore + callbacksScore + bookingsScore)
         95 in
  {| total := round totalProbability;
     breakdown := {| Breakdown.consistency := round consistencyScore;
                     Breakdown.opportunities := round opportunitiesScore;
                     Breakdown.callbacks := round callbacksScore;
                     Breakdown.bookings := round bookingsScore |} |}.

(** ** Weak domains and the preview of tomorrow *)

(** [DOMAINS[domain].target]. *)
Definition DOMAIN_TARGETS : list (string * Z) :=
  [("creation", 40); ("physical", 40); ("meditation", 40); ("recovery", 40)].

Definition domainTarget (domain : string) : Z :=
  match lookup domain DOMAIN_TARGETS with
  | Some target => target
  | None => 0
  end.

(** [c.toUpperCase()] on a character of the ASCII range. *)
Definition toUpperCase_ascii (c : ascii) : ascii :=
  let n := nat_of_ascii c in
  if ((97 <=? n) && (n <=? 122))%nat then ascii_of_nat (n - 32) else c.

(** [s.charAt(0).toUpperCase() + s.slice(1)]. *)
Definition capitalize (s : string) : string :=
  match s with
  | EmptyString => EmptyString
  | String c rest => String (toUpperCase_ascii c) rest
  end.

(** The icons are kept as the source file spells them. *)
Definition getDomainIcon (domain : string) : string :=
  match lookup domain
          [("creation", "üé≠"); ("physical", "üí™");
           ("meditation", "üßò"); ("recovery", "üò¥")]
  with
  | Some icon => icon
  | None => "üìä"
  end.

Module WeakDomain.

Record t : Type := {
  name : string;
  icon : string;
  target : Z;
  current : number
}.

End WeakDomain.

(** [days.reduce((sum, day) => sum + (day.domains[domain] || 0), 0)]. *)
Definition domainSum (days : list DayEntry) (domain : string) : Z :=
  fold_left (fun sum day => sum + domainXP day domain) days 0.

Definition findWeakDomains (zone : TimeZone) (now : Z) (st : Store)
  : list WeakDomain.t :=
  let last7Days := getLast7DaysData zone now st in
  let domainAverages :=
    map (fun domain =>
           (domain, ndiv (ofZ (domainSum last7Days domain))
                         (ofNat (List.length last7Days))))
        DOMAIN_KEYS in
  fold_left (fun weakDomains (kv : string * number) =>
               let domain := fst kv in
               if n_lt (snd kv) (nmul (ofZ (domainTarget domain)) (Num (7 # 10)))
               then (weakDomains
                       ++ [{| WeakDomain.name := capitalize domain;
                              WeakDomain.icon := getDomainIcon domain;
                              WeakDomain.target := domainTarget domain;
                              WeakDomain.current := snd kv |}])%list
               else weakDomains)
            domainAverages [].

(** [`${n}`] for an integer. *)
Definition string_of_Z (n : Z) : string := NilZero.string_of_int (Z.to_int n).

Module Preview.

Record priority : Type := {
  name : string;
  icon : string;
  recommendation : string
}.

Record t : Type := {
  focus : string;
  scaryTask : string;
  domainPriorities : list priority
}.

End Preview.

Definition generateTomorrowPreview (zone : TimeZone) (now : Z) (st : Store)
  : Preview.t :=
  let momentum := calculateMomentumScore zone now st in
  let weakDomains := findWeakDomains zone now st in
  let '(focus, scaryTask) :=
    if n_lt (score momentum) (ofZ 60) then
      ("Foundation Building: Focus on hitting all domain minimums consistently",
       "Complete one task in your weakest domain with extra intensity")
    else if n_lt (score momentum) (ofZ 80) then
      ("Momentum Acceleration: Push one domain beyond target for breakthrough",
       "Reach 200+ total XP by adding intensity to strong domains")
    else
      ("Breakthrough Mode: All domains at 150%+ target, focus on industry outreach",
       "Schedule 3 industry follow-ups or new contact attempts") in
  let domainPriorities :=
    map (fun domain =>
           {| Preview.name := WeakDomain.name domain;
              Preview.icon := WeakDomain.icon domain;
              Preview.recommendation :=
                "Aim for " ++ string_of_Z (WeakDomain.target domain + 10) ++ " XP" |})
        weakDomains in
  let domainPriorities :=
    if (List.length domainPriorities =? 0)%nat then
      (domainPriorities
         ++ [{| Preview.name := "Creation"; Preview.icon := "üé≠";
                Preview.recommendation := "Focus on industry networking" |};
             {| Preview.name := "Physical"; Preview.icon := "üí™";
                Preview.recommendation := "Add intensity to weakest exercise" |};
             {| Preview.name := "Meditation"; Preview.icon := "üßò";
                Preview.recommendation := "Extend session by 10 minutes" |};
             {| Preview.name := "Recovery"; Preview.icon := "üò¥";
                Preview.recommendation := "Quality sleep focus" |}])%list
    else domainPriorities in
  {| Preview.focus := focus;
     Preview.scaryTask := scaryTask;
     Preview.domainPriorities := domainPriorities |}.

(** ** Today's completion *)

(** [!!(data.alignment && (data.totalXP >= 160))]. *)
Definition checkTodayCompletion (now : Z) (st : Store) : bool :=
  let data := safeLocalStorageGet st (dayKey now) (VObj []) in
  truthy_opt (prop "alignment" data) && (160 <=? num (prop "totalXP" data)).

(** ** The week *)

(** [d.getDay()]: 0 for Sunday; 1 January 1970 was a Thursday. *)
Definition getDay (zone : TimeZone) (t : Z) : Z :=
  (LocalTime zone t / msPerDay + 4) mod 7.

(** [getWeekStart]: [setDate] moves the local date by
    [(day === 0 ? -6 : 1) - day] days. *)
Definition getWeekStart (zone : TimeZone) (now : Z) : string :=
  let day := getDay zone now in
  let diff := (if day =? 0 then -6 else 1) - day in
  dateString (UTC zone (LocalTime zone now + diff * msPerDay)).

(** ** The undo history *)

Definition MAX_HISTORY : nat := 10.

Section Undo.

(** What the actions act on. *)
Variable State : Type.

Record Action : Type := {
  description : string;
  execute : State -> State;
  undo : State -> State
}.

(** [new TaskAction(taskId, type, data)]: the description follows the type;
    [execute] and [undo] have empty bodies. *)
Definition TaskAction (taskId : Z) (type : string) (data : value) : Action :=
  {| description :=
       if String.eqb type "add" then "Added task"
       else if String.eqb type "delete" then "Deleted task"
       else if String.eqb type "toggle" then "Toggled task"
       else "Modified task";
     execute := fun s => s;
     undo := fun s => s |}.

(** [executeAction] on the state and the global [actionHistory]. *)
Definition executeAction (action : Action) (s : State)
  (actionHistory : list Action) : State * list Action :=
  let s := execute action s in
  let actionHistory := (actionHistory ++ [action])%list in
  if (MAX_HISTORY <? List.length actionHistory)%nat
  then (s, tl actionHistory)
  else (s, actionHistory).

(** [undoLastAction]; the toast is left out. *)
Definition undoLastAction (s : State) (actionHistory : list Action)
  : State * list Action :=
  match rev actionHistory with
  | [] => (s, actionHistory)
  | action :: _ => (undo action s, removelast actionHistory)
  end.

End Undo.

(** ** Restore, metrics and runway *)

Section BrowserStorage.

Variable storage_error : Store -> option string.

(** The string [setItem] stores for a property of the parsed backup file. *)
Definition restore_value (v : BackupValue) : item :=
  match v with
  | Stored (Some i) => i
  | Stored None => Json VNull
  | Meta _ => NotJson "[object Object]"
  end.

(** The loop of lines 766-776, which removes inside the walk by index. *)
Fixpoint restore_clear_loop (fuel : nat) (i : nat) (st : Store) : Store :=
  match fuel with
  | O => st
  | S fuel' =>
      match nth_error st i with
      | None => st
      | Some (key, _) =>
          restore_clear_loop fuel' (S i)
            (if backed_up key then removeItem st key else st)
      end
  end.

(** [Object.keys(backup).forEach(key => { if (key !== '_metadata')
    localStorage.setItem(key, backup[key]) })]; an exception ends the walk,
    the writes made so far stay. *)
Fixpoint restore_entries (all rest : Backup) (st : Store) : Store :=
  match rest with
  | [] => st
  | (key, _) :: rest' =>
      if String.eqb key "_metadata" then restore_entries all rest' st
      else
        match lookup key all with
        | Some v =>
            match setItem storage_error st key (restore_value v) with
            | Return st' => restore_entries all rest' st'
            | Throw _ => st
            end
        | None => restore_entries all rest' st
        end
  end.

(** The handler of [restoreSystemBackup] on the parsed file [backup];
    [confirmed] is the answer to the confirmation dialog. *)
Definition restoreSystemBackup (backup : Backup) (confirmed : bool) (st : Store)
  : Store :=
  match lookup "_metadata" backup with
  | Some (Meta m) =>
      if String.eqb (system m) "Hollywood Mastery Destiny Protocol" then
        if confirmed then
          let st := restore_clear_loop (List.length st) 0 st in
          restore_entries backup backup st
        else st
      else st
  | _ => st
  end.

(** [history.length] of a parsed history: [None] is [undefined]. *)
Definition value_length (v : value) : outcome (option Z) :=
  match v with
  | VNull => Throw "TypeError"
  | VArr elems _ => Return (Some (Z.of_nat (List.length elems)))
  | VStr s => Return (Some (Z.of_nat (String.length s)))
  | _ => Return None
  end.

Definition METRICS : list string :=
  ["tier1-auditions"; "tier2-auditions"; "callbacks-count"; "roles-count"].

(** [JSON.parse(localStorage.getItem(key) || '[]')]. *)
Definition parse_or_empty_array (st : Store) (key : string) : outcome value :=
  let stored := getItem st key in
  if item_falsy stored then Return (VArr [] [])
  else match stored with
       | Some i => JSON_parse i
       | None => Return (VArr [] [])
       end.

(** What [loadMetrics] shows for one metric. *)
Definition metricCount (now : Z) (st : Store) (metric : string)
  : outcome (option Z) :=
  let month := String.substring 0 7 (toISOString now) in
  match parse_or_empty_array st (metric ++ "_history_" ++ month) with
  | Return history => value_length history
  | Throw e => Throw e
  end.

(** [loadMetrics]: the counts shown, metric by metric, up to an exception. *)
Fixpoint loadMetrics_loop (now : Z) (st : Store) (metrics : list string)
  : outcome (list (string * option Z)) :=
  match metrics with
  | [] => Return []
  | metric :: rest =>
      match metricCount now st metric with
      | Throw e => Throw e
      | Return n =>
          match loadMetrics_loop now st rest with
          | Throw e => Throw e
          | Return shown => Return ((metric, n) :: shown)
          end
      end
  end.

Definition loadMetrics (now : Z) (st : Store)
  : outcome (list (string * option Z)) :=
  loadMetrics_loop now st METRICS.

(** [updateRunway]; the two fields come as [parseInt] read them, [None] for
    [NaN].  The result is the number shown, its class, and the store. *)
Definition updateRunway (savingsField expensesField : option Z) (st : Store)
  : Z * string * Store :=
  let savings := match savingsField with
                 | Some n => if n =? 0 then 0 else n
                 | None => 0
                 end in
  let expenses := match expensesField with
                  | Some n => if n =? 0 then 1 else n
                  | None => 1
                  end in
  let runwayMonths := savings / expenses in
  let className :=
    if runwayMonths <=? 3 then "runway-value status-danger"
    else if runwayMonths <=? 6 then "runway-value status-warning"
    else "runway-value status-good" in
  let st :=
    match setItem storage_error st "mastery_runway_savings" (Json (VNum savings))
    with
    | Return st1 =>
        match setItem storage_error st1 "mastery_runway_expenses"
                (Json (VNum expenses)) with
        | Return st2 => st2
        | Throw _ => st1
        end
    | Throw _ => st
    end in
  (runwayMonths, className, st).

End BrowserStorage.

(** ** Time zones *)

(** A browser on UTC. *)
Definition utcZone : TimeZone := {| LocalTime := fun t => t; UTC := fun t => t |}.

(** The clock does not change between the local day of [now] and the day
    [days] days before it: [setDate] then steps whole days of 24 hours.  Every
    zone with a fixed offset is steady at every time. *)
Definition steadyClock (zone : TimeZone) (now : Z) (days : Z) : Prop :=
  forall i, 0 <= i <= days -> daysBefore zone now i = now - i * msPerDay.

(** Pacific time with the two clock changes of 2026: daylight time from
    2026-03-08T10:00Z to 2026-11-01T09:00Z.  A local time that the clock
    skips is read with the offset before the change, one that it shows twice
    is the earlier of the two. *)
Definition springForward2026 : Z := 20520 * msPerDay + 10 * 3600000.
Definition fallBack2026 : Z := 20758 * msPerDay + 9 * 3600000.

Definition pacific2026 : TimeZone :=
  {| LocalTime := fun t =>
       if (springForward2026 <=? t) && (t <? fallBack2026)
       then t - 7 * 3600000 else t - 8 * 3600000;
     UTC := fun local =>
       if local <? springForward2026 - 7 * 3600000 then local + 8 * 3600000
       else if local <? fallBack2026 - 7 * 3600000 then local + 7 * 3600000
       else local + 8 * 3600000 |}.

(** ** Shapes and relations of stores *)

(** A parsed object with the three defaults filled in: what [normalize]
    returns on anything but [null]. *)
Definition filled (v : value) : value :=
  with_default is_boolean "alignment" (VBool false)
    (with_default truthy_opt "tasks" (VArr [] [])
       (with_default truthy_opt "domains" (VObj []) v)).

(** Two stores that agree on every key other than today's, the keys of 16
    characters apart (those are the ones the sweep may remove). *)
Definition sameElsewhere (now : Z) (st st' : Store) : Prop :=
  forall k, k <> dayKey now -> String.length k <> 16%nat ->
            getItem st' k = getItem st k.

(** Day numbers whose years print with four digits: from 1 March 0000 to the
    end of February 9600. *)
Definition fourDigitYears (day : Z) : Prop := -719468 <= day < 2786860.

(** A plain object, as [JSON.parse] gives for an object text. *)
Definition is_record (v : value) : bool :=
  match v with
  | VObj _ => true
  | _ => false
  end.

(** A daily record whose [tasks], if there, is an array of objects. *)
Definition taskRecord (data : value) : bool :=
  is_record data
  && match prop "tasks" data with
     | None => true
     | Some (VArr elems _) => forallb is_object elems
     | Some other => negb (truthy other)
     end.

(** A daily record to which domain XP can be added: its [domains], if there,
    is an object whose entry for the domain, if there, is an object with a
    number as [total] and an array as [activities]. *)
Definition domainSlot (data : value) (domain : string) : bool :=
  is_record data
  && match prop "domains" data with
     | None => true
     | Some (VObj ds) =>
         match lookup domain ds with
         | None => true
         | Some e =>
             negb (truthy e)
             || (is_record e
                 && match prop "total" e, prop "activities" e with
                    | Some (VNum _), Some (VArr _ _) => true
                    | _, _ => false
                    end)
         end
     | Some other => negb (truthy other)
     end.

(** A daily record with its XP where the program puts them: a plain object
    whose [domains], if there, is an object of objects with a number as
    [total], whose [tasks], if there, is an array of objects with a number as
    [xp], and whose [totalXP], if there, is a number.  On such a record [num]
    and [elements] read what JavaScript reads; on others the program adds
    [undefined] or a string to a number, or throws. *)
Definition typedEntry (e : value) : bool :=
  is_record e
  && match prop "total" e with
     | Some (VNum _) => true
     | _ => false
     end.

Definition typedTask (task : value) : bool :=
  is_record task
  && match prop "xp" task with
     | Some (VNum _) => true
     | _ => false
     end.

Definition typedRecord (data : value) : bool :=
  is_record data
  && match prop "domains" data with
     | None => true
     | Some (VObj ds) => forallb (fun kv : string * value => typedEntry (snd kv)) ds
     | Some _ => false
     end
  && match prop "tasks" data with
     | None => true
     | Some (VArr elems _) => forallb typedTask elems
     | Some _ => false
     end
  && match prop "totalXP" data with
     | None | Some (VNum _) => true
     | Some _ => false
     end.

(** Every task of the record has a category of [TASK_CATEGORIES]:
    [loadTodayTasks] and [updateDomainProgress] then run to their end. *)
Definition knownCategories (data : value) : bool :=
  forallb (fun task => match taskDomain task with
                       | Some _ => true
                       | None => false
                       end)
          (elements (prop "tasks" data)).

(** The stored total of today's record is the XP that the record holds: its
    domain activity and its completed tasks added up. *)
Definition totalIsCurrent (now : Z) (st : Store) : Prop :=
  prop "totalXP" (todayRecord now st)
  = Some (VNum (domainActivityXP (todayRecord now st)
                + completedTaskXP (todayRecord now st))).

(** A value that a JSON text can carry: no array in it has named
    properties. *)
Fixpoint jsonValue (v : value) : bool :=
  match v with
  | VArr elems props =>
      match props with
      | [] => forallb jsonValue elems
      | _ :: _ => false
      end
  | VObj fields => forallb (fun kv => let '(_, x) := kv in jsonValue x) fields
  | _ => true
  end.

(** A record without negative XP. *)
Definition wellFormedRecord (data : value) : Prop :=
  (forall domain, 0 <= activityTotal data domain) /\ 0 <= completedTaskXP data.

(** The same, as a test on a record whose [domains] is an object or
    missing. *)
Definition nonnegRecord (data : value) : bool :=
  match prop "domains" data with
  | Some (VObj ds) =>
      forallb (fun kv : string * value => 0 <=? num (prop "total" (snd kv))) ds
  | Some _ => false
  | None => true
  end
  && (0 <=? completedTaskXP data).

(** The activity XP of a domain over the seven records that
    [getLast7DaysData] reads. *)
Definition weekActivity (zone : TimeZone) (now : Z) (st : Store)
  (domain : string) : Z :=
  sumZ (map (fun i => activityTotal (dayRecord zone now st (Z.of_nat i)) domain)
            (seq 0 7)).

(** The two keys that [incrementMetric] writes for a metric in the month of
    [now]. *)
Definition historyKey (now : Z) (metric : string) : string :=
  metric ++ "_history_" ++ String.substring 0 7 (toISOString now).

Definition countKey (now : Z) (metric : string) : string :=
  "mastery_" ++ metric ++ "_" ++ String.substring 0 7 (toISOString now).

(** ** Sample data *)

(** 2026-11-02T01:02:03.004Z. *)
Definition sample_now : Z := 20759 * msPerDay + 3723004.

(** A day with 5 XP of creation activity and a completed acting task of
    10 XP. *)
Definition sample_task_day : value :=
  VObj [("tasks",
         VArr [VObj [("id", VNum 1); ("text", VStr "Scene study");
                     ("category", VStr "act"); ("xp", VNum 10);
                     ("completed", VBool true)]] []);
        ("domains",
         VObj [("creation",
                VObj [("total", VNum 5); ("activities", VArr [] [])])]);
        ("alignment", VBool false)].

(** An aligned day whose stored [totalXP] is 160 and whose activity adds up
    to 200. *)
Definition sample_stale_day : value :=
  VObj [("tasks", VArr [] []);
        ("domains",
         VObj [("creation",
                VObj [("total", VNum 200); ("activities", VArr [] [])])]);
        ("alignment", VBool true);
        ("totalXP", VNum 160)].

Definition sample_two_days : Store :=
  [("mastery_2026-11-02", Json sample_task_day);
   ("mastery_2026-11-01", Json sample_stale_day)].

(** A browser whose storage never fills up and whose date parser rejects
    everything that is not in the standard format. *)
Definition roomy (st : Store) : option string := None.
Definition strict_dates (s : string) : option Z := None.

(** A day's work from an empty store: 40 XP in each domain, one critical task
    added and completed; then alignment saved. *)
Definition sample_worked_store : Store :=
  let st := addQuickDomainXP utcZone strict_dates roomy sample_now [] "creation" 40 in
  let st := addQuickDomainXP utcZone strict_dates roomy sample_now st "physical" 40 in
  let st := addQuickDomainXP utcZone strict_dates roomy sample_now st "meditation" 40 in
  let st := addQuickDomainXP utcZone strict_dates roomy sample_now st "recovery" 40 in
  let st := addTask utcZone strict_dates roomy sample_now st "Email the agent" "critical" 5 in
  toggleTask utcZone strict_dates roomy sample_now st sample_now.

Definition sample_reason : string := "Sent the reel to the agent and trained".

Definition sample_aligned_store : Store :=
  saveAlignment utcZone strict_dates roomy sample_now sample_worked_store sample_reason.


(** A day with 50 XP of activity in each domain, aligned. *)
Definition sample_full_day : value :=
  VObj [("tasks", VArr [] []);
        ("domains",
         VObj (map (fun domain =>
                      (domain, VObj [("total", VNum 50);
                                     ("activities", VArr [] [])]))
                   DOMAIN_KEYS));
        ("alignment", VBool true);
        ("totalXP", VNum 200)].

(** An aligned day of 159 XP. *)
Definition sample_short_day : value :=
  VObj [("tasks", VArr [] []);
        ("domains",
         VObj [("creation",
                VObj [("total", VNum 159); ("activities", VArr [] [])])]);
        ("alignment", VBool true);
        ("totalXP", VNum 159)].

(** An aligned day of 160 XP, a completed task of 10 XP among them, that
    stores no [totalXP]. *)
Definition sample_counted_day : value :=
  VObj [("tasks",
         VArr [VObj [("id", VNum 7); ("text", VStr "Self tape");
                     ("category", VStr "act"); ("xp", VNum 10);
                     ("completed", VBool true)]] []);
        ("domains",
         VObj [("creation",
                VObj [("total", VNum 150); ("activities", VArr [] [])])]);
        ("alignment", VBool true)].

(** Five days of 160 XP or more up to yesterday, the third of them without a
    stored total; the short day before them and a full day before that. *)
Definition sample_streak_store : Store :=
  map (fun i => (dayKey (daysBefore utcZone sample_now (Z.of_nat i)),
                 Json (if (i =? 6)%nat then sample_short_day
                       else if (i =? 3)%nat then sample_counted_day
                       else sample_full_day)))
      (seq 1 7).

(** Seven such days, up to today. *)
Definition sample_steady_week : Store :=
  map (fun i => (dayKey (daysBefore utcZone sample_now (Z.of_nat i)),
                 Json sample_full_day))
      (seq 0 7).

(** An entry of a day whose XP all comes from scary and critical tasks. *)
Definition taskOnlyDay (i : Z) (xp : Z) : DayEntry :=
  {| date := isoDate (20759 - i);
     totalXP := xp;
     domains := map (fun domain => (domain, 0)) DOMAIN_KEYS;
     alignment := 160 <=? xp |}.

(** Two weeks that differ in the fourth day only: 159 XP in the one, 400 in
    the other. *)
Definition sample_week_B : list DayEntry :=
  [taskOnlyDay 0 160; taskOnlyDay 1 160; taskOnlyDay 2 160; taskOnlyDay 3 159;
   taskOnlyDay 4 159; taskOnlyDay 5 159; taskOnlyDay 6 159].

Definition sample_week_A : list DayEntry :=
  [taskOnlyDay 0 160; taskOnlyDay 1 160; taskOnlyDay 2 160; taskOnlyDay 3 400;
   taskOnlyDay 4 159; taskOnlyDay 5 159; taskOnlyDay 6 159].

(** 2026-03-08T23:30Z, 16:30 in Los Angeles on the day the clocks went
    forward, with a record for that day only; and 2026-11-02T00:30Z, 16:30
    there on the day they went back, with a record for 2026-11-01 only, an
    aligned day of 160 XP without a stored total. *)
Definition sample_spring : Z := 20520 * msPerDay + 84600000.

Definition sample_spring_store : Store :=
  [("mastery_2026-03-08", Json sample_full_day)].

Definition sample_autumn : Z := 20759 * msPerDay + 1800000.

Definition sample_autumn_store : Store :=
  [("mastery_2026-11-01", Json sample_counted_day)].

(** An aligned day of 165 stored XP whose completed task of 5 XP has a
    category that [TASK_CATEGORIES] does not list. *)
Definition sample_unlisted_day : value :=
  VObj [("tasks",
         VArr [VObj [("id", VNum 1); ("text", VStr "Post office");
                     ("category", VStr "errand"); ("xp", VNum 5);
                     ("completed", VBool true)]] []);
        ("domains",
         VObj [("creation",
                VObj [("total", VNum 160); ("activities", VArr [] [])])]);
        ("alignment", VBool true);
        ("totalXP", VNum 165)].

Definition sample_unlisted_store : Store :=
  [("mastery_2026-11-02", Json sample_unlisted_day)].

(** A browser whose date parser takes every string for the first instant of
    1970, and one whose storage is full. *)
Definition lenient_dates (s : string) : option Z := Some 0.
Definition crowded (st : Store) : option string := Some "QuotaExceededError".

(** Two keys of 16 characters. *)
Definition sample_old_keys : Store :=
  [("mastery_2020-1-1", Json sample_full_day);
   ("mastery_2020-1-2", Json sample_full_day)].

(** The streak store with a record for today. *)
Definition sample_streak_today : Store :=
  assign (dayKey sample_now) (Json sample_full_day) sample_streak_store.

(** * Properties *)

(** ** Property lists *)

Section PropertyLists.

Context {A : Type}.
Implicit Types (k : string) (l : list (string * A)).

Lemma lookup_assign_same k (v : A) l : lookup k (assign k v l) = Some v.
Proof.
  induction l as [|[k' v'] l IH]; simpl.
  - now rewrite String.eqb_refl.
  - destruct (String.eqb k k') eqn:E; simpl.
    + now rewrite String.eqb_refl.
    + now rewrite E.
Qed.

Lemma lookup_assign_other k k' (v : A) l :
  k <> k' -> lookup k' (assign k v l) = lookup k' l.
Proof.
  intros Hne. induction l as [|[k0 v0] l IH]; simpl.
  - destruct (String.eqb k' k) eqn:E; [|reflexivity].
    apply String.eqb_eq in E. congruence.
  - destruct (String.eqb k k0) eqn:E; simpl.
    + apply String.eqb_eq in E. subst k0.
      destruct (String.eqb k' k) eqn:E'; [|reflexivity].
      apply String.eqb_eq in E'. congruence.
    + now rewrite IH.
Qed.

Lemma lookup_remove_other k k' l :
  k <> k' -> lookup k' (remove k l) = lookup k' l.
Proof.
  intros Hne. induction l as [|[k0 v0] l IH]; simpl; [reflexivity|].
  destruct (String.eqb k k0) eqn:E; simpl.
  - apply String.eqb_eq in E. subst k0.
    destruct (String.eqb k' k) eqn:E'; [|exact IH].
    apply String.eqb_eq in E'. congruence.
  - now rewrite IH.
Qed.

End PropertyLists.

Lemma prop_setProp_other k k' x v :
  k <> k' -> prop k' (setProp k x v) = prop k' v.
Proof.
  intros Hne. destruct v; simpl; try reflexivity;
    now apply lookup_assign_other.
Qed.

Lemma prop_setProp_same k x v :
  is_object v = true -> prop k (setProp k x v) = Some x.
Proof.
  destruct v; simpl; try discriminate; intros _; apply lookup_assign_same.
Qed.

Lemma is_object_setProp k x v : is_object (setProp k x v) = is_object v.
Proof. now destruct v. Qed.

(** ** Reading with defaults *)

Lemma with_default_spec test k d v :
  is_object v = true ->
  is_object (with_default test k d v) = true
  /\ prop k (with_default test k d v)
     = (if test (prop k v) then prop k v else Some d)
  /\ (forall k', k <> k' -> prop k' (with_default test k d v) = prop k' v)
  /\ (forall fields, v = VObj fields ->
                     exists fields', with_default test k d v = VObj fields').
Proof.
  intros Hobj. unfold with_default.
  destruct (test (prop k v)).
  - repeat split; eauto.
  - rewrite is_object_setProp. repeat split.
    + exact Hobj.
    + now apply prop_setProp_same.
    + intros k' Hk. now apply prop_setProp_other.
    + intros fields ->. simpl. eauto.
Qed.

Lemma normalize_unfold parsed :
  is_object parsed = true ->
  normalize parsed
  = Return (with_default is_boolean "alignment" (VBool false)
              (with_default truthy_opt "tasks" (VArr [] [])
                 (with_default truthy_opt "domains" (VObj []) parsed))).
Proof. destruct parsed; try discriminate; reflexivity. Qed.

Lemma normalize_spec parsed :
  is_object parsed = true ->
  exists v,
    normalize parsed = Return v
    /\ normalized v
    /\ prop "domains" v
       = (if truthy_opt (prop "domains" parsed) then prop "domains" parsed
          else Some (VObj []))
    /\ prop "tasks" v
       = (if truthy_opt (prop "tasks" parsed) then prop "tasks" parsed
          else Some (VArr [] []))
    /\ prop "alignment" v
       = (if is_boolean (prop "alignment" parsed) then prop "alignment" parsed
          else Some (VBool false))
    /\ (forall k, k <> "domains" -> k <> "tasks" -> k <> "alignment" ->
                  prop k v = prop k parsed)
    /\ (forall fields, parsed = VObj fields -> exists fields', v = VObj fields').
Proof.
  intros Hobj. rewrite (normalize_unfold _ Hobj).
  set (p1 := with_default truthy_opt "domains" (VObj []) parsed).
  destruct (with_default_spec truthy_opt "domains" (VObj []) parsed Hobj)
    as (O1 & D1 & K1 & F1).
  fold p1 in O1, D1, K1, F1.
  set (p2 := with_default truthy_opt "tasks" (VArr [] []) p1).
  destruct (with_default_spec truthy_opt "tasks" (VArr [] []) p1 O1)
    as (O2 & T2 & K2 & F2).
  fold p2 in O2, T2, K2, F2.
  set (p3 := with_default is_boolean "alignment" (VBool false) p2).
  destruct (with_default_spec is_boolean "alignment" (VBool false) p2 O2)
    as (O3 & A3 & K3 & F3).
  fold p3 in O3, A3, K3, F3.
  rewrite (K1 "tasks") in T2 by discriminate.
  rewrite (K2 "alignment"), (K1 "alignment") in A3 by discriminate.
  assert (D3 : prop "domains" p3
               = if truthy_opt (prop "domains" parsed) then prop "domains" parsed
                 else Some (VObj []))
    by (rewrite K3, K2 by discriminate; exact D1).
  assert (T3 : prop "tasks" p3
               = if truthy_opt (prop "tasks" parsed) then prop "tasks" parsed
                 else Some (VArr [] []))
    by (rewrite K3 by discriminate; exact T2).
  exists p3. split; [reflexivity|].
  repeat split; try assumption.
  - rewrite D3.
    destruct (truthy_opt (prop "domains" parsed)) eqn:E; [exact E|reflexivity].
  - rewrite T3.
    destruct (truthy_opt (prop "tasks" parsed)) eqn:E; [exact E|reflexivity].
  - rewrite A3.
    destruct (is_boolean (prop "alignment" parsed)) eqn:E; [exact E|reflexivity].
  - intros k H1 H2 H3. rewrite K3, K2, K1 by congruence. reflexivity.
  - intros fields Hf. destruct (F1 _ Hf) as [f1 Hf1].
    destruct (F2 _ Hf1) as [f2 Hf2]. exact (F3 _ Hf2).
Qed.

Lemma safeLocalStorageGet_stored st key fallback parsed :
  String.prefix "mastery_" key = true ->
  getItem st key = Some (Json parsed) ->
  is_object parsed = true ->
  normalize parsed = Return (safeLocalStorageGet st key fallback).
Proof.
  intros Hk Hget Hobj.
  unfold safeLocalStorageGet, safeLocalStorageGet_try.
  rewrite Hget, Hk. simpl.
  assert (typeof_object parsed = true) as -> by (now destruct parsed).
  rewrite (normalize_unfold _ Hobj). reflexivity.
Qed.

(** C10.  Under every key that starts with [mastery_], whatever the rest of
    the key, a stored JSON object comes back as an object whose [domains],
    [tasks] and [alignment] hold the defaults where the stored ones were
    missing (or falsy, or not a boolean), every other property being as
    stored; a stored [null], a string that does not parse, and any exception
    inside the [try] block give the fallback. *)
Theorem safeLocalStorageGet_defaults_under_every_mastery_key :
  forall (st : Store) (key : string) (fallback : value),
    String.prefix "mastery_" key = true ->
    (forall fields,
        getItem st key = Some (Json (VObj fields)) ->
        exists fields',
          safeLocalStorageGet st key fallback = VObj fields'
          /\ lookup "domains" fields'
             = (if truthy_opt (lookup "domains" fields)
                then lookup "domains" fields else Some (VObj []))
          /\ lookup "tasks" fields'
             = (if truthy_opt (lookup "tasks" fields)
                then lookup "tasks" fields else Some (VArr [] []))
          /\ lookup "alignment" fields'
             = (if is_boolean (lookup "alignment" fields)
                then lookup "alignment" fields else Some (VBool false))
          /\ (forall k, k <> "domains" -> k <> "tasks" -> k <> "alignment" ->
                        lookup k fields' = lookup k fields))
    /\ (getItem st key = Some (Json VNull) ->
        safeLocalStorageGet st key fallback = fallback)
    /\ (forall s, getItem st key = Some (NotJson s) ->
                  safeLocalStorageGet st key fallback = fallback)
    /\ (forall e, safeLocalStorageGet_try st key fallback = Throw e ->
                  safeLocalStorageGet st key fallback = fallback).
Proof.
  intros st key fallback Hk. repeat split.
  - intros fields Hget.
    destruct (normalize_spec (VObj fields) eq_refl)
      as (v & Hv & _ & D & T & A & K & F).
    destruct (F fields eq_refl) as [fields' ->].
    exists fields'.
    pose proof (safeLocalStorageGet_stored st key fallback _ Hk Hget eq_refl)
      as Hs.
    rewrite Hv in Hs. injection Hs as Hs. rewrite <- Hs.
    repeat split; assumption.
  - intros Hget. unfold safeLocalStorageGet, safeLocalStorageGet_try.
    rewrite Hget, Hk. reflexivity.
  - intros s Hget. unfold safeLocalStorageGet, safeLocalStorageGet_try.
    rewrite Hget. simpl. destruct (String.eqb s ""); reflexivity.
  - intros e He. unfold safeLocalStorageGet. rewrite He. reflexivity.
Qed.

(** ** Day keys *)

Lemma digit_not_T n : Ascii.eqb (digit n) "T" = false.
Proof.
  unfold digit.
  assert (H : (Z.to_nat (n mod 10) < 10)%nat)
    by (pose proof (Z.mod_pos_bound n 10); lia).
  revert H. generalize (Z.to_nat (n mod 10)). intros k Hk.
  do 10 (destruct k as [|k]; [reflexivity|]). lia.
Qed.

(** The date part of the timestamp is the date of its day. *)
Lemma dateString_isoDate t : dateString t = isoDate (t / msPerDay).
Proof.
  unfold dateString, toISOString, isoDate.
  destruct (civil_from_days (t / msPerDay)) as [[y m] d].
  cbn [pad4 pad3 pad2 append before_T].
  rewrite !digit_not_T. reflexivity.
Qed.

Lemma dayKey_length t : String.length (dayKey t) = 18%nat.
Proof.
  unfold dayKey. rewrite dateString_isoDate. unfold isoDate.
  destruct (civil_from_days (t / msPerDay)) as [[y m] d]. reflexivity.
Qed.

(** ** The retention sweep *)

Lemma prefix_append (s rest : string) : String.prefix s (s ++ rest) = true.
Proof.
  induction s as [|c s IH]; [destruct rest; reflexivity|].
  cbn [append String.prefix]. destruct (ascii_dec c c); [exact IH|congruence].
Qed.

Lemma dayKey_prefix t : String.prefix "mastery_" (dayKey t) = true.
Proof. apply prefix_append. Qed.

Section Sweep.

Variable zone : TimeZone.
Variable Date_parse : string -> option Z.

Lemma clearOldData_step_keeps cutoff st key k :
  String.length k <> 16%nat ->
  getItem (clearOldData_step Date_parse cutoff st key) k = getItem st k.
Proof.
  intros Hlen. unfold clearOldData_step.
  destruct (String.prefix "mastery_" key); simpl; [|reflexivity].
  destruct (Nat.eqb_spec (String.length key) 16); [|reflexivity].
  destruct (Date_parse (strip_prefix key)) as [date|]; [|reflexivity].
  destruct (date <? cutoff); [|reflexivity].
  apply lookup_remove_other. congruence.
Qed.

Lemma clearOldData_loop_keeps fuel cutoff k :
  String.length k <> 16%nat ->
  forall i st,
    getItem (clearOldData_loop Date_parse fuel cutoff i st) k = getItem st k.
Proof.
  intros Hlen. induction fuel as [|fuel IH]; intros i st; simpl.
  - reflexivity.
  - destruct (nth_error st i) as [[key it]|]; [|reflexivity].
    rewrite IH. now apply clearOldData_step_keeps.
Qed.

Lemma remove_length {A : Type} k (l : list (string * A)) :
  (List.length (remove k l) <= List.length l)%nat.
Proof.
  induction l as [|[k' v] l IH]; simpl; [lia|].
  destruct (String.eqb k k'); simpl; lia.
Qed.

Lemma clearOldData_step_length cutoff st key :
  (List.length (clearOldData_step Date_parse cutoff st key)
   <= List.length st)%nat.
Proof.
  unfold clearOldData_step.
  destruct (_ && _); [|lia].
  destruct (Date_parse _); [|lia].
  destruct (_ <? _); [|lia]. apply remove_length.
Qed.

(** The turns given to the loop are enough: once they are used up the index
    is past the end of the store, and more turns change nothing. *)
Lemma clearOldData_loop_ends cutoff fuel :
  forall i st extra,
    (List.length st <= i + fuel)%nat ->
    clearOldData_loop Date_parse (fuel + extra) cutoff i st
    = clearOldData_loop Date_parse fuel cutoff i st.
Proof.
  induction fuel as [|fuel IH]; intros i st extra Hlen.
  - destruct extra; [reflexivity|]. simpl.
    assert (nth_error st i = None) as -> by (apply nth_error_None; lia).
    reflexivity.
  - simpl. destruct (nth_error st i) as [[key it]|]; [|reflexivity].
    apply IH. pose proof (clearOldData_step_length cutoff st key). lia.
Qed.

Lemma clearOldData_enough_turns now st extra :
  clearOldData_loop Date_parse (List.length st + extra) (monthsBefore zone now 3) 0 st
  = clearOldData zone Date_parse now st.
Proof. apply clearOldData_loop_ends. lia. Qed.

End Sweep.

(** C1.  The sweep removes no daily record, however old: it only looks at
    keys of 16 characters, and a day key, [mastery_] followed by a date
    [YYYY-MM-DD], has 18.  This holds for every store, every day key and
    whatever the browser's time zone and date parser are. *)
Theorem clearOldData_removes_no_day_record :
  forall (zone : TimeZone) (Date_parse : string -> option Z) (now : Z)
         (st : Store) (t : Z),
    getItem (clearOldData zone Date_parse now st) (dayKey t) = getItem st (dayKey t).
Proof.
  intros zone Date_parse now st t. unfold clearOldData.
  apply clearOldData_loop_keeps. rewrite dayKey_length. discriminate.
Qed.

(** A record of January 2020 is still there after the sweep of November
    2026. *)
Example clearOldData_leaves_2020 :
  forall (zone : TimeZone) (Date_parse : string -> option Z),
    clearOldData zone Date_parse sample_now
                 [("mastery_2020-01-01", Json sample_full_day)]
    = [("mastery_2020-01-01", Json sample_full_day)].
Proof. intros zone Date_parse. reflexivity. Qed.

(** Where the sweep does remove a key (one of 16 characters, which the
    browser's parser takes for an old date), the keys behind it move up by one
    place and the loop steps over the next one. *)
Example clearOldData_steps_over_the_next_key :
  clearOldData utcZone (fun _ => Some 0) sample_now
               [("mastery_2020-1-1", Json sample_full_day);
                ("mastery_2020-1-2", Json sample_full_day)]
  = [("mastery_2020-1-2", Json sample_full_day)].
Proof. reflexivity. Qed.

(** ** Rounding *)

Lemma round_le (x y : Q) : (x <= y)%Q -> round x <= round y.
Proof.
  intros H. unfold round. apply Qfloor_resp_le.
  apply Qplus_le_l. exact H.
Qed.

Lemma round_inject_Z (z : Z) : round (inject_Z z) = z.
Proof.
  unfold round.
  pose proof (Qfloor_le (inject_Z z + (1 # 2))) as Hlo.
  pose proof (Qlt_floor (inject_Z z + (1 # 2))) as Hhi.
  set (f := Qfloor (inject_Z z + (1 # 2))) in *.
  rewrite inject_Z_plus in Hhi. change (inject_Z 1) with 1%Q in Hhi.
  assert (H1 : (inject_Z f < inject_Z (z + 1))%Q).
  { rewrite inject_Z_plus. change (inject_Z 1) with 1%Q. lra. }
  assert (H2 : (inject_Z z < inject_Z (f + 1))%Q).
  { rewrite inject_Z_plus. change (inject_Z 1) with 1%Q. lra. }
  rewrite <- Zlt_Qlt in H1, H2. lia.
Qed.

Lemma round_nonneg (x : Q) : (0 <= x)%Q -> 0 <= round x.
Proof.
  intros H. change 0 with (round (inject_Z 0)) at 1.
  - apply round_le. exact H.
Qed.

Lemma round_le_Z (x : Q) (z : Z) : (x <= inject_Z z)%Q -> round x <= z.
Proof. intros H. rewrite <- (round_inject_Z z). now apply round_le. Qed.

Lemma inject_Z_nonneg (z : Z) : 0 <= z -> (0 <= inject_Z z)%Q.
Proof. intros H. change 0%Q with (inject_Z 0). now rewrite <- Zle_Qle. Qed.

(** ** Breakthrough probability *)

(** C9.  For non-negative counts the total is the rounded, capped sum of the
    four capped contributions, each of which is rounded on its own in the
    breakdown; the total lies between 0 and 95; and streak 10, five tier-1
    auditions, two callbacks and no role give 8, 3, 8, 0 and a total of 19. *)
Theorem calculateHollywoodProbability_capped_sum :
  (forall streak tier1 callbacks roles : Z,
      0 <= streak -> 0 <= tier1 -> 0 <= callbacks -> 0 <= roles ->
      let p := calculateHollywoodProbability streak tier1 callbacks roles in
      let consistency := Qmin (inject_Z streak * (8 # 10)) 20 in
      let opportunities := Qmin (inject_Z tier1 * (6 # 10)) 30 in
      let callbacks' := Qmin (inject_Z callbacks * 4) 30 in
      let bookings := Qmin (inject_Z roles * 20) 20 in
      total p
      = round (Qmin (consistency + opportunities + callbacks' + bookings) 95)
      /\ Breakdown.consistency (breakdown p) = round consistency
      /\ Breakdown.opportunities (breakdown p) = round opportunities
      /\ Breakdown.callbacks (breakdown p) = round callbacks'
      /\ Breakdown.bookings (breakdown p) = round bookings
      /\ 0 <= total p <= 95)
  /\ calculateHollywoodProbability 10 5 2 0
     = {| total := 19;
          breakdown := {| Breakdown.consistency := 8;
                          Breakdown.opportunities := 3;
                          Breakdown.callbacks := 8;
                          Breakdown.bookings := 0 |} |}.
Proof.
  split; [|reflexivity].
  intros streak tier1 callbacks roles Hs Ht Hc Hr.
  cbv zeta. repeat split.
  - simpl. apply round_nonneg.
    apply inject_Z_nonneg in Hs, Ht, Hc, Hr.
    repeat apply Q.min_glb; try lra.
    assert (0 <= Qmin (inject_Z streak * (8 # 10)) 20)%Q
      by (apply Q.min_glb; lra).
    assert (0 <= Qmin (inject_Z tier1 * (6 # 10)) 30)%Q
      by (apply Q.min_glb; lra).
    assert (0 <= Qmin (inject_Z callbacks * 4) 30)%Q
      by (apply Q.min_glb; lra).
    assert (0 <= Qmin (inject_Z roles * 20) 20)%Q
      by (apply Q.min_glb; lra).
    lra.
  - simpl. apply round_le_Z. apply Q.le_min_r.
Qed.

(** ** Streak *)

Lemma safeLocalStorageGet_cases st key fallback :
  String.prefix "mastery_" key = true ->
  let data := safeLocalStorageGet st key fallback in
  data = fallback \/ normalized data \/ is_object data = false.
Proof.
  intros Hk data. subst data.
  unfold safeLocalStorageGet, safeLocalStorageGet_try.
  destruct (getItem st key) as [[s|parsed]|]; simpl.
  - left. destruct (String.eqb s ""); reflexivity.
  - rewrite Hk. simpl.
    destruct (is_object parsed) eqn:Hobj.
    + assert (typeof_object parsed = true) as -> by (now destruct parsed).
      destruct (normalize_spec parsed Hobj) as (v & -> & Hn & _).
      right. left. exact Hn.
    + destruct parsed; try discriminate; simpl; auto.
  - left. reflexivity.
Qed.

(** A record read under a day key has a boolean [alignment] or none. *)
Lemma dayRecord_alignment zone now st i :
  truthy_opt (prop "alignment" (dayRecord zone now st i)) = true ->
  prop "alignment" (dayRecord zone now st i) = Some (VBool true).
Proof.
  unfold dayRecord.
  destruct (safeLocalStorageGet_cases st (dayKey (daysBefore zone now i)) (VObj [])
              (dayKey_prefix _)) as [-> | [(_ & _ & _ & Hb) | Hp]].
  - discriminate.
  - destruct (prop "alignment" _) as [[]|]; try discriminate.
    simpl. now intros ->.
  - destruct (safeLocalStorageGet _ _ _); try discriminate Hp;
      discriminate.
Qed.

Lemma streakDay_dayRecord zone now st i :
  streakDay (dayRecord zone now st i)
  = truthy_opt (prop "alignment" (dayRecord zone now st i))
    && (160 <=? effectiveXP (dayRecord zone now st i)).
Proof.
  unfold streakDay.
  destruct (truthy_opt (prop "alignment" (dayRecord zone now st i))) eqn:E.
  - now rewrite (dayRecord_alignment _ _ _ _ E).
  - destruct (prop "alignment" _) as [[| [] | | | |]|]; try reflexivity.
    discriminate.
Qed.

Lemma loadStreak_loop_run zone turns now st :
  forall i acc,
    let n := loadStreak_loop zone turns now st i acc - acc in
    0 <= n <= Z.of_nat turns
    /\ (forall j, i <= j < i + n -> streakDay (dayRecord zone now st j) = true)
    /\ (n < Z.of_nat turns -> streakDay (dayRecord zone now st (i + n)) = false).
Proof.
  induction turns as [|turns IH]; intros i acc n; subst n.
  - simpl. replace (acc - acc) with 0 by lia. repeat split; lia.
  - cbn [loadStreak_loop]. fold (dayRecord zone now st i).
    pose proof (streakDay_dayRecord zone now st i) as Hday.
    destruct (truthy_opt (prop "alignment" (dayRecord zone now st i))).
    + cbv zeta. destruct (160 <=? effectiveXP (dayRecord zone now st i)).
      * specialize (IH (i + 1) (acc + 1)). cbv zeta in IH.
        destruct IH as (Hn & Hall & Hstop).
        set (r := loadStreak_loop zone turns now st (i + 1) (acc + 1)) in *.
        repeat split; try lia.
        -- intros j Hj. destruct (Z.eq_dec j i) as [->|Hne].
           ++ exact Hday.
           ++ apply Hall. lia.
        -- intros Hlt.
           replace (i + (r - acc)) with (i + 1 + (r - (acc + 1))) by lia.
           apply Hstop. lia.
      * replace (acc - acc) with 0 by lia. rewrite Z.add_0_r.
        repeat split; try lia. intros _. exact Hday.
    + replace (acc - acc) with 0 by lia. rewrite Z.add_0_r.
      repeat split; try lia. intros _. exact Hday.
Qed.

(** On a record with its XP where the program puts them the XP that the walk
    takes is the stored total, or the count. *)
Lemma domainActivityXP_fold (ds : Props) :
  forall a,
    fold_left (fun acc (kv : string * value) => acc + num (prop "total" (snd kv)))
              ds a
    = a + sumZ (map (fun kv : string * value => num (prop "total" (snd kv))) ds).
Proof.
  induction ds as [|kv ds IH]; intros a; simpl; [lia|]. rewrite IH. lia.
Qed.

Lemma addTaskXP_completedTaskXP acc data :
  addTaskXP acc data = acc + completedTaskXP data.
Proof.
  unfold addTaskXP, completedTaskXP, completedTasks.
  assert (Hfold : forall l a,
             fold_left (fun acc task =>
                          if truthy_opt (prop "completed" task)
                          then acc + num (prop "xp" task) else acc) l a
             = a + sumZ (map (fun task => num (prop "xp" task))
                             (filter (fun task => truthy_opt (prop "completed" task))
                                     l))).
  { induction l as [|t l IH]; intros a; simpl; [lia|].
    rewrite IH. destruct (truthy_opt (prop "completed" t)); simpl; lia. }
  destruct (truthy_opt (prop "tasks" data)) eqn:E.
  - apply Hfold.
  - destruct (prop "tasks" data) as [[]|]; simpl in *; try discriminate; lia.
Qed.

Lemma currentXP_described data :
  currentXP data = domainActivityXP data + completedTaskXP data.
Proof.
  unfold currentXP. rewrite addTaskXP_completedTaskXP. f_equal.
  unfold addDomainXP, domainActivityXP.
  destruct (truthy_opt (prop "domains" data)) eqn:E.
  - now rewrite domainActivityXP_fold.
  - destruct (prop "domains" data) as [[]|]; try reflexivity; discriminate.
Qed.

Lemma effectiveXP_described data :
  typedRecord data = true -> effectiveXP data = storedOrCountedXP data.
Proof.
  intros Ht. unfold typedRecord in Ht.
  apply andb_prop in Ht. destruct Ht as [_ Ht].
  unfold effectiveXP, storedOrCountedXP. rewrite <- currentXP_described.
  destruct (prop "totalXP" data) as [[| | n | | |]|]; try discriminate Ht;
    [|reflexivity].
  cbn [truthy_opt truthy num]. now destruct (n =? 0).
Qed.

Lemma streakDay_qualifies data :
  typedRecord data = true -> streakDay data = qualifies data.
Proof.
  intros Ht. unfold streakDay, qualifies.
  now rewrite (effectiveXP_described _ Ht).
Qed.

(** Where the clock is steady the walk reads the days of the calendar. *)
Lemma dayRecord_steady zone now st days i :
  steadyClock zone now days -> 0 <= i <= days ->
  dayRecord zone now st i
  = safeLocalStorageGet st (dayKey (now - i * msPerDay)) (VObj []).
Proof. intros Hs Hi. unfold dayRecord. now rewrite (Hs i Hi). Qed.

(** X25.  The streak, where the clock does not change in the thirty days
    behind [now] and the records read are typed: it is the length of the longest run
    of consecutive days, starting yesterday and at most 30 long, that each
    have [alignment === true] and 160 XP or more, the XP being the stored
    total or, without one, the count of the day; every day of the run
    qualifies and, when the run is shorter than 30, the day before it does
    not.  So five qualifying days behind an aligned day of 159 XP give a
    streak of 5, whatever lies further back. *)
Theorem loadStreak_counts_maximal_run :
  forall (zone : TimeZone) (now : Z) (st : Store),
    let day i := safeLocalStorageGet st (dayKey (now - i * msPerDay)) (VObj []) in
    steadyClock zone now 30 ->
    (forall i, 1 <= i <= 30 -> typedRecord (day i) = true) ->
    let n := currentStreak (loadStreak zone now st) in
    0 <= n <= 30
    /\ (forall i, 1 <= i <= n -> qualifies (day i) = true)
    /\ (n < 30 -> qualifies (day (n + 1)) = false)
    /\ ((forall i, 1 <= i <= 5 ->
                   prop "alignment" (day i) = Some (VBool true)
                   /\ 160 <= storedOrCountedXP (day i)) ->
        prop "alignment" (day 6) = Some (VBool true) ->
        storedOrCountedXP (day 6) = 159 ->
        n = 5).
Proof.
  intros zone now st day Hsteady Htyped n.
  destruct (loadStreak_loop_run zone 30 now st 1 0) as (Hn & Hall & Hstop).
  cbv zeta in Hn, Hall, Hstop.
  assert (En : n = loadStreak_loop zone 30 now st 1 0 - 0)
    by (subst n; simpl; lia).
  rewrite <- En in Hn, Hall, Hstop.
  change (Z.of_nat 30) with 30 in Hn, Hstop.
  assert (Hday : forall i, 1 <= i <= 30 ->
                           streakDay (dayRecord zone now st i) = qualifies (day i)).
  { intros i Hi. rewrite (dayRecord_steady _ _ _ 30 i Hsteady) by lia.
    apply streakDay_qualifies. now apply Htyped. }
  assert (Hrun : forall i, 1 <= i <= n -> qualifies (day i) = true)
    by (intros i Hi; rewrite <- Hday by lia; apply Hall; lia).
  assert (Hend : n < 30 -> qualifies (day (n + 1)) = false).
  { intros Hlt. rewrite <- Hday by lia. rewrite Z.add_comm. now apply Hstop. }
  repeat split; try lia; try assumption.
  intros H5 Ha6 Hx6.
  assert (H6 : qualifies (day 6) = false).
  { unfold qualifies. rewrite Ha6, Hx6. reflexivity. }
  assert (Hq : forall i, 1 <= i <= 5 -> qualifies (day i) = true).
  { intros i Hi. destruct (H5 i Hi) as [Ha Hx]. unfold qualifies.
    rewrite Ha. now apply Z.leb_le. }
  destruct (Z_lt_le_dec n 5) as [Hlt|Hge].
  - assert (Hf : qualifies (day (n + 1)) = false) by (apply Hend; lia).
    rewrite Hq in Hf by lia. discriminate.
  - destruct (Z_lt_le_dec 5 n) as [Hgt|Hle]; [|lia].
    rewrite Hrun in H6 by lia. discriminate.
Qed.

(** C8.  The walk steps back through local days and names the day it reads by
    its UTC date.  In Los Angeles at 16:30 on the day the clocks go forward,
    one local day back is 00:30 UTC of the same UTC date: the first day that
    the walk reads is today, not yesterday, and a completed today with nothing
    stored for yesterday counts as a streak of 1.  At 16:30 on the day the
    clocks go back, one local day back is 23:30 UTC two dates earlier: the
    walk steps over yesterday, and a completed yesterday gives a streak of 0.
    On UTC the same stores give 0 and 1. *)
Theorem loadStreak_misreads_yesterday_at_a_clock_change :
  (dayKey sample_spring = "mastery_2026-03-08"
   /\ dayKey (daysBefore pacific2026 sample_spring 1) = "mastery_2026-03-08"
   /\ getItem sample_spring_store "mastery_2026-03-07" = None
   /\ currentStreak (loadStreak pacific2026 sample_spring sample_spring_store) = 1
   /\ currentStreak (loadStreak utcZone sample_spring sample_spring_store) = 0)
  /\ (dayKey sample_autumn = "mastery_2026-11-02"
      /\ dayKey (daysBefore pacific2026 sample_autumn 1) = "mastery_2026-10-31"
      /\ qualifies (safeLocalStorageGet sample_autumn_store "mastery_2026-11-01"
                                        (VObj [])) = true
      /\ currentStreak (loadStreak pacific2026 sample_autumn sample_autumn_store)
         = 0
      /\ currentStreak (loadStreak utcZone sample_autumn sample_autumn_store) = 1).
Proof. vm_compute. repeat split; reflexivity. Qed.

(** ** The last seven days *)

Lemma or_zero (o : option value) :
  (if truthy_opt o then num o else 0) = num o.
Proof.
  destruct o as [[| | n | | |]|]; simpl; try reflexivity;
    try (destruct b; reflexivity).
  - destruct (Z.eqb_spec n 0); simpl; congruence.
  - destruct (String.eqb s ""); reflexivity.
Qed.

Lemma steadyClock_utc now days : steadyClock utcZone now days.
Proof. intros i _. reflexivity. Qed.

(** Where the clock is steady the dates that the loops read are the days of
    the calendar before today's. *)
Lemma dateString_daysBefore zone now days i :
  steadyClock zone now days -> 0 <= i <= days ->
  dateString (daysBefore zone now i) = isoDate (now / msPerDay - i).
Proof.
  intros Hs Hi. rewrite (Hs i Hi), dateString_isoDate. f_equal.
  replace (now - i * msPerDay) with (now + (- i) * msPerDay) by lia.
  rewrite Z.div_add by discriminate. lia.
Qed.

Lemma getLast7DaysData_step_entry zone now st days i :
  getLast7DaysData_step zone now st days i
  = (days ++ [dayEntry zone now st i])%list.
Proof.
  unfold getLast7DaysData_step, dayEntry, dayRecord, dayKey.
  set (data := safeLocalStorageGet st _ (VObj [])).
  cbn [DOMAIN_KEYS fold_left fst snd map].
  rewrite !or_zero. fold (activityTotal data "creation").
  fold (activityTotal data "physical"). fold (activityTotal data "meditation").
  fold (activityTotal data "recovery").
  rewrite addTaskXP_completedTaskXP.
  do 2 f_equal. f_equal. unfold sumZ. simpl. lia.
Qed.

Lemma getLast7DaysData_days zone now st :
  getLast7DaysData zone now st = map (dayEntry zone now st) (seq 0 7).
Proof.
  unfold getLast7DaysData. cbn [seq fold_left map].
  now rewrite !getLast7DaysData_step_entry.
Qed.

(** C3, as amended.  On a store whose seven records are typed,
    [getLast7DaysData] returns seven entries, the one for [i] days back built
    from the record under the date that [setDate] and [toISOString] give for
    it; the per-domain value of an entry is the day's activity total in that
    domain, and its [totalXP] is the sum of the four activity totals and of
    the XP of the day's completed tasks, whether or not the record stores a
    [totalXP].  Where the clock does not change in the six days behind [now],
    the dates are today's and those of the six days before it, in order. *)
Theorem getLast7DaysData_entries :
  forall (zone : TimeZone) (now : Z) (st : Store),
    (forall i, (i < 7)%nat ->
               typedRecord (dayRecord zone now st (Z.of_nat i)) = true) ->
    getLast7DaysData zone now st = map (dayEntry zone now st) (seq 0 7)
    /\ List.length (getLast7DaysData zone now st) = 7%nat
    /\ (steadyClock zone now 6 ->
        forall i, (i < 7)%nat ->
          date (dayEntry zone now st i)
          = isoDate (now / msPerDay - Z.of_nat i)
          /\ dayRecord zone now st (Z.of_nat i)
             = safeLocalStorageGet
                 st ("mastery_" ++ isoDate (now / msPerDay - Z.of_nat i))
                 (VObj [])).
Proof.
  intros zone now st _.
  pose proof (getLast7DaysData_days zone now st) as H.
  split; [exact H|]. split; [rewrite H; reflexivity|].
  intros Hsteady i Hi.
  assert (Hdate : dateString (daysBefore zone now (Z.of_nat i))
                  = isoDate (now / msPerDay - Z.of_nat i))
    by (apply (dateString_daysBefore zone now 6); [exact Hsteady|lia]).
  split.
  - exact Hdate.
  - unfold dayRecord, dayKey. now rewrite Hdate.
Qed.

(** The progress display of [updateDomainProgress] is where a completed task
    counts in the domain of its category: on the same day it shows 15 for
    creation. *)
Example progressTotals_counts_categories :
  progressTotals (dayRecord utcZone sample_now sample_two_days 0)
  = Some (15, [("creation", 15); ("physical", 0); ("meditation", 0);
               ("recovery", 0)]).
Proof. vm_compute. reflexivity. Qed.

(** C3 as stated fails: the acting task of 10 XP is not counted in the day's
    creation value, and the stored [totalXP] of 160 is not the entry's; and in
    Los Angeles at 16:30 on the day the clocks go forward the week read holds
    today twice and ends a day early. *)
Lemma getLast7DaysData_ignores_categories_and_stored_total :
  let days := getLast7DaysData utcZone sample_now sample_two_days in
  (option_map (fun e => domainXP e "creation") (nth_error days 0) = Some 5
   /\ domainTotalWithTasks (dayRecord utcZone sample_now sample_two_days 0)
                           "creation" = 15
   /\ option_map totalXP (nth_error days 1) = Some 200
   /\ effectiveXP (dayRecord utcZone sample_now sample_two_days 1) = 160)
  /\ map date (getLast7DaysData pacific2026 sample_spring sample_spring_store)
     = ["2026-03-08"; "2026-03-08"; "2026-03-07"; "2026-03-06"; "2026-03-05";
        "2026-03-04"; "2026-03-03"].
Proof. vm_compute. repeat split; reflexivity. Qed.

(** ** The stored total *)

Lemma normalize_normalized v : normalized v -> normalize v = Return v.
Proof.
  intros (Hobj & Hd & Ht & Ha). rewrite (normalize_unfold _ Hobj).
  unfold with_default at 3. rewrite Hd.
  unfold with_default at 2. rewrite Ht.
  unfold with_default. rewrite Ha. reflexivity.
Qed.

Lemma normalized_setProp k x v :
  k <> "domains" -> k <> "tasks" -> k <> "alignment" ->
  normalized v -> normalized (setProp k x v).
Proof.
  intros H1 H2 H3 (Hobj & Hd & Ht & Ha). unfold normalized.
  rewrite is_object_setProp, !prop_setProp_other by assumption. auto.
Qed.

Lemma currentXP_setProp k x v :
  k <> "domains" -> k <> "tasks" -> currentXP (setProp k x v) = currentXP v.
Proof.
  intros H1 H2. unfold currentXP, addTaskXP, addDomainXP.
  rewrite !prop_setProp_other by assumption. reflexivity.
Qed.

Lemma todayRecord_written now st v :
  normalized v -> todayRecord now (assign (dayKey now) (Json v) st) = v.
Proof.
  intros Hn. unfold todayRecord.
  pose proof (safeLocalStorageGet_stored
                (assign (dayKey now) (Json v) st) (dayKey now) (VObj []) v
                (dayKey_prefix now) (lookup_assign_same _ _ _)
                (proj1 Hn)) as H.
  rewrite (normalize_normalized _ Hn) in H. now injection H.
Qed.

Lemma todayRecord_cases now st :
  todayRecord now st = VObj []
  \/ normalized (todayRecord now st)
  \/ is_object (todayRecord now st) = false.
Proof. apply safeLocalStorageGet_cases. apply dayKey_prefix. Qed.

Lemma progress_domain_total l :
  forall a dt,
    fst (fold_left progress_domain l (a, dt))
    = fold_left (fun acc (kv : string * value) =>
                   acc + num (prop "total" (snd kv))) l a.
Proof.
  induction l as [|kv l IH]; intros a dt; simpl; [reflexivity|]. apply IH.
Qed.

Lemma progress_task_total l :
  forall acc total dts,
    fold_left progress_task l acc = Some (total, dts) ->
    exists a dt,
      acc = Some (a, dt)
      /\ total = fold_left (fun acc task =>
                              if truthy_opt (prop "completed" task)
                              then acc + num (prop "xp" task) else acc) l a.
Proof.
  induction l as [|t l IH]; intros acc total dts H; simpl in H.
  - exists total, dts. split; [exact H|reflexivity].
  - destruct (IH _ _ _ H) as (a' & dt' & Hstep & Htotal).
    destruct acc as [[a dt]|]; [|discriminate].
    exists a, dt. split; [reflexivity|]. simpl.
    unfold progress_task in Hstep.
    destruct (truthy_opt (prop "completed" t)).
    + destruct (str (prop "category" t)) as [c|]; [|discriminate].
      destruct (lookup c TASK_CATEGORIES); [|discriminate].
      injection Hstep as <- _. exact Htotal.
    + injection Hstep as <- _. exact Htotal.
Qed.

Lemma progressTotals_total data total domainTotals :
  progressTotals data = Some (total, domainTotals) -> total = currentXP data.
Proof.
  unfold progressTotals, currentXP, addTaskXP, addDomainXP.
  set (dt0 := map (fun d => (d, 0)) DOMAIN_KEYS).
  set (start := if truthy_opt (prop "domains" data)
                then fold_left progress_domain (entries (prop "domains" data))
                               (0, dt0)
                else (0, dt0)).
  assert (Hstart : fst start
                   = if truthy_opt (prop "domains" data)
                     then fold_left (fun acc (kv : string * value) =>
                                       acc + num (prop "total" (snd kv)))
                                    (entries (prop "domains" data)) 0
                     else 0).
  { unfold start. destruct (truthy_opt (prop "domains" data)); [|reflexivity].
    apply progress_domain_total. }
  rewrite <- Hstart.
  destruct (truthy_opt (prop "tasks" data)).
  - intros H. destruct (progress_task_total _ _ _ _ H) as (a & dt & Ha & Ht).
    injection Ha as Ha. rewrite Ha. exact Ht.
  - intros H. injection H as H. now rewrite H.
Qed.

Section UnboundedStorage.

Variable zone : TimeZone.
Variable Date_parse : string -> option Z.
Variable storage_error : Store -> option string.
Hypothesis storage_fits : forall st, storage_error st = None.

Lemma safeLocalStorageSet_fits now st key v :
  safeLocalStorageSet zone Date_parse storage_error now st key v
  = (true, assign key (Json v) st).
Proof.
  unfold safeLocalStorageSet, setItem. now rewrite storage_fits.
Qed.

Lemma updateDomainProgress_stores_current now st :
  truthy_opt (prop "alignment" (todayRecord now st)) = true ->
  progressTotals (todayRecord now st) <> None ->
  let st' := updateDomainProgress zone Date_parse storage_error now st in
  prop "totalXP" (todayRecord now st')
  = Some (VNum (currentXP (todayRecord now st)))
  /\ currentXP (todayRecord now st') = currentXP (todayRecord now st).
Proof.
  intros Ha Hp st'. subst st'. unfold updateDomainProgress.
  fold (todayRecord now st).
  destruct (progressTotals (todayRecord now st)) as [[total dts]|] eqn:E;
    [|congruence].
  apply progressTotals_total in E. subst total. rewrite Ha.
  rewrite safeLocalStorageSet_fits. simpl snd.
  assert (Hn : normalized (todayRecord now st)).
  { destruct (todayRecord_cases now st) as [H | [H | H]]; [| exact H |].
    - rewrite H in Ha. discriminate.
    - destruct (todayRecord now st); discriminate. }
  rewrite todayRecord_written
    by (apply normalized_setProp; [discriminate..|exact Hn]).
  split.
  - apply prop_setProp_same. exact (proj1 Hn).
  - apply currentXP_setProp; discriminate.
Qed.

Lemma saveAlignment_stores_current now st reason :
  (30 <= String.length reason)%nat ->
  160 <= currentXP (todayRecord now st) ->
  let st' := saveAlignment zone Date_parse storage_error now st reason in
  prop "totalXP" (todayRecord now st')
  = Some (VNum (currentXP (todayRecord now st)))
  /\ prop "alignment" (todayRecord now st') = Some (VBool true)
  /\ currentXP (todayRecord now st') = currentXP (todayRecord now st).
Proof.
  intros Hlen Hxp st'. subst st'. unfold saveAlignment.
  assert (String.eqb reason "" = false) as ->.
  { destruct reason; [simpl in Hlen; lia|reflexivity]. }
  assert ((String.length reason <? 30)%nat = false) as ->
      by (apply Nat.ltb_ge; exact Hlen).
  cbn [orb]. fold (todayRecord now st).
  fold (currentXP (todayRecord now st)).
  assert ((currentXP (todayRecord now st) <? 160) = false) as ->
      by (apply Z.ltb_ge; exact Hxp).
  rewrite safeLocalStorageSet_fits. simpl snd.
  assert (Hn : normalized (todayRecord now st)).
  { destruct (todayRecord_cases now st) as [H | [H | H]]; [| exact H |].
    - rewrite H in Hxp. vm_compute in Hxp. congruence.
    - destruct (todayRecord now st); try discriminate;
        vm_compute in Hxp; congruence. }
  set (d1 := setProp "alignment" (VBool true) (todayRecord now st)).
  assert (Hn1 : normalized d1).
  { destruct Hn as (Hobj & Hd & Ht & _). unfold normalized, d1.
    rewrite is_object_setProp, !prop_setProp_other by discriminate.
    rewrite prop_setProp_same by exact Hobj. auto. }
  rewrite todayRecord_written
    by (repeat (apply normalized_setProp; [discriminate..|]); exact Hn1).
  repeat split.
  - apply prop_setProp_same. rewrite !is_object_setProp. exact (proj1 Hn1).
  - rewrite !prop_setProp_other by discriminate.
    apply prop_setProp_same. exact (proj1 Hn).
  - rewrite !currentXP_setProp by discriminate.
    apply currentXP_setProp; discriminate.
Qed.

End UnboundedStorage.

(** C2 as stated fails: after a day's work and a saved alignment the stored
    total is 165; deleting the completed task, or unticking it, writes 160
    back. *)
Lemma totalXP_decreases_after_alignment :
  prop "totalXP" (todayRecord sample_now sample_aligned_store)
  = Some (VNum 165)
  /\ prop "totalXP"
       (todayRecord sample_now
          (deleteTask utcZone strict_dates roomy sample_now sample_aligned_store
                      true sample_now))
     = Some (VNum 160)
  /\ prop "totalXP"
       (todayRecord sample_now
          (toggleTask utcZone strict_dates roomy sample_now sample_aligned_store
                      sample_now))
     = Some (VNum 160).
Proof. vm_compute. repeat split; reflexivity. Qed.

(** ** Backup *)

Lemma lookup_has_key {A : Type} k (l : list (string * A)) :
  has_key k l = true <-> exists v, lookup k l = Some v.
Proof.
  unfold has_key. induction l as [|[k' v'] l IH]; simpl.
  - split; [discriminate|]. intros [v H]. discriminate.
  - destruct (String.eqb k k'); simpl.
    + split; eauto.
    + exact IH.
Qed.

Lemma backup_loop_lookup (st0 l : Store) :
  forall (backup : Backup) key,
    lookup key (fold_left (backup_step st0) l backup)
    = if backed_up key && has_key key l
      then Some (Stored (getItem st0 key))
      else lookup key backup.
Proof.
  induction l as [|[k it] l IH]; intros backup key.
  - simpl. now rewrite andb_false_r.
  - cbn [fold_left]. rewrite IH. unfold has_key. cbn [map fst existsb].
    fold (has_key key l).
    destruct (backed_up key) eqn:Hb; cbn [andb].
    + destruct (has_key key l); cbn [orb].
      * now rewrite orb_true_r.
      * rewrite orb_false_r. unfold backup_step. cbn [fst].
        destruct (String.eqb key k) eqn:E.
        -- apply String.eqb_eq in E. subst k. rewrite Hb.
           apply lookup_assign_same.
        -- destruct (backed_up k); [|reflexivity].
           apply lookup_assign_other. intros ->.
           rewrite String.eqb_refl in E. discriminate.
    + unfold backup_step. cbn [fst].
      destruct (backed_up k) eqn:Hk; [|reflexivity].
      apply lookup_assign_other. intros ->. congruence.
Qed.

Lemma backupEntireSystem_lookup storage_error now st key :
  key <> "_metadata" ->
  lookup key (fst (backupEntireSystem storage_error now st))
  = if backed_up key && has_key key st
    then Some (Stored (getItem st key)) else None.
Proof.
  intros Hne. unfold backupEntireSystem.
  destruct (setItem storage_error st "last_backup_time" _); cbn [fst];
    (rewrite lookup_assign_other by congruence);
    apply (backup_loop_lookup st st []).
Qed.



(** ** Trend *)

(** The trend does not depend on the days after the first three. *)
Lemma getMomentumTrend_ignores_previous_block
      (recent older older' : list DayEntry) (currentScore : number) :
  List.length recent = 3%nat -> older <> [] -> older' <> [] ->
  getMomentumTrend (recent ++ older) currentScore
  = getMomentumTrend (recent ++ older') currentScore.
Proof.
  intros H3 Ho Ho'.
  destruct recent as [|a [|b [|c [|e r]]]]; try discriminate H3.
  destruct older as [|d l]; [congruence|].
  destruct older' as [|d' l']; [congruence|].
  reflexivity.
Qed.

(** C4.  On a week of seven days of 200 XP each the two three-day blocks have
    the same average, 200, which the spec's comparison calls steady; the code
    compares the composite score, 85, with the average of the first block and
    answers declining.  The average of [days[3:6]] is computed and not used. *)
Theorem getMomentumTrend_compares_score_with_recent_average :
  let days := getLast7DaysData utcZone sample_now sample_steady_week in
  map totalXP days = [200; 200; 200; 200; 200; 200; 200]
  /\ score (calculateMomentumScore utcZone sample_now sample_steady_week) = ofZ 85
  /\ trend (calculateMomentumScore utcZone sample_now sample_steady_week) = "declining"
  /\ trendOfBlocks days = "steady".
Proof. vm_compute. repeat split; reflexivity. Qed.

(** ** Momentum factors *)

Lemma filter_length_le {A : Type} (p : A -> bool) (l : list A) :
  (List.length (filter p l) <= List.length l)%nat.
Proof.
  induction l as [|x l IH]; simpl; [lia|]. destruct (p x); simpl; lia.
Qed.

(** The share of [count] days out of seven, as a percentage. *)
Lemma share_of_week (count : nat) :
  nmul (ndiv (ofNat count) (ofZ 7)) (ofZ 100)
  = Num (inject_Z (Z.of_nat count) / 7 * 100).
Proof. reflexivity. Qed.

Lemma share_of_week_range (count : nat) :
  (count <= 7)%nat ->
  (0 <= inject_Z (Z.of_nat count) / 7 * 100 <= 100)%Q.
Proof.
  intros H.
  assert (H0 : (0 <= inject_Z (Z.of_nat count))%Q)
    by (apply inject_Z_nonneg; lia).
  assert (H7 : (inject_Z (Z.of_nat count) <= 7)%Q).
  { change 7%Q with (inject_Z 7). rewrite <- Zle_Qle. lia. }
  split.
  - apply Qmult_le_0_compat; [|discriminate].
    apply Qle_shift_div_l; [reflexivity|]. lra.
  - assert (inject_Z (Z.of_nat count) / 7 <= 1)%Q
      by (apply Qle_shift_div_r; [reflexivity|]; lra).
    lra.
Qed.

Lemma calculateConsistencyScore_range days :
  (List.length days <= 7)%nat -> in_range (calculateConsistencyScore days).
Proof.
  intros H. unfold calculateConsistencyScore. rewrite share_of_week.
  eexists; split; [reflexivity|]. apply share_of_week_range.
  pose proof (filter_length_le (fun day => 160 <=? totalXP day) days). lia.
Qed.

Lemma calculateIntensityScore_range days :
  (List.length days <= 7)%nat -> in_range (calculateIntensityScore days).
Proof.
  intros H. unfold calculateIntensityScore. rewrite share_of_week.
  eexists; split; [reflexivity|]. apply share_of_week_range.
  pose proof (filter_length_le (fun day => 200 <=? totalXP day) days). lia.
Qed.

(** An average over a list that is not empty is a number. *)
Lemma average_is_number (sum : Z) (len : nat) :
  (0 < len)%nat ->
  ndiv (ofZ sum) (ofNat len)
  = Num (inject_Z sum / inject_Z (Z.of_nat len)).
Proof.
  intros H. unfold ndiv, ofNat, ofZ.
  destruct (Qeq_bool (inject_Z (Z.of_nat len)) 0) eqn:E; [|reflexivity].
  apply Qeq_bool_eq in E. unfold Qeq in E. simpl in E. lia.
Qed.

Lemma calculateGrowthScore_range days :
  (List.length days < 2 \/ 4 <= List.length days)%nat ->
  in_range (calculateGrowthScore days).
Proof.
  intros Hlen. unfold calculateGrowthScore.
  destruct (Nat.ltb_spec (List.length days) 2) as [Hlt|Hge].
  - exists 50%Q. split; [reflexivity|]. split; discriminate.
  - assert (H4 : (4 <= List.length days)%nat) by lia.
    rewrite !average_is_number
      by (rewrite ?length_firstn, ?length_skipn; lia).
    set (r := (inject_Z (sumXP (firstn 3 days))
               / inject_Z (Z.of_nat (List.length (firstn 3 days))))%Q).
    set (o := (inject_Z (sumXP (skipn 3 days))
               / inject_Z (Z.of_nat (List.length (skipn 3 days))))%Q).
    cbn [n_eq ofZ]. destruct (Qeq_bool o (inject_Z 0)) eqn:E.
    + destruct (n_lt (ofZ 0) (Num r)).
      * exists 100%Q. split; [reflexivity|]. split; discriminate.
      * exists 0%Q. split; [reflexivity|]. split; discriminate.
    + cbn [nsub lift2 ndiv]. change (Qeq_bool o 0) with (Qeq_bool o (inject_Z 0)).
      rewrite E. cbn.
      eexists; split; [reflexivity|]. split.
      * apply Q.min_glb; [apply Q.le_max_r|discriminate].
      * apply Q.le_min_r.
Qed.

Lemma domain_total_nonneg domain days :
  Forall wellFormedDay days ->
  forall a, 0 <= a ->
    0 <= fold_left (fun sum day => sum + domainXP day domain) days a.
Proof.
  induction 1 as [|day days [_ Hday] _ IH]; intros a Ha; simpl; [exact Ha|].
  apply IH. specialize (Hday domain). lia.
Qed.

Lemma average_nonneg (sum : Z) (len : nat) :
  0 <= sum -> (0 < len)%nat ->
  (0 <= inject_Z sum / inject_Z (Z.of_nat len))%Q.
Proof.
  intros Hs Hl. apply Qle_shift_div_l.
  - change 0%Q with (inject_Z 0). rewrite <- Zlt_Qlt. lia.
  - rewrite Qmult_0_l. now apply inject_Z_nonneg.
Qed.

(** The ratio of the smallest to the largest of some non-negative averages. *)
Lemma ratio_range (mn mx : Q) :
  (0 <= mn)%Q -> (mn <= mx)%Q -> ~ (mx == 0)%Q ->
  (0 <= mn / mx * 100 <= 100)%Q.
Proof.
  intros H0 Hle Hnz.
  assert (Hpos : (0 < mx)%Q).
  { destruct (Qlt_le_dec 0 mx) as [H|H]; [exact H|].
    exfalso. apply Hnz. apply Qle_antisym; [exact H|]. lra. }
  assert (Hlo : (0 <= mn / mx)%Q)
    by (apply Qle_shift_div_l; [exact Hpos|]; lra).
  assert (Hhi : (mn / mx <= 1)%Q)
    by (apply Qle_shift_div_r; [exact Hpos|]; lra).
  set (x := (mn / mx)%Q) in *. lra.
Qed.

Lemma calculateBalanceScore_range days :
  Forall wellFormedDay days -> (0 < List.length days)%nat ->
  in_range (calculateBalanceScore days).
Proof.
  intros Hwf Hlen. unfold calculateBalanceScore.
  cbn [map DOMAIN_KEYS].
  rewrite !average_is_number by exact Hlen.
  set (n := inject_Z (Z.of_nat (List.length days))).
  pose proof (fun domain =>
                average_nonneg _ _ (domain_total_nonneg domain days Hwf 0
                                      (Z.le_refl 0)) Hlen) as Hnn.
  fold n in Hnn.
  pose proof (Hnn "creation") as Ha. pose proof (Hnn "physical") as Hb.
  pose proof (Hnn "meditation") as Hc. pose proof (Hnn "recovery") as Hd.
  clear Hnn. cbv beta in Ha, Hb, Hc, Hd.
  set (a := (inject_Z (fold_left (fun sum day => (sum + domainXP day "creation")%Z)
                                 days 0%Z) / n)%Q) in *.
  set (b := (inject_Z (fold_left (fun sum day => (sum + domainXP day "physical")%Z)
                                 days 0%Z) / n)%Q) in *.
  set (c := (inject_Z (fold_left (fun sum day => (sum + domainXP day "meditation")%Z)
                                 days 0%Z) / n)%Q) in *.
  set (d := (inject_Z (fold_left (fun sum day => (sum + domainXP day "recovery")%Z)
                                 days 0%Z) / n)%Q) in *.
  cbn [Math_min Math_max fold_left Math_min2 Math_max2 lift2 n_eq ofZ].
  set (mn := Qmin (Qmin (Qmin a b) c) d).
  set (mx := Qmax (Qmax (Qmax a b) c) d).
  destruct (Qeq_bool mx (inject_Z 0)) eqn:E.
  - exists 0%Q. split; [reflexivity|]. split; discriminate.
  - cbn [ndiv]. change (Qeq_bool mx 0) with (Qeq_bool mx (inject_Z 0)).
    rewrite E. cbn [nmul lift2].
    eexists; split; [reflexivity|].
    apply ratio_range.
    + unfold mn. repeat apply Q.min_glb; assumption.
    + unfold mn, mx.
      apply Qle_trans with a.
      * eapply Qle_trans; [apply Q.le_min_l|].
        eapply Qle_trans; [apply Q.le_min_l|]. apply Q.le_min_l.
      * eapply Qle_trans; [|apply Q.le_max_l].
        eapply Qle_trans; [|apply Q.le_max_l]. apply Q.le_max_l.
    + intros H. apply Qeq_bool_neq in E. apply E. exact H.
Qed.

(** ** The composite score *)

(** The weighted sum of four numbers. *)
Lemma weighted_sum (c g b i : Q) :
  Math_round
    (nadd (nadd (nadd (nmul (Num c) (Num (4 # 10))) (nmul (Num g) (Num (3 # 10))))
                (nmul (Num b) (Num (2 # 10))))
          (nmul (Num i) (Num (1 # 10))))
  = ofZ (round (c * (4 # 10) + g * (3 # 10) + b * (2 # 10) + i * (1 # 10))).
Proof. reflexivity. Qed.

Lemma momentumScore_score days :
  (0 < List.length days)%nat ->
  score (momentumScore days)
  = Math_round
      (nadd (nadd (nadd (nmul (calculateConsistencyScore days) (Num (4 # 10)))
                        (nmul (calculateGrowthScore days) (Num (3 # 10))))
                  (nmul (calculateBalanceScore days) (Num (2 # 10))))
            (nmul (calculateIntensityScore days) (Num (1 # 10)))).
Proof.
  intros H. unfold momentumScore.
  destruct (Nat.eqb_spec (List.length days) 0) as [E|E]; [lia|reflexivity].
Qed.

(** X24.  The score where the growth factor is a number.  For a window of
    well-formed entries that has 0, 1 or 4 to 7 days (the window the program
    reads always has 7), the score is an integer between 0 and 100; the empty
    window gives score 0, trend [starting] and the begin-your-journey text. *)
Theorem momentumScore_bounds :
  (forall days : list DayEntry,
      Forall wellFormedDay days ->
      (List.length days <= 7)%nat ->
      List.length days <> 2%nat ->
      List.length days <> 3%nat ->
      exists z : Z, score (momentumScore days) = ofZ z /\ 0 <= z <= 100)
  /\ momentumScore []
     = {| score := ofZ 0;
          trend := "starting";
          recommendation := "Begin your journey with consistent daily effort.";
          factors := None |}.
Proof.
  split; [|reflexivity].
  intros days Hwf H7 H2 H3.
  destruct (Nat.eq_dec (List.length days) 0) as [E0|E0].
  - destruct days; [|discriminate]. exists 0. split; [reflexivity|lia].
  - assert (Hpos : (0 < List.length days)%nat) by lia.
    rewrite (momentumScore_score _ Hpos).
    destruct (calculateConsistencyScore_range days H7) as (c & -> & Hc).
    destruct (calculateGrowthScore_range days) as (g & -> & Hg); [lia|].
    destruct (calculateBalanceScore_range days Hwf Hpos) as (b & -> & Hb).
    destruct (calculateIntensityScore_range days H7) as (i & -> & Hi).
    rewrite weighted_sum. eexists; split; [reflexivity|]. split.
    + apply round_nonneg. lra.
    + apply round_le_Z. change (inject_Z 100) with 100%Q. lra.
Qed.

Lemma taskOnlyDay_wellFormed i xp : 0 <= xp -> wellFormedDay (taskOnlyDay i xp).
Proof.
  intros H. split; [exact H|]. intros domain. unfold domainXP. simpl.
  repeat match goal with
         | |- context [String.eqb ?a ?b] => destruct (String.eqb a b)
         end; lia.
Qed.



(** ** Monotonicity *)

Lemma count_replaced {A : Type} (p : A -> bool) (before after : list A) (x : A) :
  List.length (filter p (before ++ x :: after))
  = (List.length (filter p before) + (if p x then 1 else 0)
     + List.length (filter p after))%nat.
Proof.
  rewrite filter_app, length_app. simpl.
  destruct (p x); simpl; lia.
Qed.

Lemma share_of_week_le (m n : nat) :
  (m <= n)%nat ->
  (inject_Z (Z.of_nat m) / 7 * 100 <= inject_Z (Z.of_nat n) / 7 * 100)%Q.
Proof.
  intros H.
  assert (Hq : (inject_Z (Z.of_nat m) <= inject_Z (Z.of_nat n))%Q)
    by (rewrite <- Zle_Qle; lia).
  apply Qmult_le_compat_r; [|discriminate].
  apply Qmult_le_compat_r; [exact Hq|discriminate].
Qed.

Lemma n_le_numbers (x y : number) :
  n_le x y = true -> exists p q, x = Num p /\ y = Num q /\ (p <= q)%Q.
Proof.
  destruct x as [|p], y as [|q]; try discriminate.
  intros H. apply Qle_bool_iff in H. eauto.
Qed.

(** C5, as amended.  Let window A be window B with one day of less than 160 XP
    replaced by a day of 160 XP or more.  The consistency factor of A is not
    below that of B; and if the growth and balance factors of A are not below
    those of B either, the score of A is not below the score of B. *)
Theorem momentumScore_monotone_when_growth_and_balance_hold :
  forall (before after : list DayEntry) (a b : DayEntry),
    let A := (before ++ a :: after)%list in
    let B := (before ++ b :: after)%list in
    totalXP b < 160 ->
    160 <= totalXP a ->
    n_le (calculateConsistencyScore B) (calculateConsistencyScore A) = true
    /\ (n_le (calculateGrowthScore B) (calculateGrowthScore A) = true ->
        n_le (calculateBalanceScore B) (calculateBalanceScore A) = true ->
        n_le (score (momentumScore B)) (score (momentumScore A)) = true).
Proof.
  intros before after a b A B Hb Ha.
  assert (Hc : (inject_Z (Z.of_nat (List.length
                   (filter (fun day => 160 <=? totalXP day) B))) / 7 * 100
                <= inject_Z (Z.of_nat (List.length
                   (filter (fun day => 160 <=? totalXP day) A))) / 7 * 100)%Q).
  { apply share_of_week_le. subst A B. rewrite !count_replaced.
    destruct (Z.leb_spec 160 (totalXP b)); [lia|].
    destruct (Z.leb_spec 160 (totalXP a)); lia. }
  assert (Hi : (inject_Z (Z.of_nat (List.length
                   (filter (fun day => 200 <=? totalXP day) B))) / 7 * 100
                <= inject_Z (Z.of_nat (List.length
                   (filter (fun day => 200 <=? totalXP day) A))) / 7 * 100)%Q).
  { apply share_of_week_le. subst A B. rewrite !count_replaced.
    destruct (Z.leb_spec 200 (totalXP b)); [lia|].
    destruct (200 <=? totalXP a); lia. }
  split.
  - unfold calculateConsistencyScore. rewrite !share_of_week.
    apply Qle_bool_iff. exact Hc.
  - intros Hg Hbal.
    rewrite !momentumScore_score
      by (subst A B; rewrite length_app; simpl; lia).
    apply n_le_numbers in Hg. destruct Hg as (g1 & g2 & -> & -> & Hg).
    apply n_le_numbers in Hbal. destruct Hbal as (b1 & b2 & -> & -> & Hbal).
    unfold calculateConsistencyScore, calculateIntensityScore.
    rewrite !share_of_week, !weighted_sum.
    apply Qle_bool_iff. rewrite <- Zle_Qle. apply round_le. lra.
Qed.

(** C5 as stated fails: week A is week B with the fourth day's 159 XP
    replaced by 400 XP, all else equal, and scores 31 against 32. *)
Lemma momentumScore_drops_when_an_older_day_qualifies :
  sample_week_A
  = (firstn 3 sample_week_B ++ taskOnlyDay 3 400 :: skipn 4 sample_week_B)%list
  /\ sample_week_B
     = (firstn 3 sample_week_B ++ taskOnlyDay 3 159 :: skipn 4 sample_week_B)%list
  /\ score (momentumScore sample_week_A) = ofZ 31
  /\ score (momentumScore sample_week_B) = ofZ 32.
Proof. vm_compute. repeat split; reflexivity. Qed.

(** ** The theorems at work on the sample data *)

(** A store with a goal path, a [null] and a plain string under [mastery_]
    keys. *)
Lemma safeLocalStorageGet_defaults_witness :
  let st := [("mastery_goal_path",
              Json (VObj [("ultimateAim", VStr "Lead role");
                          ("alignment", VStr "yes")]))] in
  exists fields',
    safeLocalStorageGet st "mastery_goal_path" VNull = VObj fields'
    /\ lookup "domains" fields' = Some (VObj [])
    /\ lookup "tasks" fields' = Some (VArr [] [])
    /\ lookup "alignment" fields' = Some (VBool false)
    /\ lookup "ultimateAim" fields' = Some (VStr "Lead role").
Proof.
  intros st.
  destruct (proj1 (safeLocalStorageGet_defaults_under_every_mastery_key
                     st "mastery_goal_path" VNull eq_refl)
                  [("ultimateAim", VStr "Lead role"); ("alignment", VStr "yes")]
                  eq_refl)
    as (fields' & Hget & Hd & Ht & Ha & Hk).
  exists fields'. repeat split; try assumption.
  apply Hk; discriminate.
Defined.

Lemma getLast7DaysData_entries_witness :
  List.length (getLast7DaysData utcZone sample_now sample_two_days) = 7%nat
  /\ date (dayEntry utcZone sample_now sample_two_days 1) = "2026-11-01"
  /\ dayRecord utcZone sample_now sample_two_days 1
     = safeLocalStorageGet sample_two_days "mastery_2026-11-01" (VObj []).
Proof.
  assert (Htyped : forall i, (i < 7)%nat ->
             typedRecord (dayRecord utcZone sample_now sample_two_days (Z.of_nat i))
             = true).
  { intros i Hi. do 7 (destruct i as [|i]; [vm_compute; reflexivity|]). lia. }
  destruct (getLast7DaysData_entries utcZone sample_now sample_two_days Htyped)
    as (_ & Hlen & Hdates).
  split; [exact Hlen|].
  assert (Hone : (1 < 7)%nat) by lia.
  destruct (Hdates (steadyClock_utc sample_now 6) 1%nat Hone) as [Hdate Hrec].
  assert (Hiso : isoDate (sample_now / msPerDay - Z.of_nat 1) = "2026-11-01")
    by (vm_compute; reflexivity).
  rewrite Hiso in Hdate, Hrec. split; [exact Hdate|exact Hrec].
Defined.

Lemma calculateHollywoodProbability_capped_sum_witness :
  0 <= total (calculateHollywoodProbability 10 5 2 0) <= 95.
Proof.
  destruct (proj1 calculateHollywoodProbability_capped_sum 10 5 2 0)
    as (_ & _ & _ & _ & _ & H); [lia | lia | lia | lia | exact H].
Defined.

Lemma loadStreak_counts_maximal_run_witness :
  currentStreak (loadStreak utcZone sample_now sample_streak_store) = 5.
Proof.
  apply (loadStreak_counts_maximal_run utcZone sample_now sample_streak_store).
  - apply steadyClock_utc.
  - intros i Hi.
    assert (Hc : exists k, (k < 30)%nat /\ i = Z.of_nat k + 1)
      by (exists (Z.to_nat (i - 1)); lia).
    destruct Hc as (k & Hk & ->).
    do 30 (destruct k as [|k]; [vm_compute; reflexivity|]). lia.
  - intros i Hi.
    assert (i = 1 \/ i = 2 \/ i = 3 \/ i = 4 \/ i = 5) as Hcases by lia.
    destruct Hcases as [-> | [-> | [-> | [-> | ->]]]];
      (split; [vm_compute; reflexivity | vm_compute; discriminate]).
  - vm_compute. reflexivity.
  - vm_compute. reflexivity.
Defined.


Lemma sample_week_B_wellFormed : Forall wellFormedDay sample_week_B.
Proof. repeat constructor; apply taskOnlyDay_wellFormed; lia. Qed.

Lemma momentumScore_bounds_witness :
  exists z : Z, score (momentumScore sample_week_B) = ofZ z /\ 0 <= z <= 100.
Proof.
  apply (proj1 momentumScore_bounds sample_week_B).
  - exact sample_week_B_wellFormed.
  - simpl. lia.
  - discriminate.
  - discriminate.
Defined.

Lemma momentumScore_monotone_witness :
  n_le (score (momentumScore (taskOnlyDay 0 159 :: skipn 1 sample_week_B)))
       (score (momentumScore (taskOnlyDay 0 200 :: skipn 1 sample_week_B)))
  = true.
Proof.
  apply (momentumScore_monotone_when_growth_and_balance_hold
           [] (skipn 1 sample_week_B) (taskOnlyDay 0 200) (taskOnlyDay 0 159)).
  - simpl. lia.
  - simpl. lia.
  - vm_compute. reflexivity.
  - vm_compute. reflexivity.
Defined.

(** * Further properties *)

(** ** Writes and the sweep *)

Lemma lookup_remove_same {A : Type} k (l : list (string * A)) :
  lookup k (remove k l) = None.
Proof.
  induction l as [|[k' v] l IH]; simpl; [reflexivity|].
  destruct (String.eqb k k') eqn:E; [exact IH|]. simpl. now rewrite E.
Qed.

Section Writes.

Variable zone : TimeZone.
Variable Date_parse : string -> option Z.
Variable storage_error : Store -> option string.

Lemma setItem_stored st key i st' :
  setItem storage_error st key i = Return st' ->
  getItem st' key = Some i
  /\ forall k, k <> key -> getItem st' k = getItem st k.
Proof.
  unfold setItem. destruct (storage_error _); [discriminate|].
  intros H. injection H as <-. split.
  - apply lookup_assign_same.
  - intros k Hk. apply lookup_assign_other. congruence.
Qed.

(** One turn of the sweep leaves every item as it was or removes it, and it
    removes only a key of 16 characters under [mastery_] whose date the
    parser puts before the cutoff. *)
Lemma clearOldData_step_cases cutoff st key k :
  getItem (clearOldData_step Date_parse cutoff st key) k = getItem st k
  \/ (getItem (clearOldData_step Date_parse cutoff st key) k = None
      /\ String.prefix "mastery_" k = true
      /\ String.length k = 16%nat
      /\ exists date, Date_parse (strip_prefix k) = Some date /\ date < cutoff).
Proof.
  unfold clearOldData_step.
  destruct (String.prefix "mastery_" key) eqn:Hp; cbn [andb]; [|now left].
  destruct (Nat.eqb_spec (String.length key) 16) as [Hl|]; [|now left].
  destruct (Date_parse (strip_prefix key)) as [date|] eqn:Hd; [|now left].
  destruct (Z.ltb_spec date cutoff) as [Hlt|]; [|now left].
  destruct (String.eqb k key) eqn:E.
  - apply String.eqb_eq in E. subst k. right.
    repeat split; try assumption.
    + apply lookup_remove_same.
    + eauto.
  - left. apply lookup_remove_other. intros ->.
    rewrite String.eqb_refl in E. discriminate.
Qed.

Lemma clearOldData_loop_cases fuel cutoff k :
  forall i st,
    getItem (clearOldData_loop Date_parse fuel cutoff i st) k = getItem st k
    \/ (getItem (clearOldData_loop Date_parse fuel cutoff i st) k = None
        /\ String.prefix "mastery_" k = true
        /\ String.length k = 16%nat
        /\ exists date, Date_parse (strip_prefix k) = Some date /\ date < cutoff).
Proof.
  induction fuel as [|fuel IH]; intros i st; simpl; [now left|].
  destruct (nth_error st i) as [[key it]|]; [|now left].
  destruct (IH (S i) (clearOldData_step Date_parse cutoff st key))
    as [Heq | Hgone]; [|now right].
  rewrite Heq. apply clearOldData_step_cases.
Qed.

End Writes.

(** X1.  The sweep only removes.  An item that is in the store afterwards was
    there before, unchanged; and an item that is gone had a key of 16
    characters under [mastery_] which the browser's parser reads as a date
    before the cutoff, the local date and time of [now] three months
    earlier. *)
Theorem clearOldData_only_removes_old_dated_keys :
  forall (zone : TimeZone) (Date_parse : string -> option Z) (now : Z)
         (st : Store) (k : string),
    (forall i, getItem (clearOldData zone Date_parse now st) k = Some i ->
               getItem st k = Some i)
    /\ (getItem st k <> None ->
        getItem (clearOldData zone Date_parse now st) k = None ->
        String.prefix "mastery_" k = true
        /\ String.length k = 16%nat
        /\ exists date, Date_parse (strip_prefix k) = Some date
                        /\ date < monthsBefore zone now 3).
Proof.
  intros zone Dp now st k. unfold clearOldData.
  destruct (clearOldData_loop_cases Dp (List.length st) (monthsBefore zone now 3) k 0 st)
    as [Heq | (Hnone & Hrest)].
  - split.
    + intros i. now rewrite Heq.
    + intros Hin Hout. rewrite Heq in Hout. contradiction.
  - split.
    + intros i. rewrite Hnone. discriminate.
    + intros _ _. exact Hrest.
Qed.

(** X2.  A write that reports success has stored the value; a write that
    reports failure has left every key that is not 16 characters long, the
    written key included, with the item it had; and whatever it reports, the
    other keys that are not 16 characters long keep their items. *)
Theorem safeLocalStorageSet_stores_or_keeps :
  forall (zone : TimeZone) (Date_parse : string -> option Z)
         (storage_error : Store -> option string)
         (now : Z) (st : Store) (key : string) (v : value),
    let r := safeLocalStorageSet zone Date_parse storage_error now st key v in
    (fst r = true -> getItem (snd r) key = Some (Json v))
    /\ (fst r = false ->
        forall k, String.length k <> 16%nat -> getItem (snd r) k = getItem st k)
    /\ (forall k, k <> key -> String.length k <> 16%nat ->
                  getItem (snd r) k = getItem st k).
Proof.
  intros zone Dp se now st key v r. subst r. unfold safeLocalStorageSet.
  destruct (setItem se st key (JSON_stringify v)) as [st1|name] eqn:E1.
  - destruct (setItem_stored se _ _ _ _ E1) as [Hk Ho].
    cbn [fst snd]. repeat split; try discriminate; auto.
  - destruct (String.eqb name "QuotaExceededError").
    + assert (Hsweep : forall k, String.length k <> 16%nat ->
                getItem (clearOldData zone Dp now st) k = getItem st k)
        by (intros k Hk; unfold clearOldData; now apply clearOldData_loop_keeps).
      destruct (setItem se (clearOldData zone Dp now st) key (JSON_stringify v))
        as [st2|name2] eqn:E2; cbn [fst snd].
      * destruct (setItem_stored se _ _ _ _ E2) as [Hk Ho].
        repeat split; try discriminate; auto.
        intros k Hne Hlen. rewrite Ho by exact Hne. now apply Hsweep.
      * repeat split; try discriminate; auto.
    + cbn [fst snd]. repeat split; try discriminate; auto.
Qed.


Lemma safeLocalStorageSet_success zone Date_parse storage_error now st key v :
  fst (safeLocalStorageSet zone Date_parse storage_error now st key v) = true ->
  getItem (snd (safeLocalStorageSet zone Date_parse storage_error now st key v)) key
  = Some (Json v).
Proof.
  unfold safeLocalStorageSet.
  destruct (setItem storage_error st key (JSON_stringify v)) as [st1|name] eqn:E1.
  - intros _. exact (proj1 (setItem_stored _ _ _ _ _ E1)).
  - destruct (String.eqb name "QuotaExceededError"); [|discriminate].
    destruct (setItem storage_error (clearOldData zone Date_parse now st) key
                      (JSON_stringify v)) as [st2|name2] eqn:E2; [|discriminate].
    intros _. exact (proj1 (setItem_stored _ _ _ _ _ E2)).
Qed.

Lemma safeLocalStorageSet_elsewhere zone Date_parse storage_error now st key v k :
  k <> key -> String.length k <> 16%nat ->
  getItem (snd (safeLocalStorageSet zone Date_parse storage_error now st key v)) k
  = getItem st k.
Proof.
  intros Hne Hlen. unfold safeLocalStorageSet.
  destruct (setItem storage_error st key (JSON_stringify v)) as [st1|name] eqn:E1.
  - exact (proj2 (setItem_stored _ _ _ _ _ E1) k Hne).
  - destruct (String.eqb name "QuotaExceededError"); [|reflexivity].
    assert (Hsweep : getItem (clearOldData zone Date_parse now st) k = getItem st k)
      by (unfold clearOldData; now apply clearOldData_loop_keeps).
    destruct (setItem storage_error (clearOldData zone Date_parse now st) key
                      (JSON_stringify v)) as [st2|name2] eqn:E2; cbn [snd].
    + now rewrite (proj2 (setItem_stored _ _ _ _ _ E2) k Hne).
    + exact Hsweep.
Qed.

(** What a read makes of a stored JSON text. *)
Lemma safeLocalStorageGet_of_item st key fallback v :
  getItem st key = Some (Json v) ->
  safeLocalStorageGet st key fallback
  = if String.prefix "mastery_" key && typeof_object v
    then match normalize v with
         | Return w => w
         | Throw _ => fallback
         end
    else v.
Proof.
  intros H. unfold safeLocalStorageGet, safeLocalStorageGet_try.
  rewrite H. cbn [item_falsy JSON_parse].
  destruct (String.prefix "mastery_" key && typeof_object v); reflexivity.
Qed.

Lemma typeof_object_is_object v : is_object v = true -> typeof_object v = true.
Proof. now destruct v. Qed.

(** X3.  Round trip of a write that reports success, for a value that a JSON
    text can carry.  Under a key outside [mastery_] the read gives the value
    back; under a [mastery_] key an object comes back with the three defaults
    filled in, and unchanged if it had them; [null] under a [mastery_] key
    comes back as the fallback. *)
Theorem safeLocalStorage_round_trip :
  forall (zone : TimeZone) (Date_parse : string -> option Z)
         (storage_error : Store -> option string)
         (now : Z) (st : Store) (key : string) (v fallback : value),
    let r := safeLocalStorageSet zone Date_parse storage_error now st key v in
    jsonValue v = true ->
    fst r = true ->
    (String.prefix "mastery_" key = false ->
     safeLocalStorageGet (snd r) key fallback = v)
    /\ (String.prefix "mastery_" key = true -> is_object v = true ->
        safeLocalStorageGet (snd r) key fallback = filled v)
    /\ (normalized v -> safeLocalStorageGet (snd r) key fallback = v)
    /\ (String.prefix "mastery_" key = true -> v = VNull ->
        safeLocalStorageGet (snd r) key fallback = fallback).
Proof.
  intros zone Dp se now st key v fallback r _ Hok. subst r.
  pose proof (safeLocalStorageSet_success _ _ _ _ _ _ _ Hok) as Hget.
  rewrite (safeLocalStorageGet_of_item _ _ fallback _ Hget).
  repeat split.
  - intros ->. reflexivity.
  - intros -> Hobj. rewrite (typeof_object_is_object _ Hobj).
    cbn [andb]. now rewrite (normalize_unfold _ Hobj).
  - intros Hn. rewrite (normalize_normalized _ Hn).
    destruct (String.prefix "mastery_" key && typeof_object v); reflexivity.
  - intros -> ->. reflexivity.
Qed.

(** ** Days and their keys *)

Lemma civil_from_days_bounds day :
  let '(y, m, d) := civil_from_days day in 1 <= m <= 12 /\ 1 <= d <= 31.
Proof.
  unfold civil_from_days. cbv zeta.
  set (z := day + 719468). set (era := z / 146097).
  set (doe := z - era * 146097).
  assert (Hdoe : 0 <= doe < 146097)
    by (subst doe era; pose proof (Z.mod_pos_bound z 146097);
        pose proof (Z.div_mod z 146097); lia).
  clearbody doe. clear z era.
  set (yoe := (doe - doe / 1460 + doe / 36524 - doe / 146096) / 365).
  assert (Hyoe : 0 <= yoe <= 399) by (subst yoe; Z.div_mod_to_equations; lia).
  set (doy := doe - (365 * yoe + yoe / 4 - yoe / 100)).
  assert (Hdoy : 0 <= doy <= 365)
    by (subst doy yoe; Z.div_mod_to_equations; lia).
  clearbody doy.
  set (mp := (5 * doy + 2) / 153).
  assert (Hmp : 0 <= mp <= 11) by (subst mp; Z.div_mod_to_equations; lia).
  destruct (mp <? 10) eqn:E1; [apply Z.ltb_lt in E1|apply Z.ltb_ge in E1];
    (split; [lia|]; subst mp; Z.div_mod_to_equations; lia).
Qed.

Lemma civil_from_days_year day :
  fourDigitYears day ->
  let '(y, m, d) := civil_from_days day in 0 <= y <= 9999.
Proof.
  unfold fourDigitYears, civil_from_days. intros Hday. cbv zeta.
  set (z := day + 719468). set (era := z / 146097).
  set (doe := z - era * 146097).
  assert (Hdoe : 0 <= doe < 146097)
    by (subst doe era; pose proof (Z.mod_pos_bound z 146097);
        pose proof (Z.div_mod z 146097); lia).
  assert (Hera : 0 <= era <= 23)
    by (subst era z; Z.div_mod_to_equations; lia).
  clearbody doe. clearbody era. clear z.
  set (yoe := (doe - doe / 1460 + doe / 36524 - doe / 146096) / 365).
  assert (Hyoe : 0 <= yoe <= 399) by (subst yoe; Z.div_mod_to_equations; lia).
  clearbody yoe.
  destruct (_ <=? 2); lia.
Qed.

(** The day number of the date of a day is that day. *)
Lemma days_from_civil_from_days day :
  let '(y, m, d) := civil_from_days day in days_from_civil y m d = day.
Proof.
  unfold civil_from_days. cbv zeta.
  set (z := day + 719468). set (era := z / 146097).
  set (doe := z - era * 146097).
  assert (Hdoe : 0 <= doe < 146097)
    by (subst doe era; pose proof (Z.mod_pos_bound z 146097);
        pose proof (Z.div_mod z 146097); lia).
  assert (Hz : day = era * 146097 + doe - 719468) by (subst doe z; lia).
  clearbody doe. clearbody era. clear z.
  set (yoe := (doe - doe / 1460 + doe / 36524 - doe / 146096) / 365).
  assert (Hyoe : 0 <= yoe <= 399) by (subst yoe; Z.div_mod_to_equations; lia).
  set (doy := doe - (365 * yoe + yoe / 4 - yoe / 100)).
  assert (Hdoy : 0 <= doy <= 365)
    by (subst doy yoe; Z.div_mod_to_equations; lia).
  assert (Hdoe2 : doe = 365 * yoe + yoe / 4 - yoe / 100 + doy)
    by (subst doy; lia).
  clearbody doy. clearbody yoe.
  set (mp := (5 * doy + 2) / 153).
  assert (Hmp : 0 <= mp <= 11) by (subst mp; Z.div_mod_to_equations; lia).
  assert (Hd : 0 <= doy - (153 * mp + 2) / 5 <= 30)
    by (subst mp; Z.div_mod_to_equations; lia).
  unfold days_from_civil.
  destruct (mp <? 10) eqn:E1; [apply Z.ltb_lt in E1|apply Z.ltb_ge in E1].
  - assert ((mp + 3 <=? 2) = false) as -> by (apply Z.leb_gt; lia).
    assert ((2 <? mp + 3) = true) as -> by (apply Z.ltb_lt; lia).
    cbv zeta. replace (mp + 3 - 3) with mp by lia.
    assert ((yoe + era * 400) / 400 = era) as ->
      by (symmetry; apply Z.div_unique with yoe; lia).
    replace (yoe + era * 400 - era * 400) with yoe by lia. lia.
  - assert ((mp - 9 <=? 2) = true) as -> by (apply Z.leb_le; lia).
    assert ((2 <? mp - 9) = false) as -> by (apply Z.ltb_ge; lia).
    cbv zeta. replace (mp - 9 + 9) with mp by lia.
    replace (yoe + era * 400 + 1 - 1) with (yoe + era * 400) by lia.
    assert ((yoe + era * 400) / 400 = era) as ->
      by (symmetry; apply Z.div_unique with yoe; lia).
    replace (yoe + era * 400 - era * 400) with yoe by lia. lia.
Qed.

Lemma digit_inj a b : digit a = digit b -> a mod 10 = b mod 10.
Proof.
  unfold digit. intros H.
  pose proof (Z.mod_pos_bound a 10 eq_refl) as Ha.
  pose proof (Z.mod_pos_bound b 10 eq_refl) as Hb.
  apply (f_equal nat_of_ascii) in H.
  rewrite !nat_ascii_embedding in H by lia. lia.
Qed.

Lemma pad2_inj a b :
  0 <= a <= 99 -> 0 <= b <= 99 -> pad2 a = pad2 b -> a = b.
Proof.
  unfold pad2. intros Ha Hb H. injection H as H1 H0.
  apply digit_inj in H1, H0. revert H1 H0. Z.div_mod_to_equations. lia.
Qed.

Lemma pad4_inj a b :
  0 <= a <= 9999 -> 0 <= b <= 9999 -> pad4 a = pad4 b -> a = b.
Proof.
  unfold pad4, pad3, pad2. intros Ha Hb H. injection H as H3 H2 H1 H0.
  apply digit_inj in H3, H2, H1, H0. revert H3 H2 H1 H0.
  Z.div_mod_to_equations. lia.
Qed.

Lemma isoDate_inj d1 d2 :
  fourDigitYears d1 -> fourDigitYears d2 -> isoDate d1 = isoDate d2 -> d1 = d2.
Proof.
  intros R1 R2 H.
  pose proof (civil_from_days_bounds d1) as B1.
  pose proof (civil_from_days_bounds d2) as B2.
  pose proof (civil_from_days_year d1 R1) as Y1.
  pose proof (civil_from_days_year d2 R2) as Y2.
  pose proof (days_from_civil_from_days d1) as T1.
  pose proof (days_from_civil_from_days d2) as T2.
  unfold isoDate in H.
  destruct (civil_from_days d1) as [[y1 m1] dd1].
  destruct (civil_from_days d2) as [[y2 m2] dd2].
  assert (Hy : pad4 y1 = pad4 y2 /\ pad2 m1 = pad2 m2 /\ pad2 dd1 = pad2 dd2).
  { revert H. unfold pad4, pad3, pad2. cbn [append].
    intros H. injection H as -> -> -> -> -> -> -> ->. auto. }
  destruct Hy as (Hy & Hm & Hd).
  apply pad4_inj in Hy; [|lia..].
  apply pad2_inj in Hm; [|lia..].
  apply pad2_inj in Hd; [|lia..].
  congruence.
Qed.

Lemma append_inj_l (p s1 s2 : string) : (p ++ s1 = p ++ s2)%string -> s1 = s2.
Proof.
  induction p as [|c p IH]; cbn [append]; [auto|].
  intros H. injection H as H. auto.
Qed.

(** Different days of the four-digit years have different keys. *)
Lemma dayKey_inj t1 t2 :
  fourDigitYears (t1 / msPerDay) -> fourDigitYears (t2 / msPerDay) ->
  dayKey t1 = dayKey t2 -> t1 / msPerDay = t2 / msPerDay.
Proof.
  intros R1 R2 H. unfold dayKey in H. apply append_inj_l in H.
  rewrite !dateString_isoDate in H. now apply isoDate_inj.
Qed.

Lemma daysBefore_day zone now days i :
  steadyClock zone now days -> 0 <= i <= days ->
  daysBefore zone now i / msPerDay = now / msPerDay - i.
Proof.
  intros Hs Hi. rewrite (Hs i Hi).
  replace (now - i * msPerDay) with (now + (- i) * msPerDay) by lia.
  rewrite Z.div_add by discriminate. lia.
Qed.

(** ** What the operations leave alone *)

Lemma sameElsewhere_refl now st : sameElsewhere now st st.
Proof. intros k _ _. reflexivity. Qed.

Lemma sameElsewhere_trans now st1 st2 st3 :
  sameElsewhere now st1 st2 -> sameElsewhere now st2 st3 ->
  sameElsewhere now st1 st3.
Proof.
  intros H12 H23 k Hk Hl. rewrite (H23 k Hk Hl). now apply H12.
Qed.

Section Frames.

Variable zone : TimeZone.
Variable Date_parse : string -> option Z.
Variable storage_error : Store -> option string.

Lemma safeLocalStorageSet_today now st v :
  sameElsewhere now st
    (snd (safeLocalStorageSet zone Date_parse storage_error now st (dayKey now) v)).
Proof. intros k Hk Hl. now apply safeLocalStorageSet_elsewhere. Qed.

Lemma updateDomainProgress_elsewhere now st :
  sameElsewhere now st (updateDomainProgress zone Date_parse storage_error now st).
Proof.
  unfold updateDomainProgress.
  destruct (progressTotals _) as [[total dts]|]; [|apply sameElsewhere_refl].
  destruct (truthy_opt _); [|apply sameElsewhere_refl].
  apply safeLocalStorageSet_today.
Qed.

Lemma refresh_elsewhere now st :
  sameElsewhere now st (refresh zone Date_parse storage_error now st).
Proof.
  unfold refresh. destruct (loadTodayTasks_returns now st).
  - apply updateDomainProgress_elsewhere.
  - apply sameElsewhere_refl.
Qed.

Lemma write_and_refresh_elsewhere now st v :
  sameElsewhere now st
    (refresh zone Date_parse storage_error now
       (snd (safeLocalStorageSet zone Date_parse storage_error now st (dayKey now) v))).
Proof.
  eapply sameElsewhere_trans;
    [apply safeLocalStorageSet_today | apply refresh_elsewhere].
Qed.

Lemma write_and_progress_elsewhere now st v :
  sameElsewhere now st
    (updateDomainProgress zone Date_parse storage_error now
       (snd (safeLocalStorageSet zone Date_parse storage_error now st (dayKey now) v))).
Proof.
  eapply sameElsewhere_trans;
    [apply safeLocalStorageSet_today | apply updateDomainProgress_elsewhere].
Qed.

End Frames.

Ltac elsewhere :=
  repeat match goal with
         | |- sameElsewhere _ ?st ?st => apply sameElsewhere_refl
         | |- sameElsewhere _ _ (refresh _ _ _ _ (snd _)) =>
             apply write_and_refresh_elsewhere
         | |- sameElsewhere _ _ (updateDomainProgress _ _ _ _ (snd _)) =>
             apply write_and_progress_elsewhere
         | |- sameElsewhere _ _ (snd (safeLocalStorageSet _ _ _ _ _ _ _)) =>
             apply safeLocalStorageSet_today
         | |- sameElsewhere _ _ (if ?c then _ else _) => destruct c
         | |- sameElsewhere _ _ (match ?c with _ => _ end) => destruct c
         end.

(** X4.  The task and domain operations, the progress refresh and
    [saveAlignment] write under today's key only: every other key keeps its
    item, the keys of 16 characters apart, which the sweep of a full storage
    may remove.  No daily record of another day is touched, whether the
    storage overflows or not. *)
Theorem operations_write_today_only :
  forall (zone : TimeZone) (Date_parse : string -> option Z) (storage_error : Store -> option string)
         (now : Z) (st : Store),
    (forall taskText category xp,
        sameElsewhere now st
          (addTask zone Date_parse storage_error now st taskText category xp))
    /\ (forall taskId,
           sameElsewhere now st
             (toggleTask zone Date_parse storage_error now st taskId))
    /\ (forall confirmed taskId,
           sameElsewhere now st
             (deleteTask zone Date_parse storage_error now st confirmed taskId))
    /\ (forall taskText xp category editing,
           sameElsewhere now st
             (saveTaskEdit zone Date_parse storage_error now st taskText xp category
                           editing))
    /\ (forall domain amount,
           sameElsewhere now st
             (addQuickDomainXP zone Date_parse storage_error now st domain amount))
    /\ (forall domain category xp,
           sameElsewhere now st
             (addDomainActivity zone Date_parse storage_error now st domain category xp))
    /\ sameElsewhere now st (updateDomainProgress zone Date_parse storage_error now st)
    /\ (forall reason,
           sameElsewhere now st
             (saveAlignment zone Date_parse storage_error now st reason)).
Proof.
  intros zone Dp se now st. repeat split; intros.
  - unfold addTask. elsewhere.
  - unfold toggleTask. elsewhere.
  - unfold deleteTask. elsewhere.
  - unfold saveTaskEdit. elsewhere.
  - unfold addQuickDomainXP, addDomainEntry. elsewhere.
  - unfold addDomainActivity, addDomainEntry. elsewhere.
  - apply updateDomainProgress_elsewhere.
  - unfold saveAlignment. elsewhere.
Qed.

(** ** The streak and today *)

Lemma safeLocalStorageGet_same_item st st' key fallback :
  getItem st' key = getItem st key ->
  safeLocalStorageGet st' key fallback = safeLocalStorageGet st key fallback.
Proof.
  intros H. unfold safeLocalStorageGet, safeLocalStorageGet_try. now rewrite H.
Qed.

Lemma dayRecord_elsewhere zone now days st st' i :
  steadyClock zone now days -> 0 < i <= days ->
  fourDigitYears (now / msPerDay) -> fourDigitYears (now / msPerDay - i) ->
  sameElsewhere now st st' ->
  dayRecord zone now st' i = dayRecord zone now st i.
Proof.
  intros Hs Hi R0 Ri Hsame. unfold dayRecord.
  assert (Hd : daysBefore zone now i / msPerDay = now / msPerDay - i)
    by (apply (daysBefore_day zone now days); [exact Hs|lia]).
  apply safeLocalStorageGet_same_item. apply Hsame.
  - intros Heq. apply dayKey_inj in Heq.
    + rewrite Hd in Heq. lia.
    + now rewrite Hd.
    + exact R0.
  - rewrite dayKey_length. discriminate.
Qed.

Lemma loadStreak_loop_elsewhere zone now days st st' turns :
  steadyClock zone now days ->
  fourDigitYears (now / msPerDay) ->
  sameElsewhere now st st' ->
  forall i acc,
    1 <= i -> i + Z.of_nat turns <= days + 1 ->
    fourDigitYears (now / msPerDay - (i + Z.of_nat turns)) ->
    loadStreak_loop zone turns now st' i acc = loadStreak_loop zone turns now st i acc.
Proof.
  intros Hs R0 Hsame. induction turns as [|turns IH]; intros i acc Hi Hd Hr.
  - reflexivity.
  - cbn [loadStreak_loop]. fold (dayRecord zone now st' i). fold (dayRecord zone now st i).
    rewrite (dayRecord_elsewhere zone now days st st' i); try assumption.
    + destruct (truthy_opt _); [|reflexivity].
      destruct (160 <=? _); [|reflexivity].
      apply IH; [lia|lia|].
      replace (i + 1 + Z.of_nat turns) with (i + Z.of_nat (S turns)) by lia.
      exact Hr.
    + lia.
    + unfold fourDigitYears in *. lia.
Qed.

(** X5.  Where the clock of the time zone does not change in the thirty days
    before [now] ([steadyClock]: stepping back [i] local days is stepping back
    [i] times 24 hours), the streak that [loadStreak] counts does not depend
    on today's record: two stores that agree on everything but today's key
    (and keys of 16 characters) give the same count.  With X4, nothing that
    the user does during such a day changes the streak shown.  Across a clock
    change the walk may read today's key as yesterday's. *)
Theorem loadStreak_count_ignores_today :
  forall (zone : TimeZone) (now : Z) (st st' : Store),
    steadyClock zone now 30 ->
    fourDigitYears (now / msPerDay) ->
    fourDigitYears (now / msPerDay - 31) ->
    sameElsewhere now st st' ->
    currentStreak (loadStreak zone now st') = currentStreak (loadStreak zone now st).
Proof.
  intros zone now st st' Hs R0 R31 Hsame. unfold loadStreak. cbn [currentStreak].
  apply (loadStreak_loop_elsewhere zone now 30); try assumption; try lia.
Qed.

(** X6.  In the four-digit years, and where the clock of the time zone does
    not change in the six days before [now] ([steadyClock]), the seven entries
    of [getLast7DaysData] carry seven different dates.  Across a clock change
    one date can come twice. *)
Theorem getLast7DaysData_dates_differ :
  forall (zone : TimeZone) (now : Z) (st : Store),
    steadyClock zone now 6 ->
    fourDigitYears (now / msPerDay) ->
    fourDigitYears (now / msPerDay - 6) ->
    NoDup (map date (getLast7DaysData zone now st)).
Proof.
  intros zone now st Hs R0 R6.
  rewrite (getLast7DaysData_days zone now st), map_map.
  apply NoDup_map_NoDup_ForallPairs; [|apply seq_NoDup].
  intros i j Hi Hj Heq. apply in_seq in Hi, Hj.
  cbn [dayEntry date] in Heq.
  rewrite !(dateString_daysBefore zone now 6) in Heq by (try exact Hs; lia).
  apply isoDate_inj in Heq; unfold fourDigitYears in *; lia.
Qed.

(** ** Today's record through a write and a refresh *)

Lemma filled_spec v :
  is_object v = true ->
  normalized (filled v)
  /\ entries (prop "domains" (filled v)) = entries (prop "domains" v)
  /\ elements (prop "tasks" (filled v)) = elements (prop "tasks" v)
  /\ (truthy_opt (prop "tasks" v) = true ->
      prop "tasks" (filled v) = prop "tasks" v)
  /\ (truthy_opt (prop "domains" v) = true ->
      prop "domains" (filled v) = prop "domains" v)
  /\ (is_boolean (prop "alignment" v) = true ->
      prop "alignment" (filled v) = prop "alignment" v)
  /\ (forall k, k <> "domains" -> k <> "tasks" -> k <> "alignment" ->
                prop k (filled v) = prop k v).
Proof.
  intros Hobj.
  destruct (normalize_spec v Hobj) as (w & Hw & Hn & D & T & A & K & _).
  rewrite (normalize_unfold _ Hobj) in Hw. injection Hw as Hw.
  change (filled v = w) in Hw. rewrite Hw.
  split; [exact Hn|]. repeat split; try assumption.
  - rewrite D. destruct (prop "domains" v) as [[| [] | n | s | |]|];
      try reflexivity; cbn [truthy_opt truthy].
    + destruct (n =? 0); reflexivity.
    + destruct (String.eqb s ""); reflexivity.
  - rewrite T. destruct (prop "tasks" v) as [[| [] | n | s | |]|];
      try reflexivity; cbn [truthy_opt truthy].
    + destruct (n =? 0); reflexivity.
    + destruct (String.eqb s ""); reflexivity.
  - intros Ht. now rewrite T, Ht.
  - intros Hd. now rewrite D, Hd.
  - intros Ha. now rewrite A, Ha.
Qed.

Lemma addDomainXP_entries a data :
  addDomainXP a data
  = fold_left (fun acc (kv : string * value) => acc + num (prop "total" (snd kv)))
              (entries (prop "domains" data)) a.
Proof.
  unfold addDomainXP. destruct (truthy_opt (prop "domains" data)) eqn:E;
    [reflexivity|].
  destruct (prop "domains" data) as [[]|]; try reflexivity; discriminate.
Qed.

(** The day's XP is read off the domain entries and the task elements. *)
Lemma currentXP_same d1 d2 :
  entries (prop "domains" d1) = entries (prop "domains" d2) ->
  elements (prop "tasks" d1) = elements (prop "tasks" d2) ->
  currentXP d1 = currentXP d2.
Proof.
  intros Hd Ht. unfold currentXP.
  rewrite !addTaskXP_completedTaskXP, !addDomainXP_entries, Hd.
  unfold completedTaskXP, completedTasks. now rewrite Ht.
Qed.

Lemma currentXP_filled v : is_object v = true -> currentXP (filled v) = currentXP v.
Proof.
  intros Hobj. destruct (filled_spec v Hobj) as (_ & D & T & _).
  now apply currentXP_same.
Qed.

Section Fits.

Variable zone : TimeZone.
Variable Date_parse : string -> option Z.
Variable storage_error : Store -> option string.
Hypothesis storage_fits : forall st, storage_error st = None.

Lemma todayRecord_after_write now st v :
  is_object v = true ->
  todayRecord now
    (snd (safeLocalStorageSet zone Date_parse storage_error now st (dayKey now) v))
  = filled v.
Proof.
  intros Hobj. rewrite (safeLocalStorageSet_fits _ _ _ storage_fits). cbn [snd].
  unfold todayRecord.
  rewrite (safeLocalStorageGet_of_item _ _ _ v) by apply lookup_assign_same.
  rewrite dayKey_prefix, (typeof_object_is_object _ Hobj). cbn [andb].
  now rewrite (normalize_unfold _ Hobj).
Qed.

(** A progress refresh leaves today's record as it is or sets its [totalXP]
    to the day's XP. *)
Lemma updateDomainProgress_record now st :
  let r := todayRecord now st in
  let r' := todayRecord now (updateDomainProgress zone Date_parse storage_error now st) in
  r' = r \/ (normalized r /\ r' = setProp "totalXP" (VNum (currentXP r)) r).
Proof.
  intros r r'. subst r r'. unfold updateDomainProgress.
  fold (todayRecord now st).
  destruct (progressTotals (todayRecord now st)) as [[total dts]|] eqn:E;
    [|now left].
  apply progressTotals_total in E. subst total.
  destruct (truthy_opt (prop "alignment" (todayRecord now st))) eqn:Ha;
    [|now left].
  assert (Hn : normalized (todayRecord now st)).
  { destruct (todayRecord_cases now st) as [H | [H | H]]; [| exact H |].
    - rewrite H in Ha. discriminate.
    - destruct (todayRecord now st); discriminate. }
  right. split; [exact Hn|].
  rewrite (safeLocalStorageSet_fits _ _ _ storage_fits). cbn [snd].
  apply todayRecord_written.
  apply normalized_setProp; [discriminate..|exact Hn].
Qed.

Lemma refresh_record now st :
  let r := todayRecord now st in
  let r' := todayRecord now (refresh zone Date_parse storage_error now st) in
  r' = r \/ (normalized r /\ r' = setProp "totalXP" (VNum (currentXP r)) r).
Proof.
  cbv zeta. unfold refresh. destruct (loadTodayTasks_returns now st).
  - apply updateDomainProgress_record.
  - now left.
Qed.

Lemma refresh_prop now st k :
  k <> "totalXP" ->
  prop k (todayRecord now (refresh zone Date_parse storage_error now st))
  = prop k (todayRecord now st).
Proof.
  intros Hk. destruct (refresh_record now st) as [-> | [_ ->]]; [reflexivity|].
  apply prop_setProp_other. congruence.
Qed.


Lemma refresh_currentXP now st :
  currentXP (todayRecord now (refresh zone Date_parse storage_error now st))
  = currentXP (todayRecord now st).
Proof.
  apply currentXP_same; now rewrite refresh_prop by discriminate.
Qed.


End Fits.

(** ** What the operations do to today's record *)

Lemma elements_default (o : option value) :
  elements (if truthy_opt o then o else Some (VArr [] [])) = elements o.
Proof.
  destruct o as [[| [] | n | s | |]|]; try reflexivity; cbn [truthy_opt truthy].
  - destruct (n =? 0); reflexivity.
  - destruct (String.eqb s ""); reflexivity.
Qed.

Lemma elements_withElements l o : elements (Some (withElements l o)) = l.
Proof. destruct o as [[]|]; reflexivity. Qed.

Lemma completedTaskXP_elements d l :
  elements (prop "tasks" d) = l ->
  completedTaskXP d
  = sumZ (map (fun task => num (prop "xp" task))
              (filter (fun task => truthy_opt (prop "completed" task)) l)).
Proof. intros <-. reflexivity. Qed.

Lemma currentXP_parts d :
  currentXP d = addDomainXP 0 d + completedTaskXP d.
Proof. unfold currentXP. apply addTaskXP_completedTaskXP. Qed.

Lemma sumZ_app l1 l2 : sumZ (l1 ++ l2) = sumZ l1 + sumZ l2.
Proof. unfold sumZ. induction l1 as [|x l1 IH]; simpl; lia. Qed.

(** [tasks.find(p)] and the update of what it finds. *)
Lemma updateFound_find p f l :
  match find p l with
  | None => updateFound p f l = None
  | Some t =>
      exists l1 l2,
        l = (l1 ++ t :: l2)%list
        /\ updateFound p f l = Some (l1 ++ f t :: l2)%list
  end.
Proof.
  induction l as [|x l IH]; simpl; [reflexivity|].
  destruct (p x) eqn:E.
  - exists [], l. split; reflexivity.
  - destruct (find p l) as [t|].
    + destruct IH as (l1 & l2 & -> & ->).
      exists (x :: l1), l2. split; reflexivity.
    + now rewrite IH.
Qed.

Section Operations.

Variable zone : TimeZone.
Variable Date_parse : string -> option Z.
Variable storage_error : Store -> option string.
Hypothesis storage_fits : forall st, storage_error st = None.

(** X7.  [addTask] with a text appends the new, uncompleted task to today's
    tasks and leaves the day's XP as it was. *)
Theorem addTask_appends_without_XP now st taskText category xp :
  taskText <> "" ->
  taskRecord (todayRecord now st) = true ->
  let st' := addTask zone Date_parse storage_error now st taskText category xp in
  elements (prop "tasks" (todayRecord now st'))
  = (elements (prop "tasks" (todayRecord now st))
       ++ [VObj [("id", VNum now); ("text", VStr taskText);
                 ("category", VStr category); ("xp", VNum xp);
                 ("completed", VBool false);
                 ("timestamp", VStr (toISOString now))]])%list
  /\ currentXP (todayRecord now st') = currentXP (todayRecord now st).
Proof.
  intros Htext Hrec st'. subst st'. unfold addTask.
  assert (Hobj : is_object (todayRecord now st) = true).
  { unfold taskRecord in Hrec. apply andb_prop in Hrec.
    destruct Hrec as [Hrec _]. destruct (todayRecord now st); now try discriminate. }
  clear Hrec.
  assert (String.eqb taskText "" = false) as ->
      by (apply String.eqb_neq; exact Htext).
  fold (todayRecord now st). set (r := todayRecord now st) in *.
  destruct (with_default_spec truthy_opt "tasks" (VArr [] []) r Hobj)
    as (O1 & T1 & K1 & _).
  set (data1 := with_default truthy_opt "tasks" (VArr [] []) r) in *.
  set (task := VObj _).
  set (data' := setProp "tasks" _ data1).
  assert (O' : is_object data' = true)
    by (unfold data'; now rewrite is_object_setProp).
  assert (E1 : elements (prop "tasks" data1) = elements (prop "tasks" r))
    by (rewrite T1; apply elements_default).
  assert (E' : elements (prop "tasks" data')
               = (elements (prop "tasks" r) ++ [task])%list).
  { unfold data'. rewrite prop_setProp_same by exact O1.
    now rewrite elements_withElements, E1. }
  assert (D' : prop "domains" data' = prop "domains" r).
  { unfold data'. rewrite prop_setProp_other by discriminate.
    apply K1. discriminate. }
  destruct (filled_spec data' O') as (_ & FD & FT & _).
  split.
  - rewrite (refresh_prop _ _ _ storage_fits) by discriminate.
    rewrite (todayRecord_after_write _ _ _ storage_fits) by exact O'.
    now rewrite FT, E'.
  - rewrite (refresh_currentXP _ _ _ storage_fits).
    rewrite (todayRecord_after_write _ _ _ storage_fits) by exact O'.
    rewrite (currentXP_filled _ O'), !currentXP_parts, !addDomainXP_entries, D'.
    f_equal. rewrite (completedTaskXP_elements _ _ E').
    rewrite filter_app, map_app, sumZ_app. cbn. unfold completedTaskXP,
      completedTasks. lia.
Qed.

(** X8.  A confirmed [deleteTask] leaves of today's tasks those whose [id] is
    not the deleted one, in their order. *)
Theorem deleteTask_removes_by_id now st taskId :
  taskRecord (todayRecord now st) = true ->
  let st' := deleteTask zone Date_parse storage_error now st true taskId in
  elements (prop "tasks" (todayRecord now st'))
  = filter (fun t => negb (has_id taskId t))
           (elements (prop "tasks" (todayRecord now st)))
  /\ Forall (fun t => has_id taskId t = false)
            (elements (prop "tasks" (todayRecord now st'))).
Proof.
  intros _ st'.
  assert (H : elements (prop "tasks" (todayRecord now st'))
              = filter (fun t => negb (has_id taskId t))
                       (elements (prop "tasks" (todayRecord now st)))).
  { subst st'. unfold deleteTask. fold (todayRecord now st).
    set (r := todayRecord now st).
    destruct (truthy_opt (prop "tasks" r)) eqn:Ht.
    - assert (Hobj : is_object r = true)
        by (destruct r; try reflexivity; discriminate).
      set (data' := setProp "tasks" _ r).
      assert (O' : is_object data' = true)
        by (unfold data'; now rewrite is_object_setProp).
      destruct (filled_spec data' O') as (_ & _ & FT & _).
      rewrite (refresh_prop _ _ _ storage_fits) by discriminate.
      rewrite (todayRecord_after_write _ _ _ storage_fits) by exact O'.
      rewrite FT. unfold data'. now rewrite prop_setProp_same by exact Hobj.
    - fold r. destruct (prop "tasks" r) as [[]|]; try reflexivity; discriminate. }
  split; [exact H|]. rewrite H. apply Forall_forall. intros t Ht.
  apply filter_In in Ht. destruct Ht as [_ Ht]. now apply negb_true_iff in Ht.
Qed.





End Operations.

(** ** The stored total follows the record *)

Lemma knownCategories_loadTodayTasks now st :
  loadTodayTasks_returns now st = knownCategories (todayRecord now st).
Proof.
  unfold loadTodayTasks_returns, knownCategories, todayRecord, taskDomain.
  induction (elements _) as [|task l IH]; cbn [forallb]; [reflexivity|].
  rewrite IH. destruct (str (prop "category" task)); reflexivity.
Qed.

Lemma progress_task_known l :
  forallb (fun task => match taskDomain task with
                       | Some _ => true
                       | None => false
                       end) l = true ->
  forall acc, fold_left progress_task l (Some acc) <> None.
Proof.
  induction l as [|task l IH]; intros Hknown acc; cbn [fold_left];
    [discriminate|].
  cbn [forallb] in Hknown. apply andb_prop in Hknown.
  destruct Hknown as [Htask Hl]. destruct acc as [total dts].
  unfold progress_task at 2. unfold taskDomain in Htask.
  destruct (truthy_opt (prop "completed" task)); [|now apply IH].
  destruct (str (prop "category" task)) as [c|]; [|discriminate].
  destruct (lookup c TASK_CATEGORIES); [|discriminate].
  now apply IH.
Qed.

Lemma knownCategories_progressTotals data :
  knownCategories data = true -> progressTotals data <> None.
Proof.
  intros Hknown. unfold progressTotals.
  destruct (truthy_opt (prop "tasks" data)); [|discriminate].
  now apply progress_task_known.
Qed.

Lemma taskDomain_setProp k x task :
  k <> "category" -> taskDomain (setProp k x task) = taskDomain task.
Proof.
  intros Hk. unfold taskDomain. rewrite prop_setProp_other by congruence.
  reflexivity.
Qed.

Lemma forallb_filter {A : Type} (p q : A -> bool) l :
  forallb p l = true -> forallb p (filter q l) = true.
Proof.
  induction l as [|x l IH]; cbn [forallb filter]; [reflexivity|].
  intros H. apply andb_prop in H. destruct H as [Hx Hl].
  destruct (q x); cbn [forallb]; [rewrite Hx|]; auto.
Qed.

Section FollowsTheRecord.

Variable zone : TimeZone.
Variable Date_parse : string -> option Z.
Variable storage_error : Store -> option string.
Hypothesis storage_fits : forall st, storage_error st = None.

Lemma updateDomainProgress_follows now st :
  prop "alignment" (todayRecord now st) = Some (VBool true) ->
  knownCategories (todayRecord now st) = true ->
  totalIsCurrent now (updateDomainProgress zone Date_parse storage_error now st).
Proof.
  intros Ha Hknown.
  assert (Ht : truthy_opt (prop "alignment" (todayRecord now st)) = true)
    by now rewrite Ha.
  destruct (updateDomainProgress_stores_current zone Date_parse storage_error
              storage_fits now st Ht
              (knownCategories_progressTotals _ Hknown)) as [Htotal Hxp].
  unfold totalIsCurrent. now rewrite <- currentXP_described, Hxp.
Qed.

Lemma write_and_progress_follows now st data :
  is_object data = true ->
  prop "alignment" data = Some (VBool true) ->
  knownCategories data = true ->
  totalIsCurrent now
    (updateDomainProgress zone Date_parse storage_error now
       (snd (safeLocalStorageSet zone Date_parse storage_error now st
                                 (dayKey now) data))).
Proof.
  intros Hobj Ha Hknown.
  destruct (filled_spec data Hobj) as (_ & _ & FT & _ & _ & FA & _).
  apply updateDomainProgress_follows;
    rewrite (todayRecord_after_write _ _ _ storage_fits) by exact Hobj.
  - rewrite FA by now rewrite Ha. exact Ha.
  - unfold knownCategories in *. now rewrite FT.
Qed.

Lemma write_and_refresh_follows now st data :
  is_object data = true ->
  prop "alignment" data = Some (VBool true) ->
  knownCategories data = true ->
  totalIsCurrent now
    (refresh zone Date_parse storage_error now
       (snd (safeLocalStorageSet zone Date_parse storage_error now st
                                 (dayKey now) data))).
Proof.
  intros Hobj Ha Hknown. unfold refresh.
  rewrite knownCategories_loadTodayTasks.
  rewrite (todayRecord_after_write _ _ _ storage_fits) by exact Hobj.
  destruct (filled_spec data Hobj) as (_ & _ & FT & _).
  assert (knownCategories (filled data) = true) as ->
      by (unfold knownCategories in *; now rewrite FT).
  now apply write_and_progress_follows.
Qed.

(** C2, as amended.  The storage takes every write; today's record is a
    [typedRecord].  A [saveAlignment] with a reason of 30 characters or more
    on a day of 160 XP or more marks the day as aligned and stores as
    [totalXP] the XP that the record holds, the domain activity and the
    completed tasks added up.  On an aligned day all of whose tasks have a
    category of [TASK_CATEGORIES], the progress refresh, a task added with a
    text and a listed category, and domain XP added to a domain that the
    record has room for, each end with the stored [totalXP] equal to the XP
    that the record holds afterwards; a task toggle, a task delete and a
    task edit to a listed category each leave the store as it was or end in
    the same way.  The stored total so follows the record, down as well as
    up. *)
Theorem totalXP_follows_the_record now st :
  let r := todayRecord now st in
  typedRecord r = true ->
  (forall reason,
      (30 <= String.length reason)%nat ->
      160 <= domainActivityXP r + completedTaskXP r ->
      let st' := saveAlignment zone Date_parse storage_error now st reason in
      prop "alignment" (todayRecord now st') = Some (VBool true)
      /\ prop "totalXP" (todayRecord now st')
         = Some (VNum (domainActivityXP r + completedTaskXP r))
      /\ totalIsCurrent now st')
  /\ (prop "alignment" r = Some (VBool true) ->
      knownCategories r = true ->
      totalIsCurrent now (updateDomainProgress zone Date_parse storage_error now st)
      /\ (forall taskText category xp,
             taskText <> "" -> lookup category TASK_CATEGORIES <> None ->
             totalIsCurrent now
               (addTask zone Date_parse storage_error now st taskText category xp))
      /\ (forall taskId,
             let st' := toggleTask zone Date_parse storage_error now st taskId in
             st' = st \/ totalIsCurrent now st')
      /\ (forall confirmed taskId,
             let st' := deleteTask zone Date_parse storage_error now st confirmed
                                   taskId in
             st' = st \/ totalIsCurrent now st')
      /\ (forall taskText xp category editing,
             lookup category TASK_CATEGORIES <> None ->
             let st' := saveTaskEdit zone Date_parse storage_error now st taskText
                                     xp category editing in
             st' = st \/ totalIsCurrent now st')
      /\ (forall domain,
             domainSlot r domain = true ->
             (forall amount,
                 totalIsCurrent now
                   (addQuickDomainXP zone Date_parse storage_error now st domain
                                     amount))
             /\ (forall category xp,
                    totalIsCurrent now
                      (addDomainActivity zone Date_parse storage_error now st
                                         domain category xp)))).
Proof.
  intros r Htyped.
  assert (Hobj : is_object r = true).
  { unfold typedRecord in Htyped. destruct r; try discriminate Htyped.
    reflexivity. }
  split.
  - intros reason Hlen Hxp st'. rewrite <- currentXP_described in Hxp |- *.
    destruct (saveAlignment_stores_current zone Date_parse storage_error
                storage_fits now st reason Hlen Hxp) as (Ht & Ha & Hx).
    fold st' in Ht, Ha, Hx. fold r in Ht, Hx.
    split; [exact Ha|]. split; [exact Ht|].
    unfold totalIsCurrent. now rewrite <- currentXP_described, Hx.
  - intros Ha Hknown.
    split; [now apply updateDomainProgress_follows|].
    split; [|split; [|split; [|split]]].
    + (* addTask *)
      intros taskText category xp Htext Hcat. unfold addTask.
      assert (String.eqb taskText "" = false) as ->
          by (apply String.eqb_neq; exact Htext).
      fold (todayRecord now st). fold r.
      destruct (with_default_spec truthy_opt "tasks" (VArr [] []) r Hobj)
        as (O1 & T1 & K1 & _).
      set (data1 := with_default truthy_opt "tasks" (VArr [] []) r) in *.
      set (task := VObj _).
      set (data' := setProp "tasks" _ data1).
      assert (E1 : elements (prop "tasks" data1) = elements (prop "tasks" r))
        by (rewrite T1; apply elements_default).
      apply write_and_refresh_follows.
      * unfold data'. now rewrite is_object_setProp.
      * unfold data'. rewrite prop_setProp_other by discriminate.
        rewrite K1 by discriminate. exact Ha.
      * unfold knownCategories, data'. rewrite prop_setProp_same by exact O1.
        rewrite elements_withElements, E1, forallb_app.
        unfold knownCategories in Hknown. rewrite Hknown. cbn [andb forallb].
        unfold task, taskDomain. cbn [prop lookup String.eqb Ascii.eqb Bool.eqb str].
        destruct (lookup category TASK_CATEGORIES); [reflexivity|congruence].
    + (* toggleTask *)
      intros taskId st'. subst st'. unfold toggleTask.
      fold (todayRecord now st). fold r.
      set (flip := fun task : value =>
                     setProp "completed"
                       (VBool (negb (truthy_opt (prop "completed" task)))) task).
      pose proof (updateFound_find (has_id taskId) flip (elements (prop "tasks" r)))
        as Hfind.
      destruct (truthy_opt (prop "tasks" r)); [|now left].
      destruct (find (has_id taskId) (elements (prop "tasks" r))) as [task|];
        [|rewrite Hfind; now left].
      destruct Hfind as (l1 & l2 & Hl & ->). right.
      apply write_and_refresh_follows.
      * now rewrite is_object_setProp.
      * rewrite prop_setProp_other by discriminate. exact Ha.
      * unfold knownCategories in *. rewrite prop_setProp_same by exact Hobj.
        rewrite elements_withElements. rewrite Hl in Hknown.
        rewrite forallb_app in *. cbn [forallb] in *.
        unfold flip. now rewrite taskDomain_setProp by discriminate.
    + (* deleteTask *)
      intros confirmed taskId st'. subst st'. unfold deleteTask.
      destruct confirmed; [|now left].
      fold (todayRecord now st). fold r.
      destruct (truthy_opt (prop "tasks" r)); [|now left].
      right. apply write_and_refresh_follows.
      * now rewrite is_object_setProp.
      * rewrite prop_setProp_other by discriminate. exact Ha.
      * unfold knownCategories in *. rewrite prop_setProp_same by exact Hobj.
        cbn [elements]. now apply forallb_filter.
    + (* saveTaskEdit *)
      intros taskText xp category editing Hcat st'. subst st'.
      unfold saveTaskEdit.
      destruct (String.eqb taskText ""); [now left|].
      destruct (xp <=? 0); [now left|].
      destruct editing as [taskId|]; [|now left].
      fold (todayRecord now st). fold r.
      destruct (truthy_opt (prop "tasks" r) && negb (taskId =? 0)); [|now left].
      set (edit := fun task : value =>
                     setProp "updated" (VStr (toISOString now))
                       (setProp "category" (VStr category)
                          (setProp "xp" (VNum xp)
                             (setProp "text" (VStr taskText) task)))).
      pose proof (updateFound_find (has_id taskId) edit (elements (prop "tasks" r)))
        as Hfind.
      destruct (find (has_id taskId) (elements (prop "tasks" r))) as [task|] eqn:Ef;
        [|rewrite Hfind; now left].
      destruct Hfind as (l1 & l2 & Hl & ->). right.
      assert (Htask : is_object task = true).
      { apply find_some in Ef. destruct Ef as [_ Hid]. unfold has_id in Hid.
        destruct task; try reflexivity; discriminate. }
      apply write_and_refresh_follows.
      * now rewrite is_object_setProp.
      * rewrite prop_setProp_other by discriminate. exact Ha.
      * unfold knownCategories in *. rewrite prop_setProp_same by exact Hobj.
        rewrite elements_withElements. rewrite Hl in Hknown.
        rewrite forallb_app in *. cbn [forallb] in *.
        apply andb_prop in Hknown. destruct Hknown as [H1 H2].
        apply andb_prop in H2. destruct H2 as [_ H2]. rewrite H1, H2.
        assert (taskDomain (edit task) = lookup category TASK_CATEGORIES) as ->.
        { unfold edit, taskDomain. rewrite prop_setProp_other by discriminate.
          rewrite prop_setProp_same by now rewrite !is_object_setProp.
          reflexivity. }
        destruct (lookup category TASK_CATEGORIES); [reflexivity|congruence].
    + (* domain XP *)
      intros domain Hslot.
      assert (Hentry : forall xp activity,
                 totalIsCurrent now
                   (addDomainEntry zone Date_parse storage_error now st domain
                                   xp activity)).
      { intros xp activity. unfold addDomainEntry.
        fold (todayRecord now st). fold r.
        destruct (with_default_spec truthy_opt "domains" (VObj []) r Hobj)
          as (O1 & _ & K1 & _).
        set (data1 := with_default truthy_opt "domains" (VObj []) r) in *.
        apply write_and_progress_follows.
        - now rewrite is_object_setProp.
        - rewrite prop_setProp_other by discriminate.
          rewrite K1 by discriminate. exact Ha.
        - unfold knownCategories in *.
          rewrite prop_setProp_other by discriminate.
          now rewrite K1 by discriminate. }
      split.
      * intros amount. apply Hentry.
      * intros category xp. apply Hentry.
Qed.

End FollowsTheRecord.

(** Where a task has a category that [TASK_CATEGORIES] does not list, a
    toggle writes the task and stops in [loadTodayTasks], before the progress
    refresh: the stored total stays at 165 while the record holds 160. *)
Example toggleTask_keeps_the_total_on_an_unlisted_category :
  let st' :=
    toggleTask utcZone strict_dates roomy sample_now sample_unlisted_store 1 in
  typedRecord (todayRecord sample_now sample_unlisted_store) = true
  /\ knownCategories (todayRecord sample_now sample_unlisted_store) = false
  /\ prop "totalXP" (todayRecord sample_now st') = Some (VNum 165)
  /\ domainActivityXP (todayRecord sample_now st')
     + completedTaskXP (todayRecord sample_now st') = 160.
Proof. vm_compute. repeat split; reflexivity. Qed.

(** ** Alignment, completion and the streak *)

Lemma loadStreak_loop_grows zone turns now st i acc :
  acc <= loadStreak_loop zone turns now st i acc.
Proof.
  pose proof (loadStreak_loop_run zone turns now st i acc) as H. cbv zeta in H. lia.
Qed.

Section Alignment.

Variable zone : TimeZone.
Variable Date_parse : string -> option Z.
Variable storage_error : Store -> option string.
Hypothesis storage_fits : forall st, storage_error st = None.

(** X11.  On a day whose record is a [typedRecord] (numbers where the XP
    are), a [saveAlignment] that goes through completes the day: afterwards
    [checkTodayCompletion] holds and [loadStreak] shows today as complete and
    not at risk; and 24 hours later, where the clock of the time zone did not
    change in between ([steadyClock]), the streak counts at least one day.
    With a reason of fewer than 30 characters or fewer than 160 XP nothing is
    written. *)
Theorem saveAlignment_completes_the_day now st reason :
  typedRecord (todayRecord now st) = true ->
  let st' := saveAlignment zone Date_parse storage_error now st reason in
  ((30 <= String.length reason)%nat ->
   160 <= currentXP (todayRecord now st) ->
   checkTodayCompletion now st' = true
   /\ todayComplete (loadStreak zone now st') = true
   /\ streakAtRisk (loadStreak zone now st') = false
   /\ (steadyClock zone (now + msPerDay) 1 ->
       1 <= currentStreak (loadStreak zone (now + msPerDay) st')))
  /\ ((String.length reason < 30)%nat \/ currentXP (todayRecord now st) < 160 ->
      st' = st).
Proof.
  intros _ st'. split.
  - intros Hlen Hxp.
    destruct (saveAlignment_stores_current zone Date_parse storage_error storage_fits
                now st reason Hlen Hxp) as (Ht & Ha & _).
    fold st' in Ht, Ha.
    assert (Hc : truthy_opt (prop "alignment" (todayRecord now st')) = true)
      by now rewrite Ha.
    assert (Hx : (160 <=? num (prop "totalXP" (todayRecord now st'))) = true)
      by (rewrite Ht; apply Z.leb_le; exact Hxp).
    assert (He : (160 <=? effectiveXP (todayRecord now st')) = true).
    { unfold effectiveXP. rewrite Ht. cbn [truthy_opt truthy num].
      assert ((currentXP (todayRecord now st) =? 0) = false) as ->
          by (apply Z.eqb_neq; lia).
      cbn [negb]. apply Z.leb_le; exact Hxp. }
    repeat split.
    + unfold checkTodayCompletion. fold (todayRecord now st').
      now rewrite Hc, Hx.
    + unfold loadStreak. cbn [todayComplete]. fold (todayRecord now st').
      now rewrite Hc, He.
    + unfold loadStreak. cbn [streakAtRisk]. fold (todayRecord now st').
      now rewrite Hc, He.
    + intros Hs. unfold loadStreak. cbn [currentStreak].
      change 30%nat with (S 29). cbn [loadStreak_loop].
      replace (daysBefore zone (now + msPerDay) 1) with now
        by (rewrite (Hs 1) by lia; lia).
      fold (todayRecord now st'). rewrite Hc, He.
      apply (loadStreak_loop_grows zone 29 (now + msPerDay) st' (1 + 1) (0 + 1)).
  - intros Hno. subst st'. unfold saveAlignment.
    destruct (String.eqb reason "" || (String.length reason <? 30)%nat) eqn:E;
      [reflexivity|].
    apply orb_false_elim in E. destruct E as [_ E]. apply Nat.ltb_ge in E.
    destruct Hno as [Hno | Hno]; [lia|].
    fold (todayRecord now st). fold (currentXP (todayRecord now st)).
    apply Z.ltb_lt in Hno. now rewrite Hno.
Qed.

End Alignment.

(** ** Probability and momentum *)

(** X12.  The breakthrough probability never goes down when a count goes up:
    neither the total nor any part of the breakdown. *)
Theorem calculateHollywoodProbability_monotone
  (streak streak' tier1 tier1' callbacks callbacks' roles roles' : Z) :
  streak <= streak' -> tier1 <= tier1' -> callbacks <= callbacks' ->
  roles <= roles' ->
  let p := calculateHollywoodProbability streak tier1 callbacks roles in
  let p' := calculateHollywoodProbability streak' tier1' callbacks' roles' in
  total p <= total p'
  /\ Breakdown.consistency (breakdown p) <= Breakdown.consistency (breakdown p')
  /\ Breakdown.opportunities (breakdown p)
     <= Breakdown.opportunities (breakdown p')
  /\ Breakdown.callbacks (breakdown p) <= Breakdown.callbacks (breakdown p')
  /\ Breakdown.bookings (breakdown p) <= Breakdown.bookings (breakdown p').
Proof.
  intros Hs Ht Hc Hr p p'. subst p p'.
  unfold calculateHollywoodProbability. cbn [total breakdown
    Breakdown.consistency Breakdown.opportunities Breakdown.callbacks
    Breakdown.bookings].
  rewrite Zle_Qle in Hs, Ht, Hc, Hr.
  assert (H1 : (Qmin (inject_Z streak * (8 # 10)) 20
                <= Qmin (inject_Z streak' * (8 # 10)) 20)%Q)
    by (apply Q.min_le_compat_r; lra).
  assert (H2 : (Qmin (inject_Z tier1 * (6 # 10)) 30
                <= Qmin (inject_Z tier1' * (6 # 10)) 30)%Q)
    by (apply Q.min_le_compat_r; lra).
  assert (H3 : (Qmin (inject_Z callbacks * 4) 30
                <= Qmin (inject_Z callbacks' * 4) 30)%Q)
    by (apply Q.min_le_compat_r; lra).
  assert (H4 : (Qmin (inject_Z roles * 20) 20
                <= Qmin (inject_Z roles' * 20) 20)%Q)
    by (apply Q.min_le_compat_r; lra).
  repeat split; apply round_le; try assumption.
  apply Q.min_le_compat_r. lra.
Qed.

Lemma sumZ_nonneg l : Forall (fun x => 0 <= x) l -> 0 <= sumZ l.
Proof. induction 1; simpl; lia. Qed.

Lemma dayEntry_wellFormed zone now st i :
  wellFormedRecord (dayRecord zone now st (Z.of_nat i)) ->
  wellFormedDay (dayEntry zone now st i).
Proof.
  intros [Ha Ht]. split.
  - cbn [dayEntry totalXP]. apply Z.add_nonneg_nonneg; [|exact Ht].
    apply sumZ_nonneg. apply Forall_forall. intros x Hx.
    apply in_map_iff in Hx. destruct Hx as (domain & <- & _). apply Ha.
  - intros domain. unfold domainXP. cbn [dayEntry domains DOMAIN_KEYS map lookup].
    repeat match goal with
           | |- context [String.eqb ?a ?b] => destruct (String.eqb a b)
           end; try apply Ha; lia.
Qed.

Lemma getLast7DaysData_wellFormed zone now st :
  (forall i, (i < 7)%nat ->
             typedRecord (dayRecord zone now st (Z.of_nat i)) = true
             /\ wellFormedRecord (dayRecord zone now st (Z.of_nat i))) ->
  Forall wellFormedDay (getLast7DaysData zone now st).
Proof.
  intros H. rewrite getLast7DaysData_days. apply Forall_forall.
  intros day Hday. apply in_map_iff in Hday. destruct Hday as (i & <- & Hi).
  apply dayEntry_wellFormed. apply H. apply in_seq in Hi. lia.
Qed.

(** Against a score of at most 100, three recent days of more than 315 XP in
    all leave only one answer. *)
Lemma getMomentumTrend_above_105 days z :
  (4 <= List.length days)%nat -> z <= 100 ->
  315 < sumXP (firstn 3 days) ->
  getMomentumTrend days (ofZ z) = "declining".
Proof.
  intros Hlen Hz Hsum. unfold getMomentumTrend.
  assert ((List.length days <? 4)%nat = false) as -> by (apply Nat.ltb_ge; lia).
  unfold calculateMomentumScoreForPeriod.
  assert (H3 : List.length (firstn 3 days) = 3%nat)
    by (rewrite length_firstn; lia).
  rewrite H3. cbn [Nat.eqb]. rewrite average_is_number by lia.
  set (r := (inject_Z (sumXP (firstn 3 days)) / inject_Z (Z.of_nat 3))%Q).
  assert (Hr : (105 < r)%Q).
  { unfold r. change (inject_Z (Z.of_nat 3)) with 3%Q.
    apply Qlt_shift_div_l; [reflexivity|].
    change (105 * 3)%Q with (inject_Z 315). now rewrite <- Zlt_Qlt. }
  assert (Hq : (inject_Z z <= 100)%Q)
    by (change 100%Q with (inject_Z 100); now rewrite <- Zle_Qle).
  unfold ofZ. cbn [nadd nsub lift2 n_lt n_le].
  change (inject_Z 10) with 10%Q. change (inject_Z 5) with 5%Q.
  assert (Qle_bool (inject_Z z) (r + 10) = true) as ->
      by (apply Qle_bool_iff; lra).
  assert (Qle_bool (inject_Z z) (r + 5) = true) as ->
      by (apply Qle_bool_iff; lra).
  cbn [negb].
  destruct (Qle_bool (r - 5) (inject_Z z)) eqn:E; [|reflexivity].
  apply Qle_bool_iff in E. lra.
Qed.

Lemma nonnegRecord_wellFormed data :
  nonnegRecord data = true -> wellFormedRecord data.
Proof.
  unfold nonnegRecord, wellFormedRecord, activityTotal. intros H.
  apply andb_prop in H. destruct H as [Hd Ht]. split; [|now apply Z.leb_le].
  intros domain.
  destruct (prop "domains" data) as [[| | | | |ds]|]; try discriminate Hd;
    try reflexivity.
  cbn [prop_opt prop]. destruct (lookup domain ds) as [e|] eqn:El;
    [|reflexivity].
  assert (Hin : In (domain, e) ds).
  { clear Hd. induction ds as [|[k v] ds IH]; [discriminate|].
    cbn [lookup] in El. destruct (String.eqb domain k) eqn:E.
    - apply String.eqb_eq in E. injection El as ->. subst k. now left.
    - right. now apply IH. }
  rewrite forallb_forall in Hd. specialize (Hd _ Hin). cbn [snd] in Hd.
  apply Z.leb_le in Hd. destruct e; try reflexivity; exact Hd.
Qed.

Lemma momentumScore_parts days :
  (0 < List.length days)%nat ->
  trend (momentumScore days)
  = getMomentumTrend days (score (momentumScore days))
  /\ factors (momentumScore days)
     = Some {| consistency := calculateConsistencyScore days;
               growth := calculateGrowthScore days;
               balance := calculateBalanceScore days;
               intensity := calculateIntensityScore days |}.
Proof.
  intros H. unfold momentumScore.
  destruct (Nat.eqb_spec (List.length days) 0) as [E|E]; [lia|].
  split; reflexivity.
Qed.

(** X13.  Where the seven daily records that [getLast7DaysData] reads are
    [typedRecord]s (numbers where the XP are, [tasks] an array) and hold no
    negative XP, [calculateMomentumScore] returns an integer score between 0
    and 100 with its four factors between 0 and 100, and a trend that is one
    of [accelerating], [growing], [steady] and [declining]: [starting] and the
    undefined score of a short window cannot come out of the program.  The
    seven records are those of the keys the program computes in its time
    zone, whichever days these are. *)
Theorem calculateMomentumScore_on_a_store zone now st :
  (forall i, (i < 7)%nat ->
             typedRecord (dayRecord zone now st (Z.of_nat i)) = true
             /\ wellFormedRecord (dayRecord zone now st (Z.of_nat i))) ->
  let m := calculateMomentumScore zone now st in
  (exists z, score m = ofZ z /\ 0 <= z <= 100)
  /\ (exists f, factors m = Some f
                /\ in_range (consistency f) /\ in_range (growth f)
                /\ in_range (balance f) /\ in_range (intensity f))
  /\ In (trend m) ["accelerating"; "growing"; "steady"; "declining"].
Proof.
  intros Hwf m. subst m. unfold calculateMomentumScore.
  pose proof (getLast7DaysData_wellFormed zone now st Hwf) as Hdays.
  assert (Hlen : List.length (getLast7DaysData zone now st) = 7%nat)
    by (rewrite getLast7DaysData_days; reflexivity).
  set (days := getLast7DaysData zone now st) in *.
  assert (Hpos : (0 < List.length days)%nat) by lia.
  assert (H7 : (List.length days <= 7)%nat) by lia.
  pose proof (calculateConsistencyScore_range days H7) as Rc.
  assert (Rg : in_range (calculateGrowthScore days))
    by (apply calculateGrowthScore_range; lia).
  pose proof (calculateBalanceScore_range days Hdays Hpos) as Rb.
  pose proof (calculateIntensityScore_range days H7) as Ri.
  clearbody days.
  destruct (momentumScore_parts days Hpos) as [Ht Hf]. rewrite Ht, Hf.
  split; [|split].
  - rewrite (momentumScore_score _ Hpos).
    destruct Rc as (c & -> & Hc). destruct Rg as (g & -> & Hg).
    destruct Rb as (b & -> & Hb). destruct Ri as (i & -> & Hi).
    rewrite weighted_sum. eexists; split; [reflexivity|]. split.
    + apply round_nonneg. lra.
    + apply round_le_Z. change (inject_Z 100) with 100%Q. lra.
  - eexists; split; [reflexivity|]. cbn [consistency growth balance intensity].
    auto.
  - generalize (score (momentumScore days)). intros current.
    unfold getMomentumTrend. rewrite Hlen. cbn [Nat.ltb Nat.leb].
    repeat match goal with
           | |- context [if ?c then _ else _] => destruct c
           end; simpl; auto.
Qed.

(** X14.  On such a store (seven [typedRecord]s without negative XP under
    the keys that [getLast7DaysData] reads), as soon as the first three
    entries hold more than 315 XP together (an average above 105) the trend is
    [declining], whatever the entries after them hold: the score it is
    compared with cannot exceed 100. *)
Theorem calculateMomentumScore_declines_above_105 zone now st :
  (forall i, (i < 7)%nat ->
             typedRecord (dayRecord zone now st (Z.of_nat i)) = true
             /\ wellFormedRecord (dayRecord zone now st (Z.of_nat i))) ->
  315 < sumXP (firstn 3 (getLast7DaysData zone now st)) ->
  trend (calculateMomentumScore zone now st) = "declining".
Proof.
  intros Hwf Hsum. unfold calculateMomentumScore.
  pose proof (getLast7DaysData_wellFormed zone now st Hwf) as Hdays.
  assert (Hlen : List.length (getLast7DaysData zone now st) = 7%nat)
    by (rewrite getLast7DaysData_days; reflexivity).
  set (days := getLast7DaysData zone now st) in *.
  assert (Hpos : (0 < List.length days)%nat) by lia.
  assert (H7 : (List.length days <= 7)%nat) by lia.
  clearbody days.
  destruct (momentumScore_parts days Hpos) as [Ht _].
  rewrite Ht, (momentumScore_score _ Hpos).
  destruct (calculateConsistencyScore_range days H7) as (c & -> & Hc).
  destruct (calculateGrowthScore_range days) as (g & -> & Hg); [lia|].
  destruct (calculateBalanceScore_range days Hdays Hpos) as (b & -> & Hb).
  destruct (calculateIntensityScore_range days H7) as (i & -> & Hi).
  rewrite weighted_sum. apply getMomentumTrend_above_105; [lia| |exact Hsum].
  apply round_le_Z. change (inject_Z 100) with 100%Q. lra.
Qed.

(** ** Weak domains and the preview *)

Lemma domainXP_dayEntry zone now st i domain :
  In domain DOMAIN_KEYS ->
  domainXP (dayEntry zone now st i) domain
  = activityTotal (dayRecord zone now st (Z.of_nat i)) domain.
Proof.
  intros [<- | [<- | [<- | [<- | []]]]]; reflexivity.
Qed.

Lemma domainSum_week zone now st domain :
  In domain DOMAIN_KEYS ->
  domainSum (getLast7DaysData zone now st) domain = weekActivity zone now st domain.
Proof.
  intros Hin. rewrite getLast7DaysData_days. unfold domainSum, weekActivity.
  cbn [seq map fold_left sumZ fold_right].
  rewrite !(domainXP_dayEntry _ _ _ _ _ Hin). lia.
Qed.

(** An average over seven days is below 70% of the target of 40 exactly when
    the seven days hold less than 196. *)
Lemma weak_below_196 (sum : Z) :
  n_lt (ndiv (ofZ sum) (ofNat 7)) (nmul (ofZ 40) (Num (7 # 10)))
  = (sum <? 196).
Proof.
  rewrite average_is_number by lia. unfold ofZ. cbn [nmul lift2 n_lt].
  change (inject_Z (Z.of_nat 7)) with 7%Q. change (inject_Z 40) with 40%Q.
  destruct (Z.ltb_spec sum 196) as [Hlt|Hge].
  - destruct (Qle_bool (40 * (7 # 10)) (inject_Z sum / 7)) eqn:E; [|reflexivity].
    apply Qle_bool_iff in E.
    assert (H : (inject_Z sum / 7 < 28)%Q).
    { apply Qlt_shift_div_r; [reflexivity|].
      change (28 * 7)%Q with (inject_Z 196). now rewrite <- Zlt_Qlt. }
    lra.
  - assert (H : (28 <= inject_Z sum / 7)%Q).
    { apply Qle_shift_div_l; [reflexivity|].
      change (28 * 7)%Q with (inject_Z 196). now rewrite <- Zle_Qle. }
    assert (Qle_bool (40 * (7 # 10)) (inject_Z sum / 7) = true) as ->
        by (apply Qle_bool_iff; lra).
    reflexivity.
Qed.

Lemma findWeakDomains_week zone now st :
  findWeakDomains zone now st
  = map (fun domain =>
           {| WeakDomain.name := capitalize domain;
              WeakDomain.icon := getDomainIcon domain;
              WeakDomain.target := 40;
              WeakDomain.current :=
                ndiv (ofZ (weekActivity zone now st domain)) (ofNat 7) |})
        (filter (fun domain => weekActivity zone now st domain <? 196) DOMAIN_KEYS).
Proof.
  unfold findWeakDomains.
  assert (List.length (getLast7DaysData zone now st) = 7%nat) as ->
      by (rewrite getLast7DaysData_days; reflexivity).
  cbn [DOMAIN_KEYS map fold_left fst snd filter].
  rewrite !domainSum_week by (cbn; auto 6).
  change (domainTarget "creation") with 40.
  change (domainTarget "physical") with 40.
  change (domainTarget "meditation") with 40.
  change (domainTarget "recovery") with 40.
  rewrite !weak_below_196.
  destruct (weekActivity zone now st "creation" <? 196);
    destruct (weekActivity zone now st "physical" <? 196);
    destruct (weekActivity zone now st "meditation" <? 196);
    destruct (weekActivity zone now st "recovery" <? 196); reflexivity.
Qed.

(** X15.  Where the seven daily records that [getLast7DaysData] reads are
    [typedRecord]s, [findWeakDomains] reports exactly the domains whose
    activity XP over these seven records is below 196, in the order of
    [DOMAINS], each with target 40 and the average over the seven; the XP of
    completed tasks does not count for any domain. *)
Theorem findWeakDomains_below_196 zone now st :
  (forall i, (i < 7)%nat ->
             typedRecord (dayRecord zone now st (Z.of_nat i)) = true) ->
  map WeakDomain.name (findWeakDomains zone now st)
  = map capitalize
        (filter (fun domain => weekActivity zone now st domain <? 196) DOMAIN_KEYS)
  /\ Forall (fun weak =>
               WeakDomain.target weak = 40
               /\ exists domain,
                   In domain DOMAIN_KEYS
                   /\ weekActivity zone now st domain < 196
                   /\ WeakDomain.name weak = capitalize domain
                   /\ WeakDomain.current weak
                      = Num (inject_Z (weekActivity zone now st domain) / 7))
            (findWeakDomains zone now st).
Proof.
  intros _. rewrite findWeakDomains_week. split.
  - now rewrite map_map.
  - apply Forall_forall. intros weak Hweak. apply in_map_iff in Hweak.
    destruct Hweak as (domain & <- & Hin). apply filter_In in Hin.
    destruct Hin as [Hin Hlt]. apply Z.ltb_lt in Hlt.
    split; [reflexivity|]. exists domain.
    split; [exact Hin|]. split; [exact Hlt|]. split; [reflexivity|].
    cbn [WeakDomain.current]. now rewrite average_is_number by lia.
Qed.

(** X16.  Where the seven daily records that [getLast7DaysData] reads are
    [typedRecord]s, the preview of tomorrow names between one and four domain
    priorities: the weak domains (below 196 XP of activity over the seven
    records), each with the advice to aim for 50 XP, or, when no domain is
    weak, the four fixed suggestions. *)
Theorem generateTomorrowPreview_priorities zone now st :
  (forall i, (i < 7)%nat ->
             typedRecord (dayRecord zone now st (Z.of_nat i)) = true) ->
  let weak :=
    filter (fun domain => weekActivity zone now st domain <? 196) DOMAIN_KEYS in
  let priorities := Preview.domainPriorities (generateTomorrowPreview zone now st) in
  (1 <= List.length priorities <= 4)%nat
  /\ (weak <> [] ->
      priorities
      = map (fun domain =>
               {| Preview.name := capitalize domain;
                  Preview.icon := getDomainIcon domain;
                  Preview.recommendation := "Aim for 50 XP" |}) weak)
  /\ (weak = [] ->
      map Preview.name priorities
      = ["Creation"; "Physical"; "Meditation"; "Recovery"]
      /\ map Preview.recommendation priorities
         = ["Focus on industry networking"; "Add intensity to weakest exercise";
            "Extend session by 10 minutes"; "Quality sleep focus"]).
Proof.
  intros _ weak priorities. subst weak priorities. unfold generateTomorrowPreview.
  rewrite findWeakDomains_week.
  set (m := calculateMomentumScore zone now st).
  assert (Hp : forall (focus : string * string) l,
             Preview.domainPriorities
               (let '(focus, scaryTask) := focus in
                {| Preview.focus := focus; Preview.scaryTask := scaryTask;
                   Preview.domainPriorities := l |}) = l)
    by (intros [] l; reflexivity).
  rewrite Hp. clear Hp. cbn [DOMAIN_KEYS filter].
  destruct (weekActivity zone now st "creation" <? 196);
    destruct (weekActivity zone now st "physical" <? 196);
    destruct (weekActivity zone now st "meditation" <? 196);
    destruct (weekActivity zone now st "recovery" <? 196);
    (split; [cbn; lia|]); (split; [intros H|intros H]);
    try reflexivity; try discriminate H; try (now destruct H);
    split; reflexivity.
Qed.

(** ** The week *)

(** X17.  In a browser on UTC, [getWeekStart] gives the date of a Monday,
    today or one of the six days before it. *)
Theorem getWeekStart_is_the_last_monday now :
  exists k, 0 <= k <= 6
            /\ getWeekStart utcZone now = dateString (daysBefore utcZone now k)
            /\ getDay utcZone (daysBefore utcZone now k) = 1
            /\ k = (getDay utcZone now + 6) mod 7.
Proof.
  unfold getWeekStart, daysBefore. cbn [utcZone LocalTime UTC].
  set (zone := utcZone).
  assert (Hd : 0 <= getDay zone now < 7) by (unfold getDay; apply Z.mod_pos_bound; lia).
  assert (Hshift : forall k, getDay zone (now - k * msPerDay) = (getDay zone now - k) mod 7).
  { intros k. unfold getDay, zone. cbn [utcZone LocalTime UTC].
    replace (now - k * msPerDay) with (now + (- k) * msPerDay) by lia.
    rewrite Z.div_add by (unfold msPerDay; lia).
    rewrite Zminus_mod_idemp_l. f_equal. lia. }
  destruct (Z.eqb_spec (getDay zone now) 0) as [E|E].
  - exists 6. rewrite Hshift, E.
    split; [lia|]. split; [f_equal; lia|]. split; reflexivity.
  - exists (getDay zone now - 1). rewrite Hshift.
    split; [lia|]. split; [f_equal; lia|]. split.
    + replace (getDay zone now - (getDay zone now - 1)) with 1 by lia. reflexivity.
    + replace (getDay zone now + 6) with (getDay zone now - 1 + 1 * 7) by lia.
      rewrite Z.mod_add by lia. symmetry. apply Z.mod_small. lia.
Qed.

(** ** The undo history *)

Lemma removelast_snoc {A : Type} (l : list A) (x : A) :
  removelast (l ++ [x]) = l.
Proof. apply removelast_last. Qed.

(** X18.  [executeAction] runs the action and keeps the history to the last ten
    actions, the new one last; [undoLastAction] then runs the [undo] of that
    action and takes it off the history again. *)
Theorem executeAction_keeps_ten_actions (State : Type) (action : Action State)
  (s : State) (history : list (Action State)) :
  (List.length history <= MAX_HISTORY)%nat ->
  let '(s', history') := executeAction State action s history in
  s' = execute State action s
  /\ (List.length history' <= MAX_HISTORY)%nat
  /\ history' = (if (List.length history <? MAX_HISTORY)%nat
                 then history ++ [action]
                 else tl history ++ [action])%list
  /\ undoLastAction State s' history'
     = (undo State action s', removelast history').
Proof.
  intros Hlen. unfold executeAction.
  assert (Hlast : forall l : list (Action State),
             undoLastAction State (execute State action s) (l ++ [action])
             = (undo State action (execute State action s),
                removelast (l ++ [action]))).
  { intros l. unfold undoLastAction. now rewrite rev_app_distr. }
  rewrite length_app. cbn [List.length].
  destruct (Nat.ltb_spec (List.length history) MAX_HISTORY) as [Hlt|Hge].
  - assert ((MAX_HISTORY <? List.length history + 1)%nat = false) as ->
        by (apply Nat.ltb_ge; lia).
    repeat split.
    + rewrite length_app. cbn [List.length]. lia.
    + apply Hlast.
  - assert ((MAX_HISTORY <? List.length history + 1)%nat = true) as ->
        by (apply Nat.ltb_lt; lia).
    destruct history as [|a history]; [cbn in Hge; unfold MAX_HISTORY in Hge; lia|].
    cbn [app tl]. repeat split.
    + rewrite length_app. cbn [List.length] in *. lia.
    + apply Hlast.
Qed.

(** ** Runway *)

(** X19.  For monthly expenses above zero [updateRunway] shows the whole
    months the savings cover; the display is in danger below four months of
    expenses and good from seven months on; an empty or zero expenses field
    counts as expenses of 1. *)
Theorem updateRunway_months storage_error (savings expenses : Z) (st : Store) :
  0 < expenses ->
  let '(months, className, _) :=
    updateRunway storage_error (Some savings) (Some expenses) st in
  months * expenses <= savings < (months + 1) * expenses
  /\ (className = "runway-value status-danger" <-> savings < 4 * expenses)
  /\ (className = "runway-value status-warning"
      <-> 4 * expenses <= savings < 7 * expenses)
  /\ (className = "runway-value status-good" <-> 7 * expenses <= savings)
  /\ fst (fst (updateRunway storage_error (Some savings) None st)) = savings
  /\ fst (fst (updateRunway storage_error (Some savings) (Some 0) st)) = savings.
Proof.
  intros He. unfold updateRunway.
  assert ((expenses =? 0) = false) as -> by (apply Z.eqb_neq; lia).
  assert (Hs : (if savings =? 0 then 0 else savings) = savings)
    by (destruct (Z.eqb_spec savings 0); lia).
  rewrite Hs. cbn [fst Z.eqb]. rewrite Z.div_1_r.
  set (months := savings / expenses).
  assert (Hm : months * expenses <= savings < (months + 1) * expenses).
  { unfold months. pose proof (Z.div_mod savings expenses).
    pose proof (Z.mod_pos_bound savings expenses He). nia. }
  split; [exact Hm|].
  destruct (Z.leb_spec months 3) as [H3|H3];
    [|destruct (Z.leb_spec months 6) as [H6|H6]];
    repeat split; try reflexivity; try discriminate; intros; try nia.
Qed.

(** ** Career metrics *)

Lemma metric_keys_differ metric a b :
  In metric METRICS -> (metric ++ a)%string <> ("mastery_" ++ b)%string.
Proof.
  intros [<- | [<- | [<- | [<- | []]]]] H; cbn [append] in H; discriminate.
Qed.

Lemma history_keys_differ metric other s :
  In metric METRICS -> In other METRICS -> other <> metric ->
  (other ++ s)%string <> (metric ++ s)%string.
Proof.
  intros [<- | [<- | [<- | [<- | []]]]] [<- | [<- | [<- | [<- | []]]]] Hne H;
    try (now apply Hne); cbn [append] in H; congruence.
Qed.

Lemma metricCount_same_history now st st' metric :
  getItem st' (historyKey now metric) = getItem st (historyKey now metric) ->
  metricCount now st' metric = metricCount now st metric.
Proof.
  intros H. unfold metricCount, parse_or_empty_array.
  fold (historyKey now metric). now rewrite H.
Qed.

Section Metrics.

Variable storage_error : Store -> option string.
Hypothesis storage_fits : forall st, storage_error st = None.

Lemma setItem_fits st key i :
  setItem storage_error st key i = Return (assign key i st).
Proof. unfold setItem. now rewrite storage_fits. Qed.

(** X20.  Logging a metric with at least five characters of detail, on a
    history that is an array, raises the count that [loadMetrics] shows for
    that metric by one, stores the same count under the monthly key, and
    leaves the counts of the other three metrics as they are. *)
Theorem incrementMetric_adds_one now st metric detail elems props :
  In metric METRICS ->
  (5 <= String.length detail)%nat ->
  parse_or_empty_array st (historyKey now metric) = Return (VArr elems props) ->
  let st' := incrementMetric storage_error now st metric detail in
  metricCount now st' metric
  = Return (Some (Z.of_nat (List.length elems) + 1))
  /\ getItem st' (countKey now metric)
     = Some (Json (VNum (Z.of_nat (List.length elems) + 1)))
  /\ forall other, In other METRICS -> other <> metric ->
                   metricCount now st' other = metricCount now st other.
Proof.
  intros Hin Hlen Hparse st'. subst st'. unfold incrementMetric.
  assert ((String.length detail <? 5)%nat = false) as ->
      by (apply Nat.ltb_ge; exact Hlen).
  fold (historyKey now metric). fold (countKey now metric).
  unfold parse_or_empty_array in Hparse. rewrite Hparse.
  rewrite !setItem_fits. cbn [elements].
  set (entry := VObj _). set (history := VArr (elems ++ [entry]) props).
  assert (Hkeys : countKey now metric <> historyKey now metric).
  { unfold countKey, historyKey. intros H. symmetry in H.
    exact (metric_keys_differ _ _ _ Hin H). }
  assert (Hn : Z.of_nat (List.length (elems ++ [entry]))
               = Z.of_nat (List.length elems) + 1)
    by (rewrite length_app; cbn [List.length]; lia).
  rewrite Hn. split; [|split].
  - unfold metricCount, parse_or_empty_array. fold (historyKey now metric).
    unfold getItem. rewrite lookup_assign_other by exact Hkeys.
    rewrite lookup_assign_same. unfold history, JSON_stringify.
    cbn [item_falsy JSON_parse].
    cbn [value_length]. now rewrite Hn.
  - unfold getItem. apply lookup_assign_same.
  - intros other Hother Hne. apply metricCount_same_history.
    unfold getItem. rewrite !lookup_assign_other; [reflexivity| |].
    + unfold historyKey. intros H. symmetry in H.
      exact (history_keys_differ _ _ _ Hin Hother Hne H).
    + unfold countKey, historyKey. intros H. symmetry in H.
      exact (metric_keys_differ _ _ _ Hother H).
Qed.

(** ** Backup and restore *)

Lemma restore_clear_loop_cases fuel k :
  forall i st,
    lookup k (restore_clear_loop fuel i st) = lookup k st
    \/ (lookup k (restore_clear_loop fuel i st) = None /\ backed_up k = true).
Proof.
  induction fuel as [|fuel IH]; intros i st; cbn [restore_clear_loop].
  - now left.
  - destruct (nth_error st i) as [[key it]|]; [|now left].
    destruct (backed_up key) eqn:Hb.
    + destruct (IH (S i) (removeItem st key)) as [H | H]; [|now right].
      rewrite H. unfold removeItem.
      destruct (String.eqb key k) eqn:E.
      * apply String.eqb_eq in E. subst k. right.
        split; [|exact Hb]. rewrite <- H at 1. rewrite H.
        apply lookup_remove_same.
      * left. apply lookup_remove_other. intros ->.
        rewrite String.eqb_refl in E. discriminate.
    + apply IH.
Qed.

Lemma has_key_cons {A : Type} k key (v : A) l :
  has_key k ((key, v) :: l) = String.eqb k key || has_key k l.
Proof. reflexivity. Qed.

(** What the writes of the restore leave under a key. *)
Lemma restore_entries_lookup (all : Backup) k :
  forall rest st,
    lookup k (restore_entries storage_error all rest st)
    = match lookup k all with
      | Some v =>
          if has_key k rest && negb (String.eqb k "_metadata")
          then Some (restore_value v) else lookup k st
      | None => lookup k st
      end.
Proof.
  induction rest as [|[key b] rest IH]; intros st.
  - cbn [restore_entries]. destruct (lookup k all); reflexivity.
  - cbn [restore_entries]. rewrite has_key_cons.
    destruct (String.eqb key "_metadata") eqn:Em.
    + rewrite IH. apply String.eqb_eq in Em. subst key.
      destruct (lookup k all); [|reflexivity].
      destruct (String.eqb k "_metadata"); cbn [orb negb andb];
        [now rewrite andb_false_r | reflexivity].
    + destruct (lookup key all) as [v|] eqn:Ek.
      * rewrite setItem_fits, IH.
        destruct (String.eqb k key) eqn:E.
        -- apply String.eqb_eq in E. subst k. rewrite Ek, Em.
           cbn [orb negb andb]. rewrite lookup_assign_same.
           destruct (has_key key rest); reflexivity.
        -- cbn [orb]. rewrite lookup_assign_other; [reflexivity|].
           intros ->. rewrite String.eqb_refl in E. discriminate.
      * rewrite IH. destruct (String.eqb k key) eqn:E; [|reflexivity].
        apply String.eqb_eq in E. subst k. now rewrite Ek.
Qed.

(** X21.  Restoring the backup of a store brings every backed-up item of the
    store back with its stored string and leaves the keys outside the backup
    filter as they are; on a store that holds the same backed-up items the
    restore changes nothing. *)
Theorem restoreSystemBackup_brings_back now st st0 :
  let backup := fst (backupEntireSystem storage_error now st) in
  let restored := restoreSystemBackup storage_error backup true st0 in
  (forall k, backed_up k = true -> has_key k st = true ->
             getItem restored k = getItem st k)
  /\ (forall k, backed_up k = false -> getItem restored k = getItem st0 k)
  /\ ((forall k, backed_up k = true -> getItem st0 k = getItem st k) ->
      forall k, getItem restored k = getItem st0 k).
Proof.
  intros backup restored.
  assert (Hmeta : exists m, lookup "_metadata" backup = Some (Meta m)
                            /\ system m = "Hollywood Mastery Destiny Protocol").
  { subst backup. unfold backupEntireSystem.
    destruct (setItem storage_error st "last_backup_time" _); cbn [fst];
      rewrite lookup_assign_same; eexists; split; reflexivity. }
  destruct Hmeta as (m & Hm & Hsys).
  set (cleared := restore_clear_loop (List.length st0) 0 st0).
  assert (Hrestored : restored = restore_entries storage_error backup backup cleared).
  { subst restored. unfold restoreSystemBackup. rewrite Hm, Hsys. reflexivity. }
  assert (Hin : forall k, backed_up k = true -> has_key k st = true ->
                          getItem restored k = getItem st k).
  { intros k Hb Hk.
    assert (Hne : k <> "_metadata") by (intros ->; discriminate Hb).
    pose proof (backupEntireSystem_lookup storage_error now st k Hne) as Hl.
    fold backup in Hl. rewrite Hb, Hk in Hl. cbn [andb] in Hl.
    rewrite Hrestored. unfold getItem at 1. rewrite restore_entries_lookup, Hl.
    assert (has_key k backup = true) as -> by (apply lookup_has_key; eauto).
    assert (String.eqb k "_metadata" = false) as ->
        by (apply String.eqb_neq; exact Hne).
    cbn [andb negb]. apply lookup_has_key in Hk. destruct Hk as [i Hi].
    unfold getItem. now rewrite Hi. }
  assert (Hout : forall k, backed_up k = false ->
                           getItem restored k = getItem st0 k).
  { intros k Hb. rewrite Hrestored. unfold getItem.
    rewrite restore_entries_lookup.
    assert (Hc : lookup k cleared = lookup k st0).
    { destruct (restore_clear_loop_cases (List.length st0) k 0 st0)
        as [H | [_ H]]; [exact H | congruence]. }
    destruct (String.eqb_spec k "_metadata") as [->|Hne].
    - rewrite Hm, andb_false_r. exact Hc.
    - pose proof (backupEntireSystem_lookup storage_error now st k Hne) as Hl.
      fold backup in Hl. rewrite Hb in Hl. cbn [andb] in Hl.
      now rewrite Hl. }
  split; [exact Hin|]. split; [exact Hout|].
  intros Hsame k. destruct (backed_up k) eqn:Hb; [|now apply Hout].
  destruct (has_key k st) eqn:Hk.
  - rewrite (Hin k Hb Hk). symmetry. now apply Hsame.
  - assert (Hne : k <> "_metadata") by (intros ->; discriminate Hb).
    pose proof (backupEntireSystem_lookup storage_error now st k Hne) as Hl.
    fold backup in Hl. rewrite Hb, Hk in Hl. cbn [andb] in Hl.
    rewrite Hrestored. unfold getItem at 1. rewrite restore_entries_lookup, Hl.
    assert (Hnone : getItem st k = None).
    { unfold getItem. destruct (lookup k st) eqn:E; [|reflexivity].
      assert (has_key k st = true) by (apply lookup_has_key; eauto).
      congruence. }
    destruct (restore_clear_loop_cases (List.length st0) k 0 st0)
      as [H | [H _]]; fold cleared in H; rewrite H; [reflexivity|].
    symmetry. rewrite (Hsame k Hb). exact Hnone.
Qed.

End Metrics.

(** ** Editing a task; completion *)



Section Edits.

Variable zone : TimeZone.
Variable Date_parse : string -> option Z.
Variable storage_error : Store -> option string.
Hypothesis storage_fits : forall st, storage_error st = None.


End Edits.

(** X23.  A day that [checkTodayCompletion] accepts is complete for
    [loadStreak] too, and never at risk: the stored [totalXP] that the first
    reads is what the second prefers. *)
Theorem checkTodayCompletion_implies_todayComplete zone now st :
  checkTodayCompletion now st = true ->
  todayComplete (loadStreak zone now st) = true
  /\ streakAtRisk (loadStreak zone now st) = false.
Proof.
  unfold checkTodayCompletion, loadStreak. cbn [todayComplete streakAtRisk].
  set (data := safeLocalStorageGet st (dayKey now) (VObj [])).
  intros H. apply andb_prop in H. destruct H as [Ha Hx]. rewrite Ha.
  assert (He : (160 <=? effectiveXP data) = true).
  { unfold effectiveXP.
    destruct (prop "totalXP" data) as [[| | n | | |]|]; try discriminate Hx.
    cbn [truthy_opt truthy num] in *.
    destruct (Z.eqb_spec n 0) as [->|]; [discriminate Hx|exact Hx]. }
  rewrite He. split; reflexivity.
Qed.

(** ** Worked instances *)

Lemma clearOldData_only_removes_old_dated_keys_witness :
  getItem sample_old_keys "mastery_2020-1-1" <> None
  /\ getItem (clearOldData utcZone lenient_dates sample_now sample_old_keys)
             "mastery_2020-1-1" = None
  /\ String.length "mastery_2020-1-1" = 16%nat
  /\ exists date, lenient_dates (strip_prefix "mastery_2020-1-1") = Some date
                  /\ date < monthsBefore utcZone sample_now 3.
Proof.
  split; [discriminate|]. split; [vm_compute; reflexivity|].
  apply (proj2 (clearOldData_only_removes_old_dated_keys
                  utcZone lenient_dates sample_now sample_old_keys
                  "mastery_2020-1-1")).
  - discriminate.
  - vm_compute. reflexivity.
Defined.

Lemma safeLocalStorageSet_stores_or_keeps_witness :
  getItem (snd (safeLocalStorageSet utcZone strict_dates roomy sample_now sample_two_days
                                    "current_intensity" (VNum 3)))
          "current_intensity" = Some (Json (VNum 3))
  /\ getItem (snd (safeLocalStorageSet utcZone strict_dates crowded sample_now
                                       sample_two_days "current_intensity"
                                       (VNum 3)))
             "mastery_2026-11-01" = getItem sample_two_days "mastery_2026-11-01".
Proof.
  split.
  - apply (proj1 (safeLocalStorageSet_stores_or_keeps
                    utcZone strict_dates roomy sample_now sample_two_days
                    "current_intensity" (VNum 3))).
    vm_compute. reflexivity.
  - apply (proj1 (proj2 (safeLocalStorageSet_stores_or_keeps
                           utcZone strict_dates crowded sample_now sample_two_days
                           "current_intensity" (VNum 3)))).
    + vm_compute. reflexivity.
    + discriminate.
Defined.

Lemma safeLocalStorage_round_trip_witness :
  jsonValue (VNum 3) = true
  /\ fst (safeLocalStorageSet utcZone strict_dates roomy sample_now sample_two_days
                           "current_intensity" (VNum 3)) = true
  /\ safeLocalStorageGet
       (snd (safeLocalStorageSet utcZone strict_dates roomy sample_now sample_two_days
                                 "current_intensity" (VNum 3)))
       "current_intensity" VNull = VNum 3.
Proof.
  assert (Hjson : jsonValue (VNum 3) = true) by reflexivity.
  split; [exact Hjson|]. split; [vm_compute; reflexivity|].
  apply (proj1 (safeLocalStorage_round_trip
                  utcZone strict_dates roomy sample_now sample_two_days
                  "current_intensity" (VNum 3) VNull eq_refl Hjson)).
  vm_compute. reflexivity.
Defined.

Lemma loadStreak_count_ignores_today_witness :
  steadyClock utcZone sample_now 30
  /\ currentStreak (loadStreak utcZone sample_now sample_streak_today)
     = currentStreak (loadStreak utcZone sample_now sample_streak_store).
Proof.
  split; [apply steadyClock_utc|].
  apply loadStreak_count_ignores_today.
  - apply steadyClock_utc.
  - unfold fourDigitYears. vm_compute. split; [discriminate|reflexivity].
  - unfold fourDigitYears. vm_compute. split; [discriminate|reflexivity].
  - intros k Hk _. unfold sample_streak_today, getItem.
    apply lookup_assign_other. congruence.
Defined.

Lemma getLast7DaysData_dates_differ_witness :
  steadyClock utcZone sample_now 6
  /\ NoDup (map date (getLast7DaysData utcZone sample_now sample_steady_week)).
Proof.
  split; [apply steadyClock_utc|].
  apply getLast7DaysData_dates_differ;
    [apply steadyClock_utc|..];
    unfold fourDigitYears; vm_compute; (split; [discriminate|reflexivity]).
Defined.

Lemma addTask_appends_without_XP_witness :
  taskRecord (todayRecord sample_now sample_two_days) = true
  /\ currentXP (todayRecord sample_now
                  (addTask utcZone strict_dates roomy sample_now sample_two_days
                           "Call the agent" "critical" 5))
     = currentXP (todayRecord sample_now sample_two_days).
Proof.
  split; [vm_compute; reflexivity|].
  apply (addTask_appends_without_XP utcZone strict_dates roomy (fun st => eq_refl)
           sample_now sample_two_days "Call the agent" "critical" 5).
  - discriminate.
  - vm_compute. reflexivity.
Defined.

Lemma deleteTask_removes_by_id_witness :
  taskRecord (todayRecord sample_now sample_two_days) = true
  /\ Forall (fun t => has_id 1 t = false)
            (elements
               (prop "tasks"
                  (todayRecord sample_now
                     (deleteTask utcZone strict_dates roomy sample_now sample_two_days
                                 true 1)))).
Proof.
  split; [vm_compute; reflexivity|].
  apply (deleteTask_removes_by_id utcZone strict_dates roomy (fun st => eq_refl)
           sample_now sample_two_days 1).
  vm_compute. reflexivity.
Defined.



Lemma saveAlignment_completes_the_day_witness :
  typedRecord (todayRecord sample_now sample_worked_store) = true
  /\ checkTodayCompletion sample_now sample_aligned_store = true
  /\ todayComplete (loadStreak utcZone sample_now sample_aligned_store) = true
  /\ streakAtRisk (loadStreak utcZone sample_now sample_aligned_store) = false
  /\ 1 <= currentStreak
            (loadStreak utcZone (sample_now + msPerDay) sample_aligned_store).
Proof.
  assert (Htyped : typedRecord (todayRecord sample_now sample_worked_store) = true)
    by (vm_compute; reflexivity).
  split; [exact Htyped|].
  assert (Hlen : (30 <= String.length sample_reason)%nat) by (vm_compute; lia).
  assert (Hxp : 160 <= currentXP (todayRecord sample_now sample_worked_store))
    by (vm_compute; discriminate).
  pose proof (proj1 (saveAlignment_completes_the_day utcZone strict_dates roomy
                       (fun st => eq_refl) sample_now sample_worked_store
                       sample_reason Htyped) Hlen Hxp) as H.
  assert (Hst : saveAlignment utcZone strict_dates roomy sample_now
                              sample_worked_store sample_reason
                = sample_aligned_store) by (vm_compute; reflexivity).
  rewrite Hst in H.
  destruct H as (H1 & H2 & H3 & H4).
  split; [exact H1|]. split; [exact H2|]. split; [exact H3|].
  apply H4. apply steadyClock_utc.
Defined.

Lemma calculateHollywoodProbability_monotone_witness :
  total (calculateHollywoodProbability 10 5 2 0)
  <= total (calculateHollywoodProbability 11 5 2 1).
Proof.
  apply (calculateHollywoodProbability_monotone 10 11 5 5 2 2 0 1); lia.
Defined.

Lemma calculateMomentumScore_on_a_store_witness :
  exists z, score (calculateMomentumScore utcZone sample_now sample_steady_week) = ofZ z
            /\ 0 <= z <= 100.
Proof.
  apply (calculateMomentumScore_on_a_store utcZone sample_now sample_steady_week).
  intros i Hi.
  do 7 (destruct i as [|i];
        [split; [|apply nonnegRecord_wellFormed]; vm_compute; reflexivity|]).
  lia.
Defined.

Lemma calculateMomentumScore_declines_above_105_witness :
  trend (calculateMomentumScore utcZone sample_now sample_steady_week) = "declining".
Proof.
  apply calculateMomentumScore_declines_above_105.
  - intros i Hi.
    do 7 (destruct i as [|i];
          [split; [|apply nonnegRecord_wellFormed]; vm_compute; reflexivity|]).
    lia.
  - vm_compute. reflexivity.
Defined.

Lemma sample_steady_week_typed i :
  (i < 7)%nat ->
  typedRecord (dayRecord utcZone sample_now sample_steady_week (Z.of_nat i)) = true.
Proof.
  intros Hi. do 7 (destruct i as [|i]; [vm_compute; reflexivity|]). lia.
Qed.

Lemma generateTomorrowPreview_priorities_witness :
  map Preview.name
      (Preview.domainPriorities
         (generateTomorrowPreview utcZone sample_now sample_steady_week))
  = ["Creation"; "Physical"; "Meditation"; "Recovery"].
Proof.
  apply (proj2 (proj2 (generateTomorrowPreview_priorities
                         utcZone sample_now sample_steady_week
                         sample_steady_week_typed))).
  vm_compute. reflexivity.
Defined.

Lemma findWeakDomains_below_196_witness :
  map WeakDomain.name (findWeakDomains utcZone sample_now sample_two_days)
  = ["Physical"; "Meditation"; "Recovery"].
Proof.
  assert (Htyped : forall i, (i < 7)%nat ->
             typedRecord (dayRecord utcZone sample_now sample_two_days (Z.of_nat i))
             = true).
  { intros i Hi. do 7 (destruct i as [|i]; [vm_compute; reflexivity|]). lia. }
  rewrite (proj1 (findWeakDomains_below_196 utcZone sample_now sample_two_days
                    Htyped)).
  vm_compute. reflexivity.
Defined.

Lemma executeAction_keeps_ten_actions_witness :
  let '(s', history') :=
    executeAction Store (TaskAction Store 1 "add" VNull) sample_two_days [] in
  s' = sample_two_days
  /\ (List.length history' <= MAX_HISTORY)%nat
  /\ history' = [TaskAction Store 1 "add" VNull]
  /\ undoLastAction Store s' history' = (sample_two_days, removelast history').
Proof.
  apply (executeAction_keeps_ten_actions Store (TaskAction Store 1 "add" VNull)
           sample_two_days []).
  unfold MAX_HISTORY. cbn. lia.
Defined.

Lemma updateRunway_months_witness :
  fst (fst (updateRunway roomy (Some 15000) (Some 3500) [])) * 3500 <= 15000.
Proof.
  pose proof (updateRunway_months roomy 15000 3500 []) as H.
  cbv zeta in H.
  destruct (updateRunway roomy (Some 15000) (Some 3500) []) as [[months c] st].
  apply H. lia.
Defined.

Lemma incrementMetric_adds_one_witness :
  metricCount sample_now
    (incrementMetric roomy sample_now sample_aligned_store "tier1-auditions"
                     "Netflix pilot") "tier1-auditions"
  = Return (Some 1).
Proof.
  apply (incrementMetric_adds_one roomy (fun st => eq_refl) sample_now
           sample_aligned_store "tier1-auditions" "Netflix pilot" [] []).
  - now left.
  - cbn. lia.
  - reflexivity.
Defined.

Lemma restoreSystemBackup_brings_back_witness :
  getItem (restoreSystemBackup roomy
             (fst (backupEntireSystem roomy sample_now sample_aligned_store))
             true [])
          "mastery_2026-11-02"
  = getItem sample_aligned_store "mastery_2026-11-02".
Proof.
  apply (proj1 (restoreSystemBackup_brings_back roomy (fun st => eq_refl)
                  sample_now sample_aligned_store [])).
  - reflexivity.
  - vm_compute. reflexivity.
Defined.


Lemma checkTodayCompletion_implies_todayComplete_witness :
  todayComplete (loadStreak utcZone sample_now sample_aligned_store) = true
  /\ streakAtRisk (loadStreak utcZone sample_now sample_aligned_store) = false.
Proof.
  apply checkTodayCompletion_implies_todayComplete.
  vm_compute. reflexivity.
Defined.



Lemma totalXP_follows_the_record_witness :
  typedRecord (todayRecord sample_now sample_worked_store) = true
  /\ prop "totalXP" (todayRecord sample_now sample_aligned_store)
     = Some (VNum 165)
  /\ totalIsCurrent sample_now sample_aligned_store
  /\ totalIsCurrent sample_now
       (updateDomainProgress utcZone strict_dates roomy sample_now
                             sample_aligned_store)
  /\ totalIsCurrent sample_now
       (addTask utcZone strict_dates roomy sample_now sample_aligned_store
                "Call the agent" "critical" 5).
Proof.
  assert (Htyped : typedRecord (todayRecord sample_now sample_worked_store) = true)
    by (vm_compute; reflexivity).
  assert (Hlen : (30 <= String.length sample_reason)%nat) by (vm_compute; lia).
  assert (Hcur : domainActivityXP (todayRecord sample_now sample_worked_store)
                 + completedTaskXP (todayRecord sample_now sample_worked_store)
                 = 165)
    by (vm_compute; reflexivity).
  assert (Hxp : 160 <= domainActivityXP (todayRecord sample_now sample_worked_store)
                       + completedTaskXP (todayRecord sample_now
                                                      sample_worked_store))
    by (rewrite Hcur; lia).
  pose proof (proj1 (totalXP_follows_the_record
                       utcZone strict_dates roomy (fun st => eq_refl)
                       sample_now sample_worked_store Htyped)
                    sample_reason Hlen Hxp) as Hsave.
  cbv zeta in Hsave. fold sample_aligned_store in Hsave.
  rewrite Hcur in Hsave. destruct Hsave as (_ & Htotal & Hfollows).
  assert (Htyped' : typedRecord (todayRecord sample_now sample_aligned_store)
                    = true) by (vm_compute; reflexivity).
  assert (Ha : prop "alignment" (todayRecord sample_now sample_aligned_store)
               = Some (VBool true)) by (vm_compute; reflexivity).
  assert (Hknown : knownCategories (todayRecord sample_now sample_aligned_store)
                   = true) by (vm_compute; reflexivity).
  pose proof (proj2 (totalXP_follows_the_record
                       utcZone strict_dates roomy (fun st => eq_refl)
                       sample_now sample_aligned_store Htyped')
                    Ha Hknown) as (Hprogress & Hadd & _).
  assert (Htext : "Call the agent" <> "") by discriminate.
  assert (Hcat : lookup "critical" TASK_CATEGORIES <> None)
    by (vm_compute; discriminate).
  split; [exact Htyped|]. split; [exact Htotal|]. split; [exact Hfollows|].
  split; [exact Hprogress|].
  exact (Hadd "Call the agent" "critical" 5 Htext Hcat).
Defined.
